(** * Cashflow: the transaction extractor, the ledger update and the three
    analysis passes of [app.py], embedded in Rocq.

    Conventions of the embedding.

    - A Python string is a list of Unicode code points ([str]).  String
      literals of the source are written [py "..."], which decodes the UTF-8
      bytes of the literal.
    - What [str.lower], the regular-expression classes [\s] and [\d] and the
      digit values used by [int]/[float] do on a code point is decided by the
      Unicode tables of the interpreter.  They are the fields of the class
      [Unicode]; every general theorem holds for every instance.  The instance
      [ascii_unicode] agrees with CPython on ASCII text and is used to run the
      definitions on concrete inputs.
    - Python floats, numpy's [float64] and SQLite's REAL are IEEE 754
      binary64 numbers: [float] is the [spec_float] of the Standard Library
      at precision 53 and maximal exponent 1024, with its operations
      ([SFadd], [SFmul], [SFdiv], [SFsqrt]: round to nearest, ties to even).
      [float(...)] of a decimal string is the nearest float; [sum] adds from
      left to right starting at 0 (CPython 3.11); [np.mean] and [np.std] add
      in the order of numpy's pairwise summation; SQLite's [SUM] adds in
      row order.  No column holds NULL or a NaN: the program writes none.
    - A Python [int] is an integer of any size ([Z]); [int(...)] of a string
      of more than 4300 digits raises [ValueError].  An SQLite INTEGER has
      64 bits: a sum or a difference of two of them that does not fit is
      computed and stored as a REAL.
    - An exception is a value of [exn]; code that can raise returns a
      [result].
    - The SQLite database is a record of two tables, each a list of rows in
      rowid order; the clock readings of a request are inputs. *)

From Stdlib Require Import ZArith NArith QArith Qround Qabs Qreals Reals.
From Stdlib Require Import Lia Lqa Lra String Ascii SpecFloat.
From stdpp Require Import base option list gmap sorting.

(** ** Text *)

Abbreviation str := (list N).

(** Decoding of the UTF-8 bytes of a source literal into code points. *)
Fixpoint utf8_decode (bs : list N) : str :=
  match bs with
  | [] => []
  | b :: rest =>
      if (b <? 128)%N then b :: utf8_decode rest
      else if (b <? 224)%N then
        match rest with
        | b1 :: r => ((b - 192) * 64 + (b1 - 128))%N :: utf8_decode r
        | _ => []
        end
      else if (b <? 240)%N then
        match rest with
        | b1 :: b2 :: r =>
            ((b - 224) * 4096 + (b1 - 128) * 64 + (b2 - 128))%N :: utf8_decode r
        | _ => []
        end
      else
        match rest with
        | b1 :: b2 :: b3 :: r =>
            ((b - 240) * 262144 + (b1 - 128) * 4096 + (b2 - 128) * 64
             + (b3 - 128))%N :: utf8_decode r
        | _ => []
        end
  end.

Definition py (s : string) : str :=
  utf8_decode (List.map N_of_ascii (list_ascii_of_string s)).

Definition chr (s : string) : N :=
  match py s with c :: _ => c | [] => 0%N end.

(** [p] is a prefix of [s]. *)
Fixpoint startswith (s p : str) : bool :=
  match p, s with
  | [], _ => true
  | a :: p', b :: s' => (a =? b)%N && startswith s' p'
  | _ :: _, [] => false
  end.

(** Python's [p in s] on strings. *)
Fixpoint contains (s p : str) : bool :=
  startswith s p ||
  match s with
  | [] => false
  | _ :: s' => contains s' p
  end.

(** Comparison of two TEXT values under SQLite's BINARY collation. *)
Fixpoint text_leb (a b : str) : bool :=
  match a, b with
  | [], _ => true
  | _ :: _, [] => false
  | x :: a', y :: b' => (x <? y)%N || ((x =? y)%N && text_leb a' b')
  end.

Definition text_eqb (a b : str) : bool := bool_decide (a = b).

(** ** The interpreter's Unicode tables *)

Class Unicode := {
  (** [str.lower] *)
  str_lower : str -> str;
  (** the class [\s] of [re] on a [str] pattern *)
  isspace : N -> bool;
  (** the class [\d]: [Some d] for a decimal digit of value [d] *)
  decimal : N -> option N;
}.

Definition ascii_lower (c : N) : N :=
  if (65 <=? c)%N && (c <=? 90)%N then (c + 32)%N else c.

Definition ascii_isspace (c : N) : bool :=
  ((9 <=? c)%N && (c <=? 13)%N) || ((28 <=? c)%N && (c <=? 32)%N).

Definition ascii_decimal (c : N) : option N :=
  if (48 <=? c)%N && (c <=? 57)%N then Some (c - 48)%N else None.

Definition ascii_unicode : Unicode := {|
  str_lower := List.map ascii_lower;
  isspace := ascii_isspace;
  decimal := ascii_decimal;
|}.

(** ** Exceptions *)

Inductive exn : Type :=
| ValueError
| ZeroDivisionError
| OverflowError
| AttributeError
| TypeError.

Inductive result (A : Type) : Type :=
| Return (a : A)
| Raise (e : exn).
Arguments Return {A} a.
Arguments Raise {A} e.

Definition bind {A B : Type} (m : result A) (f : A -> result B) : result B :=
  match m with
  | Return a => f a
  | Raise e => Raise e
  end.

Notation "'do' x <- m ; f" := (bind m (fun x => f))
  (at level 10, x name, m at level 100, f at level 200).

(** ** Floats *)

Abbreviation float := spec_float.

Definition prec : Z := 53.
Definition emax : Z := 1024.

Definition float_add : float -> float -> float := SFadd prec emax.
Definition float_sub : float -> float -> float := SFsub prec emax.
Definition float_mul : float -> float -> float := SFmul prec emax.
Definition float_div : float -> float -> float := SFdiv prec emax.
Definition float_sqrt : float -> float := SFsqrt prec emax.
Definition float_opp : float -> float := SFopp.
Definition float_ltb : float -> float -> bool := SFltb.
Definition float_leb : float -> float -> bool := SFleb.
Definition float_eqb : float -> float -> bool := SFeqb.

Definition float_zero : float := S754_zero false.

(** [float(z)] for an [int]: the nearest float, an infinity when [z] is
    beyond the largest one (where Python raises, see [py_truediv]). *)
Definition float_of_Z (z : Z) : float := binary_normalize prec emax z 0 false.

Definition float_of_nat (n : nat) : float := float_of_Z (Z.of_nat n).

(** The float nearest to [n / d], of sign [s] (for [0 <= n]). *)
Definition float_of_ratio (s : bool) (n : Z) (d : positive) : float :=
  match n with
  | Zpos m => float_div (S754_finite s m 0) (S754_finite false d 0)
  | _ => S754_zero s
  end.

(** The float nearest to the decimal number of digits [n] with [k] of them
    after the point. *)
Definition float_of_decimal (n : N) (k : nat) : float :=
  float_of_ratio false (Z.of_N n) (Z.to_pos (10 ^ Z.of_nat k)).

(** The number a finite float is; 0 for the others. *)
Definition float_value (x : float) : Q :=
  match x with
  | S754_finite s m e => inject_Z (if s then Z.neg m else Z.pos m) * (2 # 1) ^ e
  | _ => 0
  end.

(** The integer a float is, when it is one. *)
Definition float_to_Z (x : float) : option Z :=
  match x with
  | S754_zero _ => Some 0%Z
  | S754_finite s m e =>
      let z := if s then Z.neg m else Z.pos m in
      if (0 <=? e)%Z then Some (z * 2 ^ e)%Z
      else if (Z.pos m mod 2 ^ (- e) =? 0)%Z then Some (z / 2 ^ (- e))%Z
      else None
  | _ => None
  end.

(** Rounding of a rational to the nearest integer, ties to even. *)
Definition Qrint (q : Q) : Z :=
  let n := Qfloor q in
  match (q - inject_Z n ?= 1 # 2)%Q with
  | Lt => n
  | Gt => (n + 1)%Z
  | Eq => if Z.even n then n else (n + 1)%Z
  end.

(** [round(x, 2)] on a Python float: the decimal of two places nearest to
    the number [x] is (ties to even), then the float nearest to that
    decimal; an infinity or a NaN is returned as it is. *)
Definition py_round2 (x : float) : float :=
  match x with
  | S754_finite s _ _ =>
      float_of_ratio s (Qrint (Qabs (float_value x) * 100)) 100
  | _ => x
  end.

(** [np.rint]: the nearest integer, ties to even, as a float. *)
Definition float_rint (x : float) : float :=
  match x with
  | S754_finite s _ e =>
      if (0 <=? e)%Z then x
      else
        match Qrint (Qabs (float_value x)) with
        | Zpos m => float_of_Z (if s then Z.neg m else Z.pos m)
        | _ => S754_zero s
        end
  | _ => x
  end.

(** [round(x, 2)] on a numpy float: [np.round] multiplies by 100, rounds
    with [np.rint] and divides by 100. *)
Definition np_round2 (x : float) : float :=
  float_div (float_rint (float_mul x (float_of_Z 100))) (float_of_Z 100).

(** Python's [sum] on a list of floats: from 0, left to right. *)
Definition py_sum (l : list float) : float := fold_left float_add l float_zero.

(** numpy's pairwise summation of [n] floats ([pairwise_sum] of the add
    loop): below 8 elements one after the other; up to 128 elements with
    eight running sums over the blocks of eight, added two by two, then the
    elements left over; above, the two halves, the first a multiple of
    eight long. *)
Definition add8 (r a : list float) : list float :=
  List.map (fun p => float_add (fst p) (snd p)) (combine r a).

Fixpoint unrolled (blocks : nat) (r a : list float) : list float * list float :=
  match blocks with
  | O => (r, a)
  | S b => unrolled b (add8 r (take 8 a)) (drop 8 a)
  end.

Definition pairwise_block (a : list float) : float :=
  let n := length a in
  let '(r, rest) := unrolled (n / 8 - 1) (take 8 a) (drop 8 a) in
  match r with
  | [r0; r1; r2; r3; r4; r5; r6; r7] =>
      fold_left float_add rest
        (float_add
           (float_add (float_add r0 r1) (float_add r2 r3))
           (float_add (float_add r4 r5) (float_add r6 r7)))
  | _ => S754_nan
  end.

Fixpoint pairwise_sum (fuel : nat) (a : list float) : float :=
  let n := length a in
  if (n <? 8)%nat then fold_left float_add a float_zero
  else if (n <=? 128)%nat then pairwise_block a
  else
    match fuel with
    | O => S754_nan
    | S fuel' =>
        let n2 := (n / 2 - (n / 2) mod 8)%nat in
        float_add (pairwise_sum fuel' (take n2 a))
          (pairwise_sum fuel' (drop n2 a))
    end.

(** [np.add.reduce]: the identity 0 plus the pairwise sum. *)
Definition np_sum (a : list float) : float :=
  float_add float_zero (pairwise_sum (length a) a).

(** [np.mean]: the sum divided by the count. *)
Definition np_mean (a : list float) : float :=
  float_div (np_sum a) (float_of_nat (length a)).

(** [np.var]: the mean is taken off every element, the differences are
    squared, summed and divided by the count. *)
Definition np_var (a : list float) : float :=
  let arrmean := float_div (np_sum a) (float_of_nat (length a)) in
  let x := List.map (fun v => float_sub v arrmean) a in
  let x := List.map (fun v => float_mul v v) x in
  float_div (np_sum x) (float_of_nat (length a)).

(** [np.std]: the square root of [np.var]. *)
Definition np_std (a : list float) : float := float_sqrt (np_var a).

(** ** Numbers of SQLite *)

Inductive sqlnum : Type :=
| SqlInt (z : Z)
| SqlReal (x : float).

Definition int64 (z : Z) : bool := ((- 2 ^ 63 <=? z) && (z <? 2 ^ 63))%Z.

Definition sql_real (v : sqlnum) : float :=
  match v with
  | SqlInt z => float_of_Z z
  | SqlReal x => x
  end.

(** [a + b]: on two INTEGERs the integer sum when it has 64 bits; the sum of
    the operands as REALs in every other case. *)
Definition sql_add (a b : sqlnum) : sqlnum :=
  match a, b with
  | SqlInt x, SqlInt y =>
      if int64 (x + y) then SqlInt (x + y)
      else SqlReal (float_add (float_of_Z x) (float_of_Z y))
  | _, _ => SqlReal (float_add (sql_real a) (sql_real b))
  end.

(** [a - b] *)
Definition sql_sub (a b : sqlnum) : sqlnum :=
  match a, b with
  | SqlInt x, SqlInt y =>
      if int64 (x - y) then SqlInt (x - y)
      else SqlReal (float_sub (float_of_Z x) (float_of_Z y))
  | _, _ => SqlReal (float_sub (sql_real a) (sql_real b))
  end.

(** What a column of INTEGER affinity stores: a REAL that is an integer
    strictly between the least and the greatest INTEGER becomes that
    INTEGER, every other value is stored as it is. *)
Definition integer_affinity (v : sqlnum) : sqlnum :=
  match v with
  | SqlInt _ => v
  | SqlReal x =>
      match float_to_Z x with
      | Some z => if ((- 2 ^ 63 <? z) && (z <? 2 ^ 63 - 1))%Z then SqlInt z else v
      | None => v
      end
  end.

(** [a <= b] for an INTEGER [b]: the comparison of the two numbers. *)
Definition sql_leb (a : sqlnum) (b : Z) : bool :=
  match a with
  | SqlInt z => (z <=? b)%Z
  | SqlReal (S754_infinity s) => s
  | SqlReal S754_nan => false
  | SqlReal x => Qle_bool (float_value x) (inject_Z b)
  end.

(** ** Regular expressions and the backtracking matcher of [re] *)

Inductive charset : Type :=
| Chr (c : N)
| ClsSpace
| ClsDigit.

Inductive regex : Type :=
| Eps
| One (cs : charset)
| Cat (r1 r2 : regex)
| Alt (r1 r2 : regex)
| Opt (r : regex)
| Star (cs : charset)
| Plus (cs : charset)
| Times (n : nat) (r : regex)
| Group (i : nat) (r : regex).

Abbreviation captures := (gmap nat str).

Section Matcher.
Context {U : Unicode}.

Definition in_set (cs : charset) (c : N) : bool :=
  match cs with
  | Chr a => (c =? a)%N
  | ClsSpace => isspace c
  | ClsDigit => match decimal c with Some _ => true | None => false end
  end.

(** Greedy repetition of a single-character class: the longest run is tried
    first, shorter ones on backtracking. *)
Fixpoint star {A : Type} (cs : charset) (s : str)
    (k : str -> option A) : option A :=
  match s with
  | c :: s' =>
      if in_set cs c then
        match star cs s' k with
        | Some a => Some a
        | None => k s
        end
      else k s
  | [] => k s
  end.

(** [bt r s g k]: match [r] at the head of [s] with captures [g], then run
    the continuation [k] on what is left; alternatives are tried in the
    order of [re] and the first success is returned. *)
Fixpoint bt {A : Type} (r : regex) (s : str) (g : captures)
    (k : str -> captures -> option A) : option A :=
  match r with
  | Eps => k s g
  | One cs =>
      match s with
      | c :: s' => if in_set cs c then k s' g else None
      | [] => None
      end
  | Cat r1 r2 => bt r1 s g (fun s' g' => bt r2 s' g' k)
  | Alt r1 r2 =>
      match bt r1 s g k with
      | Some a => Some a
      | None => bt r2 s g k
      end
  | Opt r1 =>
      match bt r1 s g k with
      | Some a => Some a
      | None => k s g
      end
  | Star cs => star cs s (fun s' => k s' g)
  | Plus cs =>
      match s with
      | c :: s' => if in_set cs c then star cs s' (fun s'' => k s'' g) else None
      | [] => None
      end
  | Times n r1 =>
      (fix times (n : nat) (s : str) (g : captures)
           (k : str -> captures -> option A) {struct n} : option A :=
         match n with
         | O => k s g
         | S n' => bt r1 s g (fun s' g' => times n' s' g' k)
         end) n s g k
  | Group i r1 =>
      bt r1 s g
        (fun s' g' => k s' (<[i := take (length s - length s') s]> g'))
  end.

(** [pattern.match] at one position. *)
Definition re_match (r : regex) (s : str) : option captures :=
  bt r s ∅ (fun _ g => Some g).

(** [re.search]: the first start position, left to right, with a match. *)
Fixpoint re_search (r : regex) (s : str) : option captures :=
  match re_match r s with
  | Some g => Some g
  | None =>
      match s with
      | [] => None
      | _ :: s' => re_search r s'
      end
  end.

(** ** Conversions [int(...)] and [float(...)] on captured digits *)

Fixpoint digits_value (acc : N) (t : str) : option N :=
  match t with
  | [] => Some acc
  | c :: t' =>
      match decimal c with
      | Some d => digits_value (acc * 10 + d) t'
      | None => None
      end
  end.

(** The most digits [int] reads from a string
    ([sys.int_info.default_max_str_digits]). *)
Definition max_str_digits : Z := 4300.

(** [int(t)] on a non-empty string of decimal digits, of which there may be
    [max_str_digits] at most, leading zeros counted.  Python's [int] reads
    more than that (a sign, blanks around the digits); here every other
    string is a [ValueError], and the strings the extractor converts are
    digit strings ([quantity_match_digits]). *)
Definition py_int (t : str) : result Z :=
  match t with
  | [] => Raise ValueError
  | _ =>
      match digits_value 0 t with
      | Some n =>
          if (max_str_digits <? Z.of_nat (length t))%Z then Raise ValueError
          else Return (Z.of_N n)
      | None => Raise ValueError
      end
  end.

(** The part of [t] before the first ['.'] and, when there is one, the part
    after it. *)
Fixpoint split_point (t : str) : str * option str :=
  match t with
  | [] => ([], None)
  | c :: t' =>
      if (c =? chr ".")%N then ([], Some t')
      else let '(a, b) := split_point t' in (c :: a, b)
  end.

(** [float(t)] on digits with an optional point among them: the float
    nearest to the decimal number, whatever the number of digits; every
    other string is a [ValueError] here. *)
Definition py_float (t : str) : result float :=
  let '(ip, fp) := split_point t in
  let fp := default [] fp in
  match ip ++ fp with
  | [] => Raise ValueError
  | ds =>
      match digits_value 0 ds with
      | Some n => Return (float_of_decimal n (length fp))
      | None => Raise ValueError
      end
  end.
End Matcher.

(** A float written in decimal, as in the source: [flt "0.15"]. *)
Definition flt (s : string) : float :=
  let '(ip, fp) := split_point (py s) in
  let fp := default [] fp in
  float_of_decimal
    (fold_left (fun acc c => (acc * 10 + (c - 48))%N) (ip ++ fp) 0%N)
    (length fp).

(** A literal string as a pattern. *)
Fixpoint lit_text (t : str) : regex :=
  match t with
  | [] => Eps
  | c :: t' => Cat (One (Chr c)) (lit_text t')
  end.

Definition lit (s : string) : regex := lit_text (py s).

(** [a|b|c...] *)
Fixpoint alts (rs : list regex) : regex :=
  match rs with
  | [] => Eps
  | [r] => r
  | r :: rs' => Alt r (alts rs')
  end.

(** ** The extractor: [parse_transaction_text] *)

Inductive txn_type : Type := sale | purchase.

Global Instance txn_type_eq_dec : EqDecision txn_type.
Proof. solve_decision. Defined.

Module Parsed.
Record t : Type := mk {
  item : str;
  amount : float;
  type : txn_type;
  quantity : Z;
  payment_method : str;
}.
End Parsed.

(** [(?:rs\.?|rupees?|₹)] *)
Definition currency : regex :=
  alts [Cat (lit "rs") (Opt (lit "."));
        Cat (lit "rupee") (Opt (lit "s"));
        lit "₹"].

(** [\.\d{2}] *)
Definition fraction : regex := Cat (lit ".") (Times 2 (One ClsDigit)).

(** [\d+(?:\.\d{2})?] *)
Definition number : regex := Cat (Plus ClsDigit) (Opt fraction).

(** [(?:rs\.?|rupees?|₹)\s*(\d+(?:\.\d{2})?)|(\d+(?:\.\d{2})?)\s*(?:rs\.?|rupees?|₹)] *)
Definition amount_pattern : regex :=
  Alt (Cat currency (Cat (Star ClsSpace) (Group 1 number)))
      (Cat (Group 2 number) (Cat (Star ClsSpace) currency)).

(** [(\d+)\s*(?:kg|kg\.|kilos?|packets?|units?|pieces?)] *)
Definition quantity_pattern : regex :=
  Cat (Group 1 (Plus ClsDigit))
    (Cat (Star ClsSpace)
       (alts [lit "kg";
              Cat (lit "kg") (lit ".");
              Cat (lit "kilo") (Opt (lit "s"));
              Cat (lit "packet") (Opt (lit "s"));
              Cat (lit "unit") (Opt (lit "s"));
              Cat (lit "piece") (Opt (lit "s"))])).

Definition purchase_words : list str :=
  [py "buy"; py "purchase"; py "bought"; py "supplier"].

Definition items : list str :=
  [py "rice"; py "wheat"; py "sugar"; py "oil"; py "dal"; py "tea";
   py "salt"; py "milk"; py "biscuit"].

(** [m.group(1) or m.group(2)]: the first operand unless it is [None] or
    empty. *)
Definition group_or (a b : option str) : option str :=
  match a with
  | Some (_ :: _) => a
  | _ => b
  end.

(** [float(x)] where [x] may be [None]. *)
Definition float_of_group `{Unicode} (x : option str) : result float :=
  match x with
  | Some t => py_float t
  | None => Raise TypeError
  end.

Definition int_of_group `{Unicode} (x : option str) : result Z :=
  match x with
  | Some t => py_int t
  | None => Raise TypeError
  end.

Section Extractor.
Context {U : Unicode}.

Definition extract_amount (text : str) : result float :=
  match re_search amount_pattern text with
  | Some m => float_of_group (group_or (m !! 1%nat) (m !! 2%nat))
  | None => Return float_zero
  end.

Definition extract_type (text : str) : txn_type :=
  if existsb (fun word => contains text word) purchase_words
  then purchase else sale.

Definition extract_item (text : str) : str :=
  match List.find (fun i => contains text i) items with
  | Some i => i
  | None => py "general"
  end.

Definition extract_quantity (text : str) : result Z :=
  match re_search quantity_pattern text with
  | Some m => int_of_group (m !! 1%nat)
  | None => Return 1%Z
  end.

Definition parse_transaction_text (text : str) : result Parsed.t :=
  let text := str_lower text in
  do amount <- extract_amount text;
  let transaction_type := extract_type text in
  let item := extract_item text in
  do quantity <- extract_quantity text;
  Return {| Parsed.item := item;
            Parsed.amount := amount;
            Parsed.type := transaction_type;
            Parsed.quantity := quantity;
            Parsed.payment_method := py "cash" |}.
End Extractor.

(** ** The ledger: the two tables of [kirana_store.db] *)

Module Txn.
Record row : Type := mk {
  id : N;
  timestamp : str;
  item : str;
  amount : float;
  type : txn_type;
  payment_method : str;
  customer_name : str;
}.
End Txn.

Module Inv.
Record row : Type := mk {
  id : N;
  item_name : str;
  quantity : sqlnum;
  reorder_level : Z;
  unit_price : float;
  last_updated : str;
}.
End Inv.

(** [transactions_seq] and [inventory_seq] are the AUTOINCREMENT counters
    (table [sqlite_sequence]). *)
Record database : Type := mkdb {
  transactions : list Txn.row;
  transactions_seq : N;
  inventory : list Inv.row;
  inventory_seq : N;
}.

Definition empty_db : database := mkdb [] 0 [] 0.

(** The rowid of a new row of an AUTOINCREMENT table. *)
Definition next_rowid (seq : N) (ids : list N) : N :=
  N.succ (fold_right N.max seq ids).

(** [INSERT INTO transactions (timestamp, item, amount, type, payment_method,
    customer_name) VALUES (?, ?, ?, ?, ?, ?)] *)
Definition insert_transaction (timestamp item : str) (amount : float)
    (type : txn_type) (payment_method customer_name : str)
    (db : database) : database :=
  let id := next_rowid (transactions_seq db) (List.map Txn.id (transactions db)) in
  {| transactions :=
       transactions db ++
       [Txn.mk id timestamp item amount type payment_method customer_name];
     transactions_seq := id;
     inventory := inventory db;
     inventory_seq := inventory_seq db |}.

(** [UPDATE inventory SET quantity = quantity - ? WHERE item_name = ?] *)
Definition update_inventory_sold (quantity : Z) (item : str)
    (db : database) : database :=
  {| transactions := transactions db;
     transactions_seq := transactions_seq db;
     inventory :=
       List.map
         (fun r =>
            if text_eqb (Inv.item_name r) item
            then Inv.mk (Inv.id r) (Inv.item_name r)
                   (integer_affinity (sql_sub (Inv.quantity r) (SqlInt quantity)))
                   (Inv.reorder_level r) (Inv.unit_price r) (Inv.last_updated r)
            else r)
         (inventory db);
     inventory_seq := inventory_seq db |}.

(** [COALESCE((SELECT quantity FROM inventory WHERE item_name = ?), 0)] *)
Definition stored_quantity (item : str) (db : database) : sqlnum :=
  match List.find (fun r => text_eqb (Inv.item_name r) item) (inventory db) with
  | Some r => Inv.quantity r
  | None => SqlInt 0
  end.

(** [INSERT OR REPLACE INTO inventory (item_name, quantity, reorder_level,
    unit_price, last_updated) VALUES (?, COALESCE(...) + ?, 10, ?, ?)]: the
    row that holds the UNIQUE [item_name] already is deleted and the new row
    is inserted under a fresh rowid. *)
Definition replace_inventory (item : str) (quantity : Z) (unit_price : float)
    (timestamp : str) (db : database) : database :=
  let id := next_rowid (inventory_seq db) (List.map Inv.id (inventory db)) in
  {| transactions := transactions db;
     transactions_seq := transactions_seq db;
     inventory :=
       List.filter (fun r => negb (text_eqb (Inv.item_name r) item))
         (inventory db) ++
       [Inv.mk id item
          (integer_affinity (sql_add (stored_quantity item db) (SqlInt quantity)))
          10 unit_price timestamp];
     inventory_seq := id |}.

(** Binding a Python [int] to a statement parameter: SQLite integers have
    64 bits. *)
Definition sqlite_int (z : Z) : result Z :=
  if ((- 2 ^ 63 <=? z) && (z <? 2 ^ 63))%Z then Return z
  else Raise OverflowError.

(** The least integer that rounds to 2^1024, beyond the largest float. *)
Definition float_limit : Z := Eval cbv in (2 ^ 1024 - 2 ^ 970)%Z.

(** The integers [float(n)] raises [OverflowError] on. *)
Definition float_overflow (n : Z) : bool := (float_limit <=? Z.abs n)%Z.

(** [x / n] for a float [x] and an int [n]: [n] is converted to a float,
    which raises [OverflowError] when it is too large for one; a zero
    divisor raises [ZeroDivisionError]. *)
Definition py_truediv (x : float) (n : Z) : result float :=
  if float_overflow n then Raise OverflowError
  else if (n =? 0)%Z then Raise ZeroDivisionError
  else Return (float_div x (float_of_Z n)).

(** ** Messages and booleans *)

(** A formatted string: the characters of the f-string with its float
    arguments in place, left to right. *)
Inductive piece : Type :=
| Chars (s : str)
| Float (x : float).

Abbreviation message := (list piece).

Definition plain (s : str) : message := [Chars s].

(** A comparison of Python floats gives a [bool]; one with a numpy float on
    either side gives a [numpy.bool_]. *)
Inductive pybool : Type :=
| PyBool (b : bool)
| NpBool (b : bool).

Definition truth (b : pybool) : bool :=
  match b with
  | PyBool b => b
  | NpBool b => b
  end.

(** ** Agent 1: [cash_flow_forecast] *)

(** The dictionary returned by [cash_flow_forecast]; [daily_avg_flow] is
    [None] when the dictionary has no such key. *)
Module CashFlow.
Record result : Type := mk {
  shortage_predicted : bool;
  daily_avg_flow : option float;
  recommendation : str;
}.
End CashFlow.

(** [SELECT amount, type FROM transactions WHERE timestamp >= date('now',
    '-30 days')], with [cutoff] the value of the [date] expression. *)
Definition last_30_days (cutoff : str) (db : database) : list (float * txn_type) :=
  List.map (fun r => (Txn.amount r, Txn.type r))
    (List.filter (fun r => text_leb cutoff (Txn.timestamp r)) (transactions db)).

Definition amounts_of (ty : txn_type) (transactions : list (float * txn_type)) : list float :=
  List.map fst (List.filter (fun t => bool_decide (snd t = ty)) transactions).

Definition cash_flow_forecast (cutoff : str) (db : database) : CashFlow.result :=
  let transactions := last_30_days cutoff db in
  match transactions with
  | [] =>
      {| CashFlow.shortage_predicted := false;
         CashFlow.daily_avg_flow := None;
         CashFlow.recommendation := py "Insufficient data" |}
  | _ =>
      let sales := py_sum (amounts_of sale transactions) in
      let purchases := py_sum (amounts_of purchase transactions) in
      let net_flow := float_sub sales purchases in
      let daily_avg := float_div net_flow (float_of_Z 30) in
      let shortage_predicted := float_ltb daily_avg float_zero in
      let recommendation :=
        if shortage_predicted
        then py "Cash shortage expected. Consider delaying purchases or securing short-term loan."
        else py "No action needed" in
      {| CashFlow.shortage_predicted := shortage_predicted;
         CashFlow.daily_avg_flow := Some (py_round2 daily_avg);
         CashFlow.recommendation := recommendation |}
  end.

(** ** Agent 2: [inventory_alert] *)

Module Stock.
Record entry : Type := mk_entry {
  item : str;
  current : sqlnum;
  reorder_level : Z;
}.
Record result : Type := mk {
  stock_low : bool;
  items_to_reorder : list entry;
}.
End Stock.

Definition inventory_alert (db : database) : Stock.result :=
  let low_stock_items :=
    List.filter (fun r => sql_leb (Inv.quantity r) (Inv.reorder_level r))
      (inventory db) in
  let stock_low := (0 <? length low_stock_items)%nat in
  let items_to_reorder :=
    List.map
      (fun r => Stock.mk_entry (Inv.item_name r) (Inv.quantity r)
                  (Inv.reorder_level r))
      low_stock_items in
  {| Stock.stock_low := stock_low;
     Stock.items_to_reorder := items_to_reorder |}.

(** ** Agent 3: [fraud_detection] *)

Module Fraud.
Record result : Type := mk {
  fraud_suspected : pybool;
  reason : message;
}.
End Fraud.

(** [SELECT amount FROM transactions WHERE type = "sale"] *)
Definition sale_amounts (db : database) : list float :=
  List.map Txn.amount
    (List.filter (fun r => bool_decide (Txn.type r = sale)) (transactions db)).

Definition fraud_detection (db : database) (transaction_amount : float) : Fraud.result :=
  let amounts := sale_amounts db in
  if (length amounts <? 10)%nat then
    {| Fraud.fraud_suspected := PyBool false;
       Fraud.reason := plain (py "Insufficient data") |}
  else
    let mean_amount := np_mean amounts in
    let std_amount := np_std amounts in
    let threshold := float_add mean_amount (float_mul (float_of_Z 3) std_amount) in
    let fraud_suspected := float_ltb threshold transaction_amount in
    let reason :=
      [Chars (py "Transaction amount (₹"); Float transaction_amount;
       Chars (py ") exceeds normal range (₹"); Float (np_round2 threshold);
       Chars (py ")")] in
    {| Fraud.fraud_suspected := NpBool fraud_suspected;
       Fraud.reason :=
         if fraud_suspected then reason
         else plain (py "Transaction within normal range") |}.

(** ** The route [/api/process-input] *)

Module Alert.
Record t : Type := mk {
  type : str;
  message : message;
  severity : str;
}.
End Alert.

(** The alert list built at the end of [process_input]. *)
Definition generate_alerts (cf_result : CashFlow.result)
    (inv_result : Stock.result) (fraud_result : Fraud.result) : list Alert.t :=
  let alerts := [] in
  let alerts :=
    if CashFlow.shortage_predicted cf_result
    then alerts ++
         [Alert.mk (py "cash_flow") (plain (CashFlow.recommendation cf_result))
            (py "high")]
    else alerts in
  let alerts :=
    if Stock.stock_low inv_result
    then fold_left
           (fun alerts item =>
              alerts ++
              [Alert.mk (py "inventory")
                 (plain (py "Low stock: " ++ Stock.item item ++
                         py " - Reorder needed"))
                 (py "medium")])
           (Stock.items_to_reorder inv_result) alerts
    else alerts in
  let alerts :=
    if truth (Fraud.fraud_suspected fraud_result)
    then alerts ++
         [Alert.mk (py "fraud") (Fraud.reason fraud_result) (py "critical")]
    else alerts in
  alerts.

(** A value of the request's JSON body. *)
#[warnings="-register-all"]
Inductive pyval : Type :=
| PNone
| PBool (b : bool)
| PInt (z : Z)
| PFloat (x : float)
| PStr (s : str)
| PList (l : list pyval)
| PDict (d : list (str * pyval)).

(** Python's truth value, as tested by [not input_text]. *)
Definition truthy (v : pyval) : bool :=
  match v with
  | PNone => false
  | PBool b => b
  | PInt z => negb (z =? 0)%Z
  | PFloat x => negb (float_eqb x float_zero)
  | PStr s => match s with [] => false | _ => true end
  | PList l => match l with [] => false | _ => true end
  | PDict d => match d with [] => false | _ => true end
  end.

Inductive response : Type :=
| Success (parsed_transaction : Parsed.t) (cash_flow : CashFlow.result)
    (inventory : Stock.result) (fraud : Fraud.result) (alerts : list Alert.t)
| BadRequest (error : str)
| ServerError (error : exn).

(** [jsonify] serialises Python's own [bool] and raises [TypeError] on a
    [numpy.bool_]. *)
Definition jsonify (parsed_data : Parsed.t) (cf_result : CashFlow.result)
    (inv_result : Stock.result) (fraud_result : Fraud.result)
    (alerts : list Alert.t) : result response :=
  match Fraud.fraud_suspected fraud_result with
  | PyBool _ => Return (Success parsed_data cf_result inv_result fraud_result alerts)
  | NpBool _ => Raise TypeError
  end.

Section Route.
Context {U : Unicode}.

(** [parse_transaction_text(input_text)]: only a [str] has [lower]. *)
Definition parse_input (input_text : pyval) : result Parsed.t :=
  match input_text with
  | PStr text => parse_transaction_text text
  | _ => Raise AttributeError
  end.

(** The statements between [sqlite3.connect] and [conn.commit()]. *)
Definition store (parsed_data : Parsed.t) (timestamp : str)
    (db : database) : result database :=
  let db :=
    insert_transaction timestamp (Parsed.item parsed_data)
      (Parsed.amount parsed_data) (Parsed.type parsed_data)
      (Parsed.payment_method parsed_data) (py "Customer") db in
  match Parsed.type parsed_data with
  | sale =>
      do quantity <- sqlite_int (Parsed.quantity parsed_data);
      Return (update_inventory_sold quantity (Parsed.item parsed_data) db)
  | purchase =>
      do unit_price <-
        py_truediv (Parsed.amount parsed_data) (Parsed.quantity parsed_data);
      do quantity <- sqlite_int (Parsed.quantity parsed_data);
      Return (replace_inventory (Parsed.item parsed_data) quantity unit_price
                timestamp db)
  end.

(** [process_input]: [data] is the JSON object of the request, [now] the
    value of [datetime.now().isoformat()], [cutoff] the value of
    [date('now', '-30 days')].  The database returned is the committed one:
    an exception before [conn.commit()] leaves it as it was. *)
Definition process_input (data : gmap str pyval) (now cutoff : str)
    (db : database) : response * database :=
  let input_text := default (PStr []) (data !! py "text") in
  if negb (truthy input_text) then (BadRequest (py "No input provided"), db)
  else
    match
      (do parsed_data <- parse_input input_text;
       do db' <- store parsed_data now db;
       Return (parsed_data, db'))
    with
    | Raise e => (ServerError e, db)
    | Return (parsed_data, db') =>
        let cf_result := cash_flow_forecast cutoff db' in
        let inv_result := inventory_alert db' in
        let fraud_result := fraud_detection db' (Parsed.amount parsed_data) in
        let alerts := generate_alerts cf_result inv_result fraud_result in
        match jsonify parsed_data cf_result inv_result fraud_result alerts with
        | Return r => (r, db')
        | Raise e => (ServerError e, db')
        end
    end.
End Route.

(** * What the claims speak of

    Definitions used to state the properties: the alerts one by one, the
    statistics as the specification words them, and what the amount pattern
    reads, stated without the matcher. *)

Definition cash_flow_alert (cf_result : CashFlow.result) : Alert.t :=
  {| Alert.type := py "cash_flow";
     Alert.message := plain (CashFlow.recommendation cf_result);
     Alert.severity := py "high" |}.

Definition inventory_alert_for (e : Stock.entry) : Alert.t :=
  {| Alert.type := py "inventory";
     Alert.message :=
       plain (py "Low stock: " ++ Stock.item e ++ py " - Reorder needed");
     Alert.severity := py "medium" |}.

Definition fraud_alert (fraud_result : Fraud.result) : Alert.t :=
  {| Alert.type := py "fraud";
     Alert.message := Fraud.reason fraud_result;
     Alert.severity := py "critical" |}.

(** [x] is a zero, a number or an infinity of sign [s]. *)
Definition float_has_sign (s : bool) (x : float) : Prop :=
  match x with
  | S754_zero s' | S754_infinity s' | S754_finite s' _ _ => s' = s
  | S754_nan => False
  end.

(** The floats of a list added from left to right: the sum of none is 0.0,
    the sum of the first k + 1 is the float sum of the first k and of the
    next. *)
Fixpoint partial_sum (a : list float) (k : nat) : float :=
  match k with
  | O => float_zero
  | S k' => float_add (partial_sum a k') (nth k' a float_zero)
  end.

Definition sum_left_to_right (a : list float) : float :=
  partial_sum a (length a).

Definition Rsum (l : list R) : R := fold_right Rplus 0%R l.

(** The arithmetic mean and the population standard deviation (divisor n) of
    a history, as the specification words them. *)
Definition arithmetic_mean (h : list R) : R := (Rsum h / INR (length h))%R.

Definition population_std (h : list R) : R :=
  sqrt (Rsum (List.map (fun x => (x - arithmetic_mean h)²)%R h) / INR (length h)).

(** [strip_prefix p s]: what is left of [s] after its prefix [p]. *)
Fixpoint strip_prefix (p s : str) : option str :=
  match p with
  | [] => Some s
  | a :: p' =>
      match s with
      | b :: s' => if (b =? a)%N then strip_prefix p' s' else None
      | [] => None
      end
  end.

(** A pattern without groups. *)
Fixpoint group_free (r : regex) : bool :=
  match r with
  | Eps | One _ | Star _ | Plus _ => true
  | Cat r1 r2 | Alt r1 r2 => group_free r1 && group_free r2
  | Opt r1 | Times _ r1 => group_free r1
  | Group _ _ => false
  end.

Definition currency_tokens : list str :=
  [py "rs."; py "rs"; py "rupees"; py "rupee"; py "₹"].

(** The characters of the currency tokens are neither digits nor white
    space, and no digit is white space: facts of every Unicode version. *)
Definition unicode_consistent (U : Unicode) : Prop :=
  (forall c, decimal c <> None -> isspace c = false) /\
  (forall c, In c (py "rs.upe₹") -> decimal c = None /\ isspace c = false).

Section AmountSpec.
Context {U : Unicode}.

Definition is_digit (c : N) : Prop := in_set ClsDigit c = true.
Definition is_space (c : N) : Prop := in_set ClsSpace c = true.

Definition digits (t : str) : Prop := t <> [] /\ Forall is_digit t.

Definition spaces (t : str) : Prop := Forall is_space t.

(** Digits with an optional fraction of exactly two digits. *)
Inductive amount_number : str -> Prop :=
| number_whole (D : str) :
    digits D -> amount_number D
| number_fraction (D : str) (d1 d2 : N) :
    digits D -> is_digit d1 -> is_digit d2 ->
    amount_number (D ++ chr "." :: [d1; d2]).

Definition starts_with_digit (s : str) : Prop :=
  exists c s', s = c :: s' /\ is_digit c.

Definition starts_with_fraction (s : str) : Prop :=
  exists d1 d2 s', s = chr "." :: d1 :: d2 :: s' /\ is_digit d1 /\ is_digit d2.

(** [number_read num rest]: [num] is the number read at the head of
    [num ++ rest], that is all the digits there, with the fraction when a
    point and two digits follow them. *)
Inductive number_read : str -> str -> Prop :=
| read_whole (D rest : str) :
    digits D -> ~ starts_with_digit rest -> ~ starts_with_fraction rest ->
    number_read D rest
| read_fraction (D : str) (d1 d2 : N) (rest : str) :
    digits D -> is_digit d1 -> is_digit d2 ->
    number_read (D ++ chr "." :: [d1; d2]) rest.

(** [number_value num x]: [x] is the float nearest to the decimal number
    [num], a run of digits or digits, a point and digits. *)
Inductive number_value : str -> float -> Prop :=
| value_whole (D : str) (n : N) :
    digits_value 0 D = Some n ->
    number_value D (float_of_decimal n 0)
| value_point (D F : str) (n : N) :
    digits_value 0 (D ++ F) = Some n ->
    number_value (D ++ chr "." :: F) (float_of_decimal n (length F)).

(** [amount_at s x]: a currency-marked number of value [x] starts at the
    head of [s]: a currency token, white space and the number read there,
    or a number, white space and a currency token. *)
Inductive amount_at : str -> float -> Prop :=
| amount_after (tok ws num rest : str) (x : float) :
    In tok currency_tokens -> spaces ws -> number_read num rest ->
    number_value num x ->
    amount_at (tok ++ ws ++ num ++ rest) x
| amount_before (num ws tok rest : str) (x : float) :
    amount_number num -> spaces ws -> In tok currency_tokens ->
    number_value num x ->
    amount_at (num ++ ws ++ tok ++ rest) x.

(** A decimal number as a reader takes it: digits, or digits, a point and
    digits. *)
Inductive decimal_number : str -> Prop :=
| decimal_whole (D : str) :
    digits D -> decimal_number D
| decimal_point (D F : str) :
    digits D -> digits F -> decimal_number (D ++ chr "." :: F).

(** [float(m.group(1) or m.group(2))] *)
Definition matched_amount (m : captures) : result float :=
  float_of_group (group_or (m !! 1%nat) (m !! 2%nat)).
End AmountSpec.

(** ** Requests and ledgers of the examples *)

Definition request (text : str) : gmap str pyval := {[ py "text" := PStr text ]}.

Definition example_now : str := py "2024-01-31T10:00:00".

Definition example_cutoff : str := py "2024-01-01".

(** One inventory row: 5 of rice, to be reordered at 20. *)
Definition rice_row : Inv.row :=
  Inv.mk 1 (py "rice") (SqlInt 5) 20 (flt "1") (py "2023-12-01T00:00:00").

Definition rice_ledger : database := mkdb [] 0 [rice_row] 1.

Definition sale_row (id : N) (amount : string) : Txn.row :=
  Txn.mk id example_now (py "general") (flt amount) sale (py "cash")
    (py "Customer").

Definition purchase_row (id : N) (amount : string) : Txn.row :=
  Txn.mk id example_now (py "general") (flt amount) purchase (py "cash")
    (py "Customer").

(** One sale of 1.0 within the window. *)
Definition one_sale_ledger : database := mkdb [sale_row 1 "1"] 1 [] 0.

(** Ten sales, five of 80.0 and five of 120.0: mean 100, population standard
    deviation 20. *)
Definition ten_sales_ledger : database :=
  mkdb [sale_row 1 "80"; sale_row 2 "120"; sale_row 3 "80"; sale_row 4 "120";
        sale_row 5 "80"; sale_row 6 "120"; sale_row 7 "80"; sale_row 8 "120";
        sale_row 9 "80"; sale_row 10 "120"] 10 [] 0.

(** The same a hundred times smaller: five sales of 0.8 and five of 1.2. *)
Definition ten_small_sales_ledger : database :=
  mkdb [sale_row 1 "0.8"; sale_row 2 "1.2"; sale_row 3 "0.8"; sale_row 4 "1.2";
        sale_row 5 "0.8"; sale_row 6 "1.2"; sale_row 7 "0.8"; sale_row 8 "1.2";
        sale_row 9 "0.8"; sale_row 10 "1.2"] 10 [] 0.

(** Ten sales of 100000000000000.05 each. *)
Definition ten_large_sales_ledger : database :=
  mkdb (List.map (fun id => sale_row id "100000000000000.05")
          [1; 2; 3; 4; 5; 6; 7; 8; 9; 10]%N) 10 [] 0.

(** A sale of 0.3 and purchases of 0.1 and 0.2. *)
Definition even_ledger : database :=
  mkdb [sale_row 1 "0.3"; purchase_row 2 "0.1"; purchase_row 3 "0.2"] 3 [] 0.

(** One sale of 0.15. *)
Definition small_sale_ledger : database := mkdb [sale_row 1 "0.15"] 1 [] 0.

(** ** The ledger with the transaction of a request recorded *)

(** The first statement of the write path: the parsed transaction is
    inserted under the customer name "Customer". *)
Definition record_transaction (p : Parsed.t) (timestamp : str)
    (db : database) : database :=
  insert_transaction timestamp (Parsed.item p) (Parsed.amount p)
    (Parsed.type p) (Parsed.payment_method p) (py "Customer") db.

(** ** The keys of the ledger *)

(** The constraints of the schema: one inventory row per item name (UNIQUE)
    and distinct rowids in both tables (PRIMARY KEY). *)
Definition well_keyed (db : database) : Prop :=
  NoDup (List.map Inv.item_name (inventory db)) /\
  NoDup (List.map Inv.id (inventory db)) /\
  NoDup (List.map Txn.id (transactions db)).

(** The inventory row of a sale: the quantity sold is taken off the rows of
    the item, nothing else changes. *)
Definition sold (quantity : Z) (item : str) (r : Inv.row) : Inv.row :=
  if text_eqb (Inv.item_name r) item
  then Inv.mk (Inv.id r) (Inv.item_name r)
         (integer_affinity (sql_sub (Inv.quantity r) (SqlInt quantity)))
         (Inv.reorder_level r) (Inv.unit_price r) (Inv.last_updated r)
  else r.

(** [a <= b] for a stored quantity and a reorder level, as numbers. *)
Definition sql_le (a : sqlnum) (b : Z) : Prop :=
  match a with
  | SqlInt z => (z <= b)%Z
  | SqlReal (S754_infinity s) => s = true
  | SqlReal S754_nan => False
  | SqlReal x => (float_value x <= inject_Z b)%Q
  end.

(** ** What the other fields of the extractor read *)

(** [w] occurs in [s]. *)
Definition occurs_in (w s : str) : Prop := exists pre post, s = pre ++ w ++ post.

(** [(?:kg|kg\.|kilos?|packets?|units?|pieces?)] *)
Definition units_pattern : regex :=
  alts [lit "kg";
        Cat (lit "kg") (lit ".");
        Cat (lit "kilo") (Opt (lit "s"));
        Cat (lit "packet") (Opt (lit "s"));
        Cat (lit "unit") (Opt (lit "s"));
        Cat (lit "piece") (Opt (lit "s"))].

(** The words a unit starts with; what follows them does not matter to the
    pattern. *)
Definition unit_words : list str :=
  [py "kg"; py "kilo"; py "packet"; py "unit"; py "piece"].

(** The first characters of the unit words are neither digits nor white
    space, and no digit is white space. *)
Definition unicode_consistent_units (U : Unicode) : Prop :=
  (forall c, decimal c <> None -> isspace c = false) /\
  (forall c, In c (py "kpu") -> decimal c = None /\ isspace c = false).

Section QuantitySpec.
Context {U : Unicode}.

(** [quantity_at s n]: a quantity of [n] starts at the head of [s]: digits,
    white space and a unit word. *)
Inductive quantity_at : str -> Z -> Prop :=
| quantity_before_unit (D ws u rest : str) (n : N) :
    digits D -> spaces ws -> In u unit_words -> digits_value 0 D = Some n ->
    quantity_at (D ++ ws ++ u ++ rest) (Z.of_N n).
End QuantitySpec.

(** ** The route [/api/dashboard] *)

(** [total_sales] and [total_purchases] are [None] for NULL. *)
Module Stats.
Record t : Type := mk {
  total_sales : option sqlnum;
  total_purchases : option sqlnum;
  transaction_count : nat;
}.
End Stats.

Module Dashboard.
Record t : Type := mk {
  transactions : list Txn.row;
  inventory : list Inv.row;
  stats : Stats.t;
}.
End Dashboard.

(** [r1] comes no later than [r2] under [ORDER BY timestamp DESC]. *)
Definition newer (r1 r2 : Txn.row) : Prop :=
  text_leb (Txn.timestamp r2) (Txn.timestamp r1) = true.

Global Instance newer_dec : RelDecision newer.
Proof. intros r1 r2. unfold newer. apply _. Defined.

(** [SELECT * FROM transactions ORDER BY timestamp DESC LIMIT 10].  SQL
    leaves the order of rows with equal timestamps open; here it is the one
    the merge sort gives. *)
Definition recent_transactions (db : database) : list Txn.row :=
  take 10 (merge_sort newer (transactions db)).

(** [SUM(...)] over values that are a REAL ([Some x]) or the INTEGER 0
    ([None]): NULL over no row, the INTEGER 0 over zeros only, and else the
    REAL the values add up to, in row order from 0.0. *)
Definition sql_sum (l : list (option float)) : option sqlnum :=
  match l with
  | [] => None
  | _ =>
      if forallb (fun v => match v with None => true | Some _ => false end) l
      then Some (SqlInt 0)
      else Some (SqlReal (fold_left float_add
                            (List.map (default float_zero) l) float_zero))
  end.

Section DashboardRoute.
(** [date(...)] of SQLite on a TEXT value: the day of a time value, NULL
    when the text is none. *)
Variable sqlite_date : str -> option str.

(** The rows with [date(timestamp) = date('now')], [today] being the value
    of [date('now')]. *)
Definition rows_of_today (today : str) (db : database) : list Txn.row :=
  List.filter
    (fun r => bool_decide (sqlite_date (Txn.timestamp r) = Some today))
    (transactions db).

(** [SUM(CASE WHEN type = ... THEN amount ELSE 0 END)]: the amount of a row
    of the type, the INTEGER 0 ([None] here) for another row. *)
Definition total_of (ty : txn_type) (rows : list Txn.row) : option sqlnum :=
  sql_sum
    (List.map
       (fun r => if bool_decide (Txn.type r = ty) then Some (Txn.amount r) else None)
       rows).

Definition dashboard (today : str) (db : database) : Dashboard.t :=
  let transactions := recent_transactions db in
  let inventory := inventory db in
  let rows := rows_of_today today db in
  let stats :=
    {| Stats.total_sales := total_of sale rows;
       Stats.total_purchases := total_of purchase rows;
       Stats.transaction_count := length rows |} in
  {| Dashboard.transactions := transactions;
     Dashboard.inventory := inventory;
     Dashboard.stats := stats |}.
End DashboardRoute.

(** ** Further ledgers and transactions of the examples *)

(** What "sold 7 kg rice for rs 70" and "bought 7 kg rice rs 70" parse to. *)
Definition sale_of_rice : Parsed.t :=
  {| Parsed.item := py "rice"; Parsed.amount := flt "70"; Parsed.type := sale;
     Parsed.quantity := 7; Parsed.payment_method := py "cash" |}.

Definition purchase_of_rice : Parsed.t :=
  {| Parsed.item := py "rice"; Parsed.amount := flt "70"; Parsed.type := purchase;
     Parsed.quantity := 7; Parsed.payment_method := py "cash" |}.

(** * Properties *)

(** ** The anomaly detector below its floor, the forecaster on an empty
    window *)

(** C5. With fewer than 10 sale amounts in the ledger the detector answers
    [fraud_suspected = False] with reason "Insufficient data", whatever the
    current amount is. *)
Theorem fraud_detection_insufficient_data (db : database) (x : float) :
  (length (sale_amounts db) < 10)%nat ->
  fraud_detection db x =
    {| Fraud.fraud_suspected := PyBool false;
       Fraud.reason := plain (py "Insufficient data") |}.
Proof.
  intros Hlen. unfold fraud_detection.
  destruct (Nat.ltb_spec (length (sale_amounts db)) 10) as [_|Hge]; [reflexivity|lia].
Qed.

(** C7. On an empty 30-day window the forecaster answers
    [shortage_predicted = False] with recommendation "Insufficient data" and
    the result has no [daily_avg_flow]. *)
Theorem cash_flow_forecast_empty_window (cutoff : str) (db : database) :
  last_30_days cutoff db = [] ->
  cash_flow_forecast cutoff db =
    {| CashFlow.shortage_predicted := false;
       CashFlow.daily_avg_flow := None;
       CashFlow.recommendation := py "Insufficient data" |}.
Proof.
  intros Hw. unfold cash_flow_forecast. rewrite Hw. reflexivity.
Qed.

(** ** The alert list *)

Lemma fold_left_append {A B : Type} (f : B -> A) (l : list B) (acc : list A) :
  fold_left (fun acc x => acc ++ [f x]) l acc = acc ++ List.map f l.
Proof.
  revert acc. induction l as [|x l IH]; intros acc; simpl.
  - now rewrite app_nil_r.
  - rewrite IH, <- app_assoc. reflexivity.
Qed.

Lemma generate_alerts_consistent (cf_result : CashFlow.result)
    (inv_result : Stock.result) (fraud_result : Fraud.result) :
  (Stock.stock_low inv_result = false -> Stock.items_to_reorder inv_result = []) ->
  generate_alerts cf_result inv_result fraud_result =
    (if CashFlow.shortage_predicted cf_result then [cash_flow_alert cf_result] else [])
    ++ List.map inventory_alert_for (Stock.items_to_reorder inv_result)
    ++ (if truth (Fraud.fraud_suspected fraud_result) then [fraud_alert fraud_result] else []).
Proof.
  intros Hlow. unfold generate_alerts.
  destruct (Stock.stock_low inv_result) eqn:Elow.
  - change (fun (alerts : list Alert.t) (item : Stock.entry) =>
              alerts ++ [Alert.mk (py "inventory")
                (plain (py "Low stock: " ++ Stock.item item ++ py " - Reorder needed"))
                (py "medium")])
      with (fun (alerts : list Alert.t) (item : Stock.entry) =>
              alerts ++ [inventory_alert_for item]).
    rewrite fold_left_append.
    destruct (CashFlow.shortage_predicted cf_result),
      (truth (Fraud.fraud_suspected fraud_result)); simpl;
      rewrite ?app_nil_r; reflexivity.
  - rewrite (Hlow eq_refl).
    destruct (CashFlow.shortage_predicted cf_result),
      (truth (Fraud.fraud_suspected fraud_result)); reflexivity.
Qed.

Lemma inventory_alert_stock_low (db : database) :
  Stock.stock_low (inventory_alert db) = false ->
  Stock.items_to_reorder (inventory_alert db) = [].
Proof.
  unfold inventory_alert; simpl.
  destruct (List.filter _ (inventory db)); simpl; [reflexivity|discriminate].
Qed.

(** C8. For every forecaster output, every output of the monitor and every
    detector output, the alert list is, in this order: the cash-flow alert
    (severity "high", the recommendation as message) exactly when a shortage
    is predicted; one inventory alert (severity "medium", naming the item)
    per item to reorder, in the monitor's order; the fraud alert (severity
    "critical", the reason as message) exactly when fraud is suspected; and
    nothing else. *)
Theorem generate_alerts_order (cf_result : CashFlow.result) (db : database)
    (fraud_result : Fraud.result) :
  generate_alerts cf_result (inventory_alert db) fraud_result =
    (if CashFlow.shortage_predicted cf_result
     then [{| Alert.type := py "cash_flow";
              Alert.message := plain (CashFlow.recommendation cf_result);
              Alert.severity := py "high" |}]
     else [])
    ++ List.map
         (fun e =>
            {| Alert.type := py "inventory";
               Alert.message :=
                 plain (py "Low stock: " ++ Stock.item e ++ py " - Reorder needed");
               Alert.severity := py "medium" |})
         (Stock.items_to_reorder (inventory_alert db))
    ++ (if truth (Fraud.fraud_suspected fraud_result)
        then [{| Alert.type := py "fraud";
                 Alert.message := Fraud.reason fraud_result;
                 Alert.severity := py "critical" |}]
        else []).
Proof.
  apply generate_alerts_consistent, inventory_alert_stock_low.
Qed.

(** ** The request boundary *)

Section RouteProperties.
Context {U : Unicode}.

(** C9. A request whose [text] is missing or empty is answered with the
    client error "No input provided" and the ledger is left as it was. *)
Theorem process_input_no_text (data : gmap str pyval) (now cutoff : str)
    (db : database) :
  data !! py "text" = None \/ data !! py "text" = Some (PStr []) ->
  process_input data now cutoff db = (BadRequest (py "No input provided"), db).
Proof.
  intros [H|H]; unfold process_input; rewrite H; reflexivity.
Qed.

Lemma store_purchase_zero (parsed_data : Parsed.t) (timestamp : str)
    (db : database) :
  Parsed.type parsed_data = purchase ->
  Parsed.quantity parsed_data = 0%Z ->
  store parsed_data timestamp db = Raise ZeroDivisionError.
Proof.
  intros Hty Hq. unfold store. rewrite Hty, Hq. reflexivity.
Qed.

(** An exception of the write path is answered with its server error, the
    ledger being left as it was. *)
Lemma process_input_store_raises (data : gmap str pyval) (now cutoff : str)
    (db : database) (text : str) (p : Parsed.t) (e : exn) :
  data !! py "text" = Some (PStr text) ->
  text <> [] ->
  parse_transaction_text text = Return p ->
  store p now db = Raise e ->
  process_input data now cutoff db = (ServerError e, db).
Proof.
  intros Hd Hne Hp Hs. unfold process_input. rewrite Hd. simpl default.
  assert (Ht : truthy (PStr text) = true).
  { destruct text as [|c text]; [congruence|reflexivity]. }
  rewrite Ht. simpl negb. cbv iota. simpl parse_input. rewrite Hp. simpl.
  rewrite Hs. reflexivity.
Qed.
End RouteProperties.

(** ** The forecaster on a non-empty window *)

Lemma Qrint_close (q : Q) : (Qabs (inject_Z (Qrint q) - q) <= 1 # 2)%Q.
Proof.
  unfold Qrint.
  pose proof (Qfloor_le q) as Hlo. pose proof (Qlt_floor q) as Hhi.
  rewrite inject_Z_plus in Hhi. change (inject_Z 1) with 1%Q in Hhi.
  destruct (Qcompare_spec (q - inject_Z (Qfloor q)) (1 # 2)) as [E|E|E].
  - destruct (Z.even (Qfloor q)).
    + apply Qabs_Qle_condition. split; Lqa.lra.
    + rewrite inject_Z_plus. change (inject_Z 1) with 1%Q.
      apply Qabs_Qle_condition. split; Lqa.lra.
  - apply Qabs_Qle_condition. split; Lqa.lra.
  - rewrite inject_Z_plus. change (inject_Z 1) with 1%Q.
    apply Qabs_Qle_condition. split; Lqa.lra.
Qed.

Lemma cash_flow_forecast_result (cutoff : str) (db : database) :
  last_30_days cutoff db <> [] ->
  cash_flow_forecast cutoff db =
    let sales := py_sum (amounts_of sale (last_30_days cutoff db)) in
    let purchases := py_sum (amounts_of purchase (last_30_days cutoff db)) in
    let daily_avg := float_div (float_sub sales purchases) (float_of_Z 30) in
    {| CashFlow.shortage_predicted := float_ltb daily_avg float_zero;
       CashFlow.daily_avg_flow := Some (py_round2 daily_avg);
       CashFlow.recommendation :=
         if float_ltb daily_avg float_zero
         then py "Cash shortage expected. Consider delaying purchases or securing short-term loan."
         else py "No action needed" |}.
Proof.
  intros Hne. unfold cash_flow_forecast.
  destruct (last_30_days cutoff db); [congruence|reflexivity].
Qed.

Lemma partial_sum_app (a b : list float) (k : nat) :
  (k <= length a)%nat -> partial_sum (a ++ b) k = partial_sum a k.
Proof.
  induction k as [|k IH]; intros Hk; simpl; [reflexivity|].
  rewrite IH by lia. f_equal. apply app_nth1. lia.
Qed.

(** Python's [sum] adds from left to right. *)
Lemma py_sum_left_to_right (a : list float) : py_sum a = sum_left_to_right a.
Proof.
  unfold py_sum, sum_left_to_right.
  induction a as [|x a IH] using rev_ind; [reflexivity|].
  rewrite fold_left_app, length_app, Nat.add_1_r. simpl.
  rewrite IH, partial_sum_app by lia. f_equal.
  rewrite app_nth2 by lia. now rewrite Nat.sub_diag.
Qed.

(** C6, as the code has it.  On a non-empty 30-day window the forecaster
    adds the sale amounts and the purchase amounts as floats, from left to
    right, and divides the float difference of the two sums by 30.0;
    [shortage_predicted] is true exactly when this float average is below
    zero; [daily_avg_flow] is the average rounded to two decimal places: for
    a finite average the float nearest to k/100, k being an integer nearest
    to a hundred times the average.  Sums of 9000.0 and 12000.0 give
    [daily_avg_flow = -100.0] and a predicted shortage. *)
Theorem cash_flow_forecast_nonempty_window (cutoff : str) (db : database) :
  let window := last_30_days cutoff db in
  let sales := sum_left_to_right (amounts_of sale window) in
  let purchases := sum_left_to_right (amounts_of purchase window) in
  let daily_avg := float_div (float_sub sales purchases) (float_of_Z 30) in
  let result := cash_flow_forecast cutoff db in
  window <> [] ->
  CashFlow.daily_avg_flow result = Some (py_round2 daily_avg) /\
  (CashFlow.shortage_predicted result = true <->
   float_ltb daily_avg float_zero = true) /\
  (forall s m e, daily_avg = S754_finite s m e ->
     exists k : Z,
       (Qabs (inject_Z k - Qabs (float_value daily_avg) * 100) <= 1 # 2)%Q /\
       CashFlow.daily_avg_flow result = Some (float_of_ratio s k 100)) /\
  (sales = flt "9000" -> purchases = flt "12000" ->
   CashFlow.daily_avg_flow result = Some (float_opp (flt "100")) /\
   CashFlow.shortage_predicted result = true).
Proof.
  intros window sales purchases daily_avg result Hne.
  unfold result. rewrite (cash_flow_forecast_result cutoff db Hne).
  fold window. rewrite !py_sum_left_to_right. fold sales. fold purchases.
  cbn [CashFlow.daily_avg_flow CashFlow.shortage_predicted].
  change (float_div (float_sub sales purchases) (float_of_Z 30)) with daily_avg.
  split; [reflexivity|]. split; [reflexivity|]. split.
  - intros s m e E. exists (Qrint (Qabs (float_value daily_avg) * 100)).
    split; [apply Qrint_close|]. rewrite E. reflexivity.
  - intros Hs Hp. unfold daily_avg. rewrite Hs, Hp.
    split; vm_compute; reflexivity.
Qed.

(** ** The ledger update of a purchase *)

Lemma next_rowid_above (seq : N) (ids : list N) :
  Forall (fun i => (i < next_rowid seq ids)%N) ids.
Proof.
  unfold next_rowid. induction ids as [|i ids IH]; constructor; simpl.
  - lia.
  - eapply Forall_impl; [exact IH|]. simpl. intros; lia.
Qed.

Lemma stored_quantity_unique (item : str) (db : database) (r : Inv.row) :
  NoDup (List.map Inv.item_name (inventory db)) ->
  In r (inventory db) -> Inv.item_name r = item ->
  stored_quantity item db = Inv.quantity r.
Proof.
  unfold stored_quantity. induction (inventory db) as [|r0 l IH]; simpl.
  - intros _ [].
  - intros Hnd Hin Hname. apply NoDup_cons in Hnd as [Hnotin Hnd].
    unfold text_eqb at 1. case_bool_decide as Heq.
    + destruct Hin as [->|Hin]; [reflexivity|].
      exfalso. apply Hnotin. apply list_elem_of_In, in_map_iff.
      exists r. split; [congruence|exact Hin].
    + destruct Hin as [->|Hin]; [congruence|]. now apply IH.
Qed.

Lemma stored_quantity_absent (item : str) (db : database) :
  (forall r, In r (inventory db) -> Inv.item_name r <> item) ->
  stored_quantity item db = SqlInt 0 /\
  List.filter (fun r => negb (text_eqb (Inv.item_name r) item)) (inventory db)
    = inventory db.
Proof.
  unfold stored_quantity. induction (inventory db) as [|r0 l IH]; simpl.
  - intros _. split; reflexivity.
  - intros Hall. unfold text_eqb at 1 3. case_bool_decide as Heq.
    + exfalso. apply (Hall r0); [now left|exact Heq].
    + simpl. destruct IH as [IH1 IH2]; [intros r Hr; apply Hall; now right|].
      split; [exact IH1|]. f_equal. exact IH2.
Qed.

Lemma int64_range (z : Z) : int64 z = true <-> (- 2 ^ 63 <= z < 2 ^ 63)%Z.
Proof.
  unfold int64. rewrite andb_true_iff, Z.leb_le, Z.ltb_lt. reflexivity.
Qed.

(** An integer of 64 bits is within the range of the floats. *)
Lemma int64_no_overflow (z : Z) :
  (- 2 ^ 63 <= z < 2 ^ 63)%Z -> float_overflow z = false.
Proof.
  intros Hz. unfold float_overflow. apply Z.leb_gt.
  assert (Hlt : (2 ^ 63 < float_limit)%Z) by (vm_compute; reflexivity).
  revert Hz Hlt. generalize float_limit (2 ^ 63)%Z. intros; lia.
Qed.

Lemma sql_add_int (x y : Z) :
  int64 (x + y) = true ->
  integer_affinity (sql_add (SqlInt x) (SqlInt y)) = SqlInt (x + y).
Proof. intros H. unfold sql_add. rewrite H. reflexivity. Qed.

Lemma sql_sub_int (x y : Z) :
  int64 (x - y) = true ->
  integer_affinity (sql_sub (SqlInt x) (SqlInt y)) = SqlInt (x - y).
Proof. intros H. unfold sql_sub. rewrite H. reflexivity. Qed.

Section PurchaseProperties.
Context {U : Unicode}.

(** C3, as the code has it.  A purchase that is parsed and stored replaces
    the inventory row of its item: the rows of the other items are kept in
    order and one new row is appended for the item, under a fresh rowid,
    with [reorder_level] 10 whatever it was before, [unit_price] the float
    quotient of the amount by the quantity and [last_updated] the time of
    the request.  Its quantity is what SQLite makes of the quantity the item
    had (0 when it had no row) plus the purchased one: their integer sum
    when both are INTEGERs and the sum has 64 bits, and else the sum of the
    two as floats, a REAL, which is stored as an INTEGER again only when it
    is one strictly within the 64-bit range. *)
Theorem purchase_replaces_inventory_row (data : gmap str pyval)
    (now cutoff : str) (db : database) (text : str) (p : Parsed.t) :
  data !! py "text" = Some (PStr text) ->
  text <> [] ->
  parse_transaction_text text = Return p ->
  Parsed.type p = purchase ->
  Parsed.quantity p <> 0%Z ->
  (- 2 ^ 63 <= Parsed.quantity p < 2 ^ 63)%Z ->
  exists row : Inv.row,
    inventory (process_input data now cutoff db).2 =
      List.filter (fun r => negb (text_eqb (Inv.item_name r) (Parsed.item p)))
        (inventory db) ++ [row] /\
    Inv.item_name row = Parsed.item p /\
    Inv.reorder_level row = 10%Z /\
    Inv.unit_price row =
      float_div (Parsed.amount p) (float_of_Z (Parsed.quantity p)) /\
    Inv.last_updated row = now /\
    Forall (fun r => (Inv.id r < Inv.id row)%N) (inventory db) /\
    (forall r, NoDup (List.map Inv.item_name (inventory db)) ->
               In r (inventory db) -> Inv.item_name r = Parsed.item p ->
       (forall o, Inv.quantity r = SqlInt o ->
          ((- 2 ^ 63 <= o + Parsed.quantity p < 2 ^ 63)%Z ->
           Inv.quantity row = SqlInt (o + Parsed.quantity p)) /\
          (~ (- 2 ^ 63 <= o + Parsed.quantity p < 2 ^ 63)%Z ->
           Inv.quantity row =
             integer_affinity
               (SqlReal (float_add (float_of_Z o)
                           (float_of_Z (Parsed.quantity p)))))) /\
       (forall x, Inv.quantity r = SqlReal x ->
          Inv.quantity row =
            integer_affinity
              (SqlReal (float_add x (float_of_Z (Parsed.quantity p)))))) /\
    ((forall r, In r (inventory db) -> Inv.item_name r <> Parsed.item p) ->
     Inv.quantity row = SqlInt (Parsed.quantity p) /\
     inventory (process_input data now cutoff db).2 = inventory db ++ [row]).
Proof.
  intros Hdata Htext Hparse Hty Hq0 Hrange.
  set (db1 := insert_transaction now (Parsed.item p) (Parsed.amount p)
                (Parsed.type p) (Parsed.payment_method p) (py "Customer") db).
  set (price := float_div (Parsed.amount p) (float_of_Z (Parsed.quantity p))).
  assert (Hstore : store p now db =
            Return (replace_inventory (Parsed.item p) (Parsed.quantity p) price now db1)).
  { unfold store. fold db1. rewrite Hty. unfold py_truediv, sqlite_int.
    rewrite (int64_no_overflow _ Hrange).
    destruct (Z.eqb_spec (Parsed.quantity p) 0) as [?|_]; [contradiction|].
    simpl.
    destruct (Z.leb_spec (- 2 ^ 63) (Parsed.quantity p)); [|lia].
    destruct (Z.ltb_spec (Parsed.quantity p) (2 ^ 63)); [|lia].
    reflexivity. }
  assert (Hdb : (process_input data now cutoff db).2 =
            replace_inventory (Parsed.item p) (Parsed.quantity p) price now db1).
  { unfold process_input. rewrite Hdata. simpl.
    destruct text as [|c text]; [congruence|]. simpl.
    rewrite Hparse. simpl. rewrite Hstore. simpl.
    match goal with |- context [jsonify ?a ?b ?c ?d ?e] =>
      destruct (jsonify a b c d e) end; reflexivity. }
  rewrite Hdb. unfold replace_inventory. cbn [inventory].
  change (stored_quantity (Parsed.item p) db1)
    with (stored_quantity (Parsed.item p) db).
  change (inventory db1) with (inventory db).
  change (inventory_seq db1) with (inventory_seq db).
  eexists. split; [reflexivity|]. cbn [Inv.item_name Inv.reorder_level
    Inv.unit_price Inv.last_updated Inv.id Inv.quantity].
  split; [reflexivity|]. split; [reflexivity|].
  split; [reflexivity|]. split; [reflexivity|].
  split.
  { pose proof (next_rowid_above (inventory_seq db) (List.map Inv.id (inventory db))) as Hids.
    rewrite List.Forall_map in Hids. exact Hids. }
  split.
  - intros r Hnd Hin Hname.
    rewrite (stored_quantity_unique (Parsed.item p) db r Hnd Hin Hname).
    split.
    + intros o Ho. rewrite Ho. split.
      * intros Hsum. apply sql_add_int. now apply int64_range.
      * intros Hsum. unfold sql_add.
        destruct (int64 (o + Parsed.quantity p)) eqn:E; [|reflexivity].
        apply int64_range in E. contradiction.
    + intros x Hx. rewrite Hx. reflexivity.
  - intros Habsent.
    destruct (stored_quantity_absent (Parsed.item p) db Habsent) as [H0 Hf].
    rewrite H0. split.
    + rewrite sql_add_int; [reflexivity|]. now apply int64_range.
    + rewrite Hf. reflexivity.
Qed.
End PurchaseProperties.

(** No statement of the program writes a reorder level other than 10: a
    ledger in which every level is 10 stays so. *)
Lemma store_keeps_reorder_level `{Unicode} (p : Parsed.t) (timestamp : str)
    (db db' : database) :
  Forall (fun r => Inv.reorder_level r = 10%Z) (inventory db) ->
  store p timestamp db = Return db' ->
  Forall (fun r => Inv.reorder_level r = 10%Z) (inventory db').
Proof.
  intros Hdb. unfold store.
  destruct (Parsed.type p).
  - destruct (sqlite_int (Parsed.quantity p)) as [q|e]; [|discriminate].
    simpl. intros [= <-]. simpl.
    rewrite List.Forall_map. eapply Forall_impl; [exact Hdb|].
    intros r Hr. simpl. destruct (text_eqb (Inv.item_name r) (Parsed.item p));
      exact Hr.
  - destruct (py_truediv (Parsed.amount p) (Parsed.quantity p)) as [u|e];
      [|discriminate].
    destruct (sqlite_int (Parsed.quantity p)) as [q|e]; [|discriminate].
    simpl. intros [= <-]. simpl.
    apply Forall_app. split; [|repeat constructor].
    apply List.Forall_forall. intros r Hr. apply filter_In in Hr as [Hr _].
    rewrite List.Forall_forall in Hdb. exact (Hdb r Hr).
Qed.

(** ** The anomaly detector at or above its floor *)

(** [np.std] is the square root of the mean of the squared deviations from
    the mean: the population standard deviation, divisor n. *)
Lemma np_std_mean_of_squares (a : list float) :
  np_std a =
    float_sqrt
      (np_mean
         (List.map
            (fun v => float_mul (float_sub v (np_mean a)) (float_sub v (np_mean a)))
            a)).
Proof.
  unfold np_std, np_var, np_mean. rewrite List.map_map, length_map. reflexivity.
Qed.

(** C4, as the code has it.  With at least 10 sale amounts in the ledger the
    detector takes their mean mu and their population standard deviation
    sigma (divisor n) in floats, as numpy computes them, and suspects fraud
    exactly when the current amount is strictly greater than the float
    mu + 3 sigma; the reason then embeds the current amount and that
    threshold rounded to two decimal places, which is the threshold times
    100, rounded to an integer and divided by 100, and is the fixed
    "Transaction within normal range" otherwise. *)
Theorem fraud_detection_three_sigma (db : database) (x : float) :
  let history := sale_amounts db in
  let mu := np_mean history in
  let sigma :=
    float_sqrt
      (np_mean
         (List.map (fun a => float_mul (float_sub a mu) (float_sub a mu)) history)) in
  let threshold := float_add mu (float_mul (float_of_Z 3) sigma) in
  let result := fraud_detection db x in
  (10 <= length history)%nat ->
  (truth (Fraud.fraud_suspected result) = true <-> float_ltb threshold x = true) /\
  (float_ltb threshold x = true ->
   Fraud.reason result =
     [Chars (py "Transaction amount (₹"); Float x;
      Chars (py ") exceeds normal range (₹");
      Float (float_div (float_rint (float_mul threshold (float_of_Z 100)))
               (float_of_Z 100));
      Chars (py ")")]) /\
  (float_ltb threshold x = false ->
   Fraud.reason result = plain (py "Transaction within normal range")).
Proof.
  intros history mu sigma threshold result Hlen.
  assert (Hres : result =
    {| Fraud.fraud_suspected := NpBool (float_ltb threshold x);
       Fraud.reason :=
         if float_ltb threshold x
         then [Chars (py "Transaction amount (₹"); Float x;
               Chars (py ") exceeds normal range (₹");
               Float (np_round2 threshold); Chars (py ")")]
         else plain (py "Transaction within normal range") |}).
  { unfold result, fraud_detection. fold history.
    destruct (Nat.ltb_spec (length history) 10) as [Hlt|_]; [lia|].
    rewrite np_std_mean_of_squares. reflexivity. }
  rewrite Hres. cbn [Fraud.fraud_suspected Fraud.reason truth].
  split; [reflexivity|]. split; intros ->; reflexivity.
Qed.

(** ** The sign of a rounded float *)

Lemma shr_1_nonneg (mrs : shr_record) :
  (0 <= shr_m mrs)%Z -> (0 <= shr_m (shr_1 mrs))%Z.
Proof.
  destruct mrs as [m r s]. simpl.
  destruct m as [|[p|p|]|p]; simpl; lia.
Qed.

Lemma iter_pos_shr_1_nonneg (n : positive) (mrs : shr_record) :
  (0 <= shr_m mrs)%Z -> (0 <= shr_m (SpecFloat.iter_pos shr_1 n mrs))%Z.
Proof.
  revert mrs. induction n as [n IH|n IH|]; intros mrs H; simpl.
  - apply IH, IH, shr_1_nonneg, H.
  - apply IH, IH, H.
  - apply shr_1_nonneg, H.
Qed.

Lemma shr_fexp_nonneg (m e : Z) (l : location) :
  (0 <= m)%Z -> (0 <= shr_m (shr_fexp prec emax m e l).1)%Z.
Proof.
  intros Hm. unfold shr_fexp, shr.
  assert (H0 : (0 <= shr_m (shr_record_of_loc m l))%Z).
  { destruct l as [|[]]; exact Hm. }
  destruct (fexp prec emax (Zdigits2 m + e) - e)%Z; simpl; try exact H0.
  apply iter_pos_shr_1_nonneg, H0.
Qed.

Lemma round_nearest_even_nonneg (m : Z) (l : location) :
  (0 <= m)%Z -> (0 <= round_nearest_even m l)%Z.
Proof.
  intros Hm. destruct l as [|[]]; simpl; try lia.
  destruct (Z.even m); lia.
Qed.

Lemma binary_round_aux_sign (s : bool) (m e : Z) (l : location) :
  (0 <= m)%Z -> float_has_sign s (binary_round_aux prec emax s m e l).
Proof.
  intros Hm. unfold binary_round_aux.
  pose proof (shr_fexp_nonneg m e l Hm) as H1.
  destruct (shr_fexp prec emax m e l) as [mrs' e']. simpl in H1.
  pose proof (shr_fexp_nonneg
                (round_nearest_even (shr_m mrs') (loc_of_shr_record mrs')) e'
                loc_Exact (round_nearest_even_nonneg _ _ H1)) as H2.
  destruct (shr_fexp prec emax _ e' loc_Exact) as [mrs'' e'']. simpl in H2.
  destruct (shr_m mrs'') as [|q|q]; [reflexivity| |lia].
  destruct (e'' <=? emax - prec)%Z; reflexivity.
Qed.

Lemma float_of_ratio_sign (s : bool) (n : Z) (d : positive) :
  float_has_sign s (float_of_ratio s n d).
Proof.
  unfold float_of_ratio. destruct n as [|m|m]; try reflexivity.
  unfold float_div, SFdiv, SFdiv_core_binary.
  set (m' := match (0 - 0 - _)%Z with Zpos _ => _ | Z0 => _ | Zneg _ => _ end).
  assert (Hm' : (0 <= m')%Z).
  { unfold m'. destruct (0 - 0 - _)%Z; try lia. now apply Z.shiftl_nonneg. }
  pose proof (Z.div_pos m' (Z.pos d) Hm' ltac:(lia)) as Hq.
  unfold Z.div in Hq. destruct (Z.div_eucl m' (Z.pos d)) as [q r].
  rewrite xorb_false_r. apply binary_round_aux_sign. exact Hq.
Qed.

Lemma float_has_sign_nonneg (x : float) :
  float_has_sign false x -> float_leb float_zero x = true.
Proof. destruct x as [s|s| |s m e]; simpl; try intros ->; try reflexivity; tauto. Qed.

(** ** The matcher on the two patterns of the extractor *)

Lemma strip_prefix_Some (p s r : str) : strip_prefix p s = Some r <-> s = p ++ r.
Proof.
  revert s. induction p as [|a p IH]; intros s; simpl.
  - split; congruence.
  - destruct s as [|b s]; [split; discriminate|].
    destruct (N.eqb_spec b a) as [->|Hne].
    + rewrite IH. split; congruence.
    + split; [discriminate|]. intros E. congruence.
Qed.

Lemma strip_prefix_app (p r : str) : strip_prefix p (p ++ r) = Some r.
Proof. now apply strip_prefix_Some. Qed.

Section MatcherProperties.
Context {U : Unicode}.

Lemma star_app {A : Type} (cs : charset) (run rest : str)
    (k : str -> option A) (a : A) :
  Forall (fun c => in_set cs c = true) run ->
  star cs rest k = Some a ->
  star cs (run ++ rest) k = Some a.
Proof.
  intros Hrun Hrest. induction Hrun as [|c run Hc _ IH]; simpl.
  - exact Hrest.
  - rewrite Hc, IH. reflexivity.
Qed.

Lemma star_stop {A : Type} (cs : charset) (s : str) (k : str -> option A) :
  (forall c s', s = c :: s' -> in_set cs c = false) ->
  star cs s k = k s.
Proof.
  intros Hs. destruct s as [|c s']; simpl; [reflexivity|].
  rewrite (Hs c s' eq_refl). reflexivity.
Qed.

Lemma star_inv {A : Type} (cs : charset) (s : str) (k : str -> option A) (a : A) :
  star cs s k = Some a ->
  exists run rest,
    s = run ++ rest /\
    Forall (fun c => in_set cs c = true) run /\
    k rest = Some a /\
    (forall c rest', rest = c :: rest' -> in_set cs c = true ->
                     star cs rest' k = None).
Proof.
  induction s as [|c s IH]; simpl; intros H.
  - exists [], []. repeat split; [constructor|exact H|discriminate].
  - destruct (in_set cs c) eqn:Ec.
    + destruct (star cs s k) as [a'|] eqn:Es.
      * destruct (IH H) as (run & rest & -> & Hrun & Hk & Hmax).
        exists (c :: run), rest. repeat split; [now constructor|congruence|exact Hmax].
      * exists [], (c :: s). repeat split; [constructor|exact H|].
        intros c' rest' [= <- <-] _. exact Es.
    + exists [], (c :: s). repeat split; [constructor|exact H|].
      intros c' rest' [= <- <-] Hc. congruence.
Qed.

Lemma star_is_Some {A : Type} (cs : charset) (s : str) (k : str -> option A) :
  (forall s', is_Some (k s')) -> is_Some (star cs s k).
Proof.
  intros Hk. induction s as [|c s IH]; simpl; [apply Hk|].
  destruct (in_set cs c); [|apply Hk].
  destruct (star cs s k); [eauto|apply Hk].
Qed.

(** The equations of [bt], one per construct met in the patterns. *)
Lemma bt_cat {A : Type} (r1 r2 : regex) (s : str) (g : captures)
    (k : str -> captures -> option A) :
  bt (Cat r1 r2) s g k = bt r1 s g (fun s' g' => bt r2 s' g' k).
Proof. reflexivity. Qed.

Lemma bt_alt {A : Type} (r1 r2 : regex) (s : str) (g : captures)
    (k : str -> captures -> option A) :
  bt (Alt r1 r2) s g k =
    match bt r1 s g k with Some a => Some a | None => bt r2 s g k end.
Proof. reflexivity. Qed.

Lemma bt_opt {A : Type} (r : regex) (s : str) (g : captures)
    (k : str -> captures -> option A) :
  bt (Opt r) s g k =
    match bt r s g k with Some a => Some a | None => k s g end.
Proof. reflexivity. Qed.

Lemma bt_group {A : Type} (i : nat) (r : regex) (s : str) (g : captures)
    (k : str -> captures -> option A) :
  bt (Group i r) s g k =
    bt r s g (fun s' g' => k s' (<[i := take (length s - length s') s]> g')).
Proof. reflexivity. Qed.

Lemma bt_lit_text {A : Type} (t s : str) (g : captures)
    (k : str -> captures -> option A) :
  bt (lit_text t) s g k =
    match strip_prefix t s with Some r => k r g | None => None end.
Proof.
  revert s. induction t as [|a t IH]; intros s; simpl; [reflexivity|].
  destruct s as [|b s]; [reflexivity|].
  destruct (b =? a)%N; [apply IH|reflexivity].
Qed.

Lemma bt_group_free {A : Type} (r : regex) :
  group_free r = true ->
  forall (s : str) (g : captures) (k : str -> captures -> option A) (a : A),
    bt r s g k = Some a -> exists s', k s' g = Some a.
Proof.
  induction r as [|cs|r1 IH1 r2 IH2|r1 IH1 r2 IH2|r1 IH1|cs|cs|n r1 IH1|i r1 IH1];
    simpl; intros Hgf s g k a H.
  - eauto.
  - destruct s as [|c s]; [discriminate|].
    destruct (in_set cs c); [eauto|discriminate].
  - apply andb_true_iff in Hgf as [H1 H2].
    apply (IH1 H1) in H as [s1 H]. apply (IH2 H2) in H. exact H.
  - apply andb_true_iff in Hgf as [H1 H2].
    destruct (bt r1 s g k) eqn:E1.
    + injection H as ->. apply (IH1 H1) in E1. exact E1.
    + apply (IH2 H2) in H. exact H.
  - destruct (bt r1 s g k) eqn:E1.
    + injection H as ->. apply (IH1 Hgf) in E1. exact E1.
    + eauto.
  - apply star_inv in H as (run & rest & _ & _ & H & _). eauto.
  - destruct s as [|c s]; [discriminate|].
    destruct (in_set cs c); [|discriminate].
    apply star_inv in H as (run & rest & _ & _ & H & _). eauto.
  - revert s g k a H. induction n as [|n IHn]; intros s g k a H.
    + eauto.
    + apply (IH1 Hgf) in H as [s1 H]. apply IHn in H. exact H.
  - discriminate.
Qed.
End MatcherProperties.

Section AmountMatcher.
Context {U : Unicode}.
Hypothesis HU : unicode_consistent U.

Local Arguments in_set : simpl never.

Lemma digit_not_space (c : N) : is_digit c -> in_set ClsSpace c = false.
Proof.
  unfold is_digit, in_set. intros Hd. destruct HU as [H _]. apply H.
  destruct (decimal c); [discriminate|discriminate].
Qed.

Lemma token_char (c : N) :
  In c [114; 115; 46; 117; 112; 101; 8377]%N ->
  in_set ClsDigit c = false /\ in_set ClsSpace c = false.
Proof.
  intros Hin. destruct HU as [_ H]. destruct (H c Hin) as [Hd Hs].
  unfold in_set. rewrite Hd. split; [reflexivity|exact Hs].
Qed.

(** *** The currency token *)

Lemma in_set_chr (a c : N) : in_set (Chr a) c = (c =? a)%N.
Proof. reflexivity. Qed.

Lemma currency_tokens_eq :
  currency_tokens =
    [[114; 115; 46]; [114; 115]; [114; 117; 112; 101; 101; 115];
     [114; 117; 112; 101; 101]; [8377]]%N.
Proof. reflexivity. Qed.

Lemma currency_eq :
  currency =
    Alt (Cat (lit_text [114; 115]%N) (Opt (lit_text [46]%N)))
      (Alt (Cat (lit_text [114; 117; 112; 101; 101]%N) (Opt (lit_text [115]%N)))
         (lit_text [8377]%N)).
Proof. reflexivity. Qed.

Lemma bt_currency_inv {A : Type} (s : str) (g : captures)
    (k : str -> captures -> option A) (a : A) :
  bt currency s g k = Some a ->
  exists tok rest, s = tok ++ rest /\ In tok currency_tokens /\ k rest g = Some a.
Proof.
  rewrite currency_eq, currency_tokens_eq.
  rewrite !bt_alt, !bt_cat, !bt_lit_text.
  intros H.
  destruct (strip_prefix [114; 115]%N s) as [r1|] eqn:E1.
  { apply strip_prefix_Some in E1. rewrite bt_opt, bt_lit_text in H.
    destruct (strip_prefix [46]%N r1) as [r2|] eqn:E2.
    - apply strip_prefix_Some in E2. destruct (k r2 g) eqn:Ek.
      + injection H as ->. exists [114; 115; 46]%N, r2. subst.
        split; [reflexivity|]. split; [simpl; tauto|exact Ek].
      + clear E2. destruct (k r1 g) eqn:Ek1.
        * injection H as ->. exists [114; 115]%N, r1.
          split; [exact E1|]. split; [simpl; tauto|exact Ek1].
        * subst s. discriminate H.
    - destruct (k r1 g) eqn:Ek1.
      + injection H as ->. exists [114; 115]%N, r1.
        split; [exact E1|]. split; [simpl; tauto|exact Ek1].
      + subst s. discriminate H. }
  destruct (strip_prefix [114; 117; 112; 101; 101]%N s) as [r1|] eqn:E3.
  { apply strip_prefix_Some in E3. rewrite bt_opt, bt_lit_text in H.
    destruct (strip_prefix [115]%N r1) as [r2|] eqn:E2.
    - apply strip_prefix_Some in E2. destruct (k r2 g) eqn:Ek.
      + injection H as ->. exists [114; 117; 112; 101; 101; 115]%N, r2. subst.
        split; [reflexivity|]. split; [simpl; tauto|exact Ek].
      + clear E2. destruct (k r1 g) eqn:Ek1.
        * injection H as ->. exists [114; 117; 112; 101; 101]%N, r1.
          split; [exact E3|]. split; [simpl; tauto|exact Ek1].
        * subst s. discriminate H.
    - destruct (k r1 g) eqn:Ek1.
      + injection H as ->. exists [114; 117; 112; 101; 101]%N, r1.
        split; [exact E3|]. split; [simpl; tauto|exact Ek1].
      + subst s. discriminate H. }
  destruct (strip_prefix [8377]%N s) as [r1|] eqn:E4; [|discriminate].
  apply strip_prefix_Some in E4. exists [8377]%N, r1.
  split; [exact E4|]. split; [simpl; tauto|exact H].
Qed.

(** A token followed by neither ['.'] nor ['s'] is read whole. *)
Lemma bt_currency_at {A : Type} (tok rest : str) (g : captures)
    (k : str -> captures -> option A) (a : A) :
  In tok currency_tokens ->
  k rest g = Some a ->
  (forall r, rest <> 46%N :: r) -> (forall r, rest <> 115%N :: r) ->
  bt currency (tok ++ rest) g k = Some a.
Proof.
  rewrite currency_eq, currency_tokens_eq. intros Hin Hk Hdot Hs.
  assert (E46 : strip_prefix [46]%N rest = None).
  { destruct rest as [|c r]; [reflexivity|]. simpl.
    destruct (N.eqb_spec c 46) as [->|_]; [|reflexivity]. now destruct (Hdot r). }
  assert (E115 : strip_prefix [115]%N rest = None).
  { destruct rest as [|c r]; [reflexivity|]. simpl.
    destruct (N.eqb_spec c 115) as [->|_]; [|reflexivity]. now destruct (Hs r). }
  cbn [strip_prefix] in E46, E115.
  rewrite !bt_alt, !bt_cat, !bt_lit_text.
  simpl in Hin.
  destruct Hin as [<-|[<-|[<-|[<-|[<-|[]]]]]];
    cbn [strip_prefix app N.eqb Pos.eqb];
    rewrite ?bt_opt, ?bt_lit_text; cbn [strip_prefix app N.eqb Pos.eqb];
    rewrite ?Hk, ?E46, ?E115, ?Hk; reflexivity.
Qed.

(** Before a continuation that accepts whatever follows, any token will
    do. *)
Lemma bt_currency_last {A : Type} (tok rest : str) (g : captures)
    (k : str -> captures -> option A) (a : A) :
  In tok currency_tokens ->
  (forall r, k r g = Some a) ->
  bt currency (tok ++ rest) g k = Some a.
Proof.
  rewrite currency_eq, currency_tokens_eq. intros Hin Hk.
  rewrite !bt_alt, !bt_cat, !bt_lit_text.
  simpl in Hin.
  destruct Hin as [<-|[<-|[<-|[<-|[<-|[]]]]]];
    cbn [strip_prefix app N.eqb Pos.eqb];
    rewrite ?bt_opt, ?bt_lit_text; cbn [strip_prefix app N.eqb Pos.eqb];
    rewrite ?Hk; try reflexivity;
    (destruct rest as [|b r]; [reflexivity|]);
    destruct (b =? 46)%N, (b =? 115)%N; rewrite ?Hk; reflexivity.
Qed.

Lemma bt_currency_fail {A : Type} (s : str) (g : captures)
    (k : str -> captures -> option A) :
  (forall c r, s = c :: r -> c <> 114%N /\ c <> 8377%N) ->
  bt currency s g k = None.
Proof.
  rewrite currency_eq. intros Hs.
  rewrite !bt_alt, !bt_cat, !bt_lit_text.
  destruct s as [|c r]; [reflexivity|].
  destruct (Hs c r eq_refl) as [H1 H2]. cbn [strip_prefix].
  destruct (N.eqb_spec c 114); [contradiction|].
  destruct (N.eqb_spec c 8377); [contradiction|]. reflexivity.
Qed.

(** *** The number *)

Lemma bt_fraction {A : Type} (s : str) (g : captures)
    (k : str -> captures -> option A) :
  bt fraction s g k =
    match s with
    | c0 :: d1 :: d2 :: r =>
        if (c0 =? 46)%N && in_set ClsDigit d1 && in_set ClsDigit d2
        then k r g else None
    | _ => None
    end.
Proof.
  change fraction with (Cat (lit_text [46%N]) (Times 2 (One ClsDigit))).
  destruct s as [|c0 [|x1 [|x2 r]]]; simpl; rewrite ?in_set_chr.
  - reflexivity.
  - now destruct (c0 =? 46)%N.
  - destruct (c0 =? 46)%N; [|reflexivity]. now destruct (in_set ClsDigit x1).
  - destruct (c0 =? 46)%N; [|reflexivity]. now destruct (in_set ClsDigit x1).
Qed.

Lemma bt_number {A : Type} (s : str) (g : captures)
    (k : str -> captures -> option A) :
  bt number s g k =
    match s with
    | c :: s0 =>
        if in_set ClsDigit c
        then star ClsDigit s0 (fun s1 => bt (Opt fraction) s1 g k)
        else None
    | [] => None
    end.
Proof. reflexivity. Qed.

Local Arguments bt : simpl never.

Lemma bt_fraction_None {A : Type} (s : str) (g : captures)
    (k : str -> captures -> option A) :
  ~ starts_with_fraction s -> bt fraction s g k = None.
Proof.
  intros Hs. rewrite bt_fraction.
  destruct s as [|c0 [|d1 [|d2 r]]]; try reflexivity.
  destruct (N.eqb_spec c0 46) as [->|_]; [|reflexivity].
  destruct (in_set ClsDigit d1) eqn:E1; [|reflexivity].
  destruct (in_set ClsDigit d2) eqn:E2; [|reflexivity].
  exfalso. apply Hs. exists d1, d2, r. repeat split; assumption.
Qed.

Lemma dot_not_digit : in_set ClsDigit 46%N = false.
Proof. apply token_char. simpl. tauto. Qed.

(** The number read at the head of [num ++ rest] is the one the pattern
    matches first. *)
Lemma bt_number_read {A : Type} (num rest : str) (g : captures)
    (k : str -> captures -> option A) (a : A) :
  number_read num rest ->
  k rest g = Some a ->
  bt number (num ++ rest) g k = Some a.
Proof.
  intros Hread Hk. rewrite bt_number.
  destruct Hread as [D rest [Hne HD] Hnd Hnf|D d1 d2 rest [Hne HD] H1 H2].
  - destruct HD as [|c D Hc HD]; [congruence|]. simpl.
    rewrite Hc. apply star_app; [exact HD|].
    rewrite star_stop.
    + cbv beta. rewrite bt_opt, bt_fraction_None by exact Hnf. exact Hk.
    + intros c' s' -> . destruct (in_set ClsDigit c') eqn:E; [|reflexivity].
      exfalso. apply Hnd. exists c', s'. split; [reflexivity|exact E].
  - change (chr ".") with 46%N.
    destruct HD as [|c D Hc HD]; [congruence|]. simpl.
    rewrite Hc. rewrite <- app_assoc. apply star_app; [exact HD|].
    rewrite star_stop.
    + cbv beta. rewrite bt_opt, bt_fraction. simpl.
      unfold is_digit in H1, H2. rewrite H1, H2, Hk. reflexivity.
    + intros c' s' [= <- _]. exact dot_not_digit.
Qed.

Lemma bt_number_inv {A : Type} (s : str) (g : captures)
    (k : str -> captures -> option A) (a : A) :
  bt number s g k = Some a ->
  exists num rest,
    s = num ++ rest /\ amount_number num /\ k rest g = Some a /\
    ((forall s' g', is_Some (k s' g')) -> number_read num rest).
Proof.
  rewrite bt_number. destruct s as [|c s0]; [discriminate|].
  destruct (in_set ClsDigit c) eqn:Ec; [|discriminate].
  intros H. apply star_inv in H as (run & rest1 & -> & Hrun & H & Hmax).
  assert (HD : digits (c :: run)).
  { split; [discriminate|]. constructor; assumption. }
  rewrite bt_opt in H.
  destruct (bt fraction rest1 g k) as [a'|] eqn:Ef.
  - injection H as ->. rewrite bt_fraction in Ef.
    destruct rest1 as [|c0 [|d1 [|d2 r]]]; try discriminate.
    destruct (N.eqb_spec c0 46) as [->|_]; [|discriminate].
    destruct (in_set ClsDigit d1) eqn:E1; [|discriminate].
    destruct (in_set ClsDigit d2) eqn:E2; [|discriminate].
    simpl in Ef.
    exists ((c :: run) ++ chr "." :: [d1; d2]), r.
    split; [now rewrite <- app_assoc|].
    split; [now constructor|]. split; [exact Ef|].
    intros _. now constructor.
  - exists (c :: run), rest1.
    split; [reflexivity|]. split; [now constructor|]. split; [exact H|].
    intros Hk. constructor; [exact HD| |].
    + intros (c' & s' & -> & Hc').
      assert (Hsome : is_Some (star ClsDigit s' (fun s1 => bt (Opt fraction) s1 g k))).
      { apply star_is_Some. intros s1. rewrite bt_opt.
        destruct (bt fraction s1 g k); [eauto|apply Hk]. }
      rewrite (Hmax c' s' eq_refl Hc') in Hsome. destruct Hsome; discriminate.
    + intros (d1 & d2 & r & -> & H1 & H2).
      rewrite bt_fraction in Ef. change (chr ".") with 46%N in Ef.
      rewrite N.eqb_refl in Ef. unfold is_digit in H1, H2.
      rewrite H1, H2 in Ef. simpl in Ef.
      destruct (Hk r g) as [x Hx]. congruence.
Qed.

(** Before white space and a currency token, a number is read whole. *)
Lemma number_read_before_token (num ws tok rest : str) :
  amount_number num -> spaces ws -> In tok currency_tokens ->
  number_read num (ws ++ tok ++ rest).
Proof.
  intros Hnum Hws Htok.
  assert (Hhead : forall c s', ws ++ tok ++ rest = c :: s' ->
            in_set ClsDigit c = false /\ c <> 46%N).
  { intros c s' E. destruct Hws as [|w ws Hw Hws].
    - rewrite currency_tokens_eq in Htok. simpl in Htok, E.
      assert (Hc : In c [114; 115; 46; 117; 112; 101; 8377]%N /\ c <> 46%N).
      { destruct Htok as [<-|[<-|[<-|[<-|[<-|[]]]]]]; injection E as <- _;
          (split; [simpl; tauto|discriminate]). }
      destruct Hc as [Hc Hne]. split; [apply (token_char c Hc)|exact Hne].
    - injection E as <- _. split.
      + destruct (in_set ClsDigit w) eqn:Ed; [|reflexivity].
        apply digit_not_space in Ed. unfold is_space in Hw. congruence.
      + intros ->. unfold is_space in Hw.
        destruct (token_char 46%N) as [_ Hs]; [simpl; tauto|]. congruence. }
  destruct Hnum as [D HD|D d1 d2 HD H1 H2]; [|now constructor].
  constructor; [exact HD| |].
  - intros (c & s' & E & Hc). destruct (Hhead c s' E) as [Hd _].
    unfold is_digit in Hc. congruence.
  - intros (d1 & d2 & s' & E & _). destruct (Hhead _ _ E) as [_ Hne].
    now apply Hne.
Qed.

(** *** [int] and [float] on what the groups hold *)

Lemma digits_value_digits (t : str) (acc : N) :
  Forall is_digit t -> exists n, digits_value acc t = Some n.
Proof.
  intros Ht. revert acc. induction Ht as [|c t Hc _ IH]; intros acc; simpl.
  - eauto.
  - unfold is_digit, in_set in Hc. destruct (decimal c); [apply IH|discriminate].
Qed.

Lemma digits_value_Some (t : str) (acc n : N) :
  digits_value acc t = Some n -> Forall is_digit t.
Proof.
  revert acc. induction t as [|c t IH]; intros acc; simpl; [constructor|].
  destruct (decimal c) as [d|] eqn:E; [|discriminate].
  intros H. constructor; [|exact (IH _ H)].
  unfold is_digit, in_set. now rewrite E.
Qed.

(** [int] on digits: their value, or [ValueError] when they are more than
    [max_str_digits]. *)
Lemma py_int_digits (D : str) :
  digits D ->
  exists n, digits_value 0 D = Some n /\
    py_int D =
      if (max_str_digits <? Z.of_nat (length D))%Z then Raise ValueError
      else Return (Z.of_N n).
Proof.
  intros [Hne HD]. unfold py_int.
  destruct (digits_value_digits D 0 HD) as [n Hn]. rewrite Hn.
  destruct D; [congruence|]. exists n. split; reflexivity.
Qed.

Lemma split_point_digits (D : str) :
  Forall is_digit D -> split_point D = (D, None).
Proof.
  induction 1 as [|c D Hc _ IH]; simpl; [reflexivity|].
  change (chr ".") with 46%N.
  destruct (N.eqb_spec c 46) as [->|_].
  - unfold is_digit in Hc. rewrite dot_not_digit in Hc. discriminate.
  - rewrite IH. reflexivity.
Qed.

Lemma split_point_fraction (D fp : str) :
  Forall is_digit D -> split_point (D ++ 46%N :: fp) = (D, Some fp).
Proof.
  induction 1 as [|c D Hc _ IH]; simpl.
  - reflexivity.
  - change (chr ".") with 46%N.
    destruct (N.eqb_spec c 46) as [->|_].
    + unfold is_digit in Hc. rewrite dot_not_digit in Hc. discriminate.
    + rewrite IH. reflexivity.
Qed.

(** [float] on a number of the pattern: the float nearest to it. *)
Lemma py_float_number (num : str) :
  amount_number num -> exists x, py_float num = Return x /\ number_value num x.
Proof.
  intros [D [Hne HD]|D x1 x2 [Hne HD] H1 H2]; unfold py_float.
  - rewrite (split_point_digits D HD). simpl default. rewrite app_nil_r.
    destruct (digits_value_digits D 0 HD) as [n Hn].
    destruct D as [|c D]; [congruence|]. rewrite Hn.
    eexists. split; [reflexivity|]. exact (value_whole (c :: D) n Hn).
  - change (chr ".") with 46%N.
    rewrite (split_point_fraction D [x1; x2] HD). simpl default.
    destruct (digits_value_digits (D ++ [x1; x2]) 0) as [n Hn].
    { apply Forall_app. split; [exact HD|]. repeat constructor; assumption. }
    pose proof (value_point D [x1; x2] n Hn) as Hv.
    change (chr ".") with 46%N in Hv.
    destruct D as [|c D]; [congruence|].
    cbn [app] in Hn |- *. rewrite Hn. eexists. split; [reflexivity|]. exact Hv.
Qed.

(** A decimal number has one value. *)
Lemma number_value_unique (num : str) (x x' : float) :
  number_value num x -> number_value num x' -> x = x'.
Proof.
  intros H H'.
  destruct H as [D n Hn|D F n Hn];
    inversion H' as [D' n' Hn' E1 E2|D' F' n' Hn' E1 E2]; subst.
  - congruence.
  - exfalso. apply digits_value_Some in Hn.
    apply Forall_app in Hn as [_ Hn]. apply Forall_cons in Hn as [Hn _].
    change (chr ".") with 46%N in Hn. unfold is_digit in Hn.
    rewrite dot_not_digit in Hn. discriminate.
  - exfalso. apply digits_value_Some in Hn'.
    apply Forall_app in Hn' as [_ Hn']. apply Forall_cons in Hn' as [Hn' _].
    change (chr ".") with 46%N in Hn'. unfold is_digit in Hn'.
    rewrite dot_not_digit in Hn'. discriminate.
  - pose proof (digits_value_Some _ _ _ Hn) as HDF.
    pose proof (digits_value_Some _ _ _ Hn') as HDF'.
    apply Forall_app in HDF as [HD _]. apply Forall_app in HDF' as [HD' _].
    change (chr ".") with 46%N in E1.
    pose proof (split_point_fraction D F HD) as S1.
    pose proof (split_point_fraction D' F' HD') as S2.
    rewrite <- E1 in S1. rewrite S1 in S2. injection S2 as -> ->. congruence.
Qed.

Lemma number_value_py_float (num : str) (x : float) :
  amount_number num -> number_value num x -> py_float num = Return x.
Proof.
  intros Hnum Hval.
  destruct (py_float_number num Hnum) as (x' & Hx' & Hv'). rewrite Hx'. f_equal.
  exact (number_value_unique num x' x Hv' Hval).
Qed.

Lemma number_read_number (num rest : str) :
  number_read num rest -> amount_number num.
Proof. intros [D r HD _ _|D x1 x2 r HD H1 H2]; now constructor. Qed.

Lemma number_head (num : str) :
  amount_number num -> exists c num', num = c :: num' /\ is_digit c.
Proof.
  intros [D [Hne HD]|D x1 x2 [Hne HD] _ _];
    (destruct HD as [|c D Hc _]; [congruence|]); simpl; eauto.
Qed.

Lemma token_head (tok : str) :
  In tok currency_tokens ->
  exists c tok', tok = c :: tok' /\ (c = 114%N \/ c = 8377%N).
Proof.
  rewrite currency_tokens_eq. simpl.
  intros [<-|[<-|[<-|[<-|[<-|[]]]]]]; eauto.
Qed.

Lemma take_app_rest (num rest : str) :
  take (length (num ++ rest) - length rest) (num ++ rest) = num.
Proof.
  rewrite length_app. replace (length num + length rest - length rest)%nat
    with (length num) by lia.
  apply take_app_length.
Qed.

Lemma bt_star {A : Type} (cs : charset) (s : str) (g : captures)
    (k : str -> captures -> option A) :
  bt (Star cs) s g k = star cs s (fun s' => k s' g).
Proof. reflexivity. Qed.

(** *** The amount pattern at one position *)

Lemma amount_match_sound (s : str) (m : captures) :
  re_match amount_pattern s = Some m ->
  exists q, amount_at s q /\ matched_amount m = Return q.
Proof.
  unfold re_match, amount_pattern. rewrite bt_alt.
  destruct (bt (Cat currency _) s ∅ _) as [m1|] eqn:E1.
  - intros [= ->]. rewrite bt_cat in E1.
    apply bt_currency_inv in E1 as (tok & rest & -> & Htok & E1).
    rewrite bt_cat, bt_star in E1.
    apply star_inv in E1 as (ws & rest2 & -> & Hws & E1 & _).
    rewrite bt_group in E1.
    apply bt_number_inv in E1 as (num & rest3 & -> & Hnum & E1 & Hread).
    rewrite take_app_rest in E1. injection E1 as <-.
    destruct (py_float_number num Hnum) as (q & Hq & Hv).
    exists q. split.
    + apply amount_after; [exact Htok|exact Hws| |exact Hv].
      apply Hread. intros; eauto.
    + unfold matched_amount. rewrite lookup_insert_eq.
      destruct (number_head num Hnum) as (c & num' & -> & _). exact Hq.
  - rewrite bt_cat, bt_group. intros E2.
    apply bt_number_inv in E2 as (num & rest & -> & Hnum & E2 & _).
    rewrite take_app_rest, bt_cat, bt_star in E2.
    apply star_inv in E2 as (ws & rest2 & -> & Hws & E2 & _).
    apply bt_currency_inv in E2 as (tok & rest3 & -> & Htok & E2).
    injection E2 as <-.
    destruct (py_float_number num Hnum) as (q & Hq & Hv).
    exists q. split.
    + apply amount_before; assumption.
    + unfold matched_amount.
      rewrite lookup_insert_ne, lookup_empty, lookup_insert_eq by discriminate.
      exact Hq.
Qed.

Lemma amount_match_complete (s : str) (q : float) :
  amount_at s q ->
  exists m, re_match amount_pattern s = Some m /\ matched_amount m = Return q.
Proof.
  intros [tok ws num rest q' Htok Hws Hread Hv|num ws tok rest q' Hnum Hws Htok Hv].
  1: pose proof (number_value_py_float num q'
                   (number_read_number _ _ Hread) Hv) as Hq.
  2: pose proof (number_value_py_float num q' Hnum Hv) as Hq.
  - exists (<[1%nat := num]> ∅). split.
    + unfold re_match, amount_pattern. rewrite bt_alt, bt_cat.
      destruct (number_head num (number_read_number _ _ Hread))
        as (c & num' & Enum & Hc).
      assert (Hhead : forall c0 r, ws ++ num ++ rest = c0 :: r ->
                in_set ClsSpace c0 = true \/ in_set ClsDigit c0 = true).
      { intros c0 r E. destruct Hws as [|w ws Hw _].
        - rewrite Enum in E. injection E as <- _. now right.
        - injection E as <- _. now left. }
      rewrite (bt_currency_at tok (ws ++ num ++ rest) ∅ _ (<[1%nat := num]> ∅));
        [reflexivity|exact Htok| | |].
      * rewrite bt_cat, bt_star. apply star_app; [exact Hws|].
        rewrite star_stop.
        -- rewrite bt_group.
           apply bt_number_read; [exact Hread|]. now rewrite take_app_rest.
        -- intros c0 r E. rewrite Enum in E. injection E as <- _.
           now apply digit_not_space.
      * intros r E. destruct (token_char 46%N) as [Hd Hs]; [simpl; tauto|].
        destruct (Hhead _ _ E); congruence.
      * intros r E. destruct (token_char 115%N) as [Hd Hs]; [simpl; tauto|].
        destruct (Hhead _ _ E); congruence.
    + unfold matched_amount. rewrite lookup_insert_eq.
      destruct (number_head num (number_read_number _ _ Hread))
        as (c & num' & -> & _). exact Hq.
  - exists (<[2%nat := num]> ∅). split.
    + unfold re_match, amount_pattern. rewrite bt_alt, bt_cat.
      destruct (number_head num Hnum) as (c & num' & Enum & Hc).
      rewrite bt_currency_fail.
      * rewrite bt_cat, bt_group.
        apply bt_number_read;
          [now apply number_read_before_token|].
        rewrite take_app_rest, bt_cat, bt_star.
        apply star_app; [exact Hws|].
        destruct (token_head tok Htok) as (t0 & tok' & Etok & Ht0).
        rewrite star_stop.
        -- now apply bt_currency_last.
        -- intros c0 r E. rewrite Etok in E. injection E as <- _.
           destruct Ht0 as [->| ->]; apply token_char; simpl; tauto.
      * intros c0 r E. rewrite Enum in E. injection E as <- _.
        unfold is_digit in Hc.
        split; intros E0;
          (destruct (token_char c) as [Hd _]; [rewrite E0; simpl; tauto|]);
          congruence.
    + unfold matched_amount.
      rewrite lookup_insert_ne, lookup_empty, lookup_insert_eq by discriminate.
      exact Hq.
Qed.

(** *** [re.search] *)

Lemma re_search_inv (r : regex) (t : str) (m : captures) :
  re_search r t = Some m ->
  exists pre s,
    t = pre ++ s /\ re_match r s = Some m /\
    (forall pre' s', t = pre' ++ s' -> (length pre' < length pre)%nat ->
                     re_match r s' = None).
Proof.
  induction t as [|c t IH]; simpl.
  - destruct (re_match r []) eqn:E; [|discriminate].
    intros [= ->]. exists [], []. repeat split; [exact E|].
    intros pre' s' _ Hlt. simpl in Hlt. lia.
  - destruct (re_match r (c :: t)) eqn:E.
    + intros [= ->]. exists [], (c :: t). repeat split; [exact E|].
      intros pre' s' _ Hlt. simpl in Hlt. lia.
    + intros H. destruct (IH H) as (pre & s & -> & Hs & Hmin).
      exists (c :: pre), s. repeat split; [exact Hs|].
      intros pre' s' E' Hlt. destruct pre' as [|c' pre'].
      * simpl in E'. subst s'. exact E.
      * injection E' as <- E'. apply (Hmin pre' s' E'). simpl in Hlt. lia.
Qed.

Lemma re_search_None (r : regex) (t : str) :
  re_search r t = None ->
  forall pre s, t = pre ++ s -> re_match r s = None.
Proof.
  induction t as [|c t IH]; simpl.
  - destruct (re_match r []) eqn:E; [discriminate|].
    intros _ pre s Ht. symmetry in Ht. apply app_eq_nil in Ht as [_ ->]. exact E.
  - destruct (re_match r (c :: t)) eqn:E; [discriminate|].
    intros H pre s Ht. destruct pre as [|c' pre].
    + simpl in Ht. subst s. exact E.
    + injection Ht as _ Ht. exact (IH H pre s Ht).
Qed.

(** *** The amount of a text *)

Lemma py_float_nonneg (t : str) (x : float) :
  py_float t = Return x -> float_leb float_zero x = true.
Proof.
  unfold py_float. destruct (split_point t) as [ip fp].
  destruct (ip ++ default [] fp) as [|c ds]; [discriminate|].
  destruct (digits_value 0 (c :: ds)) as [v|]; [|discriminate].
  intros [= <-]. apply float_has_sign_nonneg, float_of_ratio_sign.
Qed.

Lemma extract_amount_leftmost (t : str) :
  exists q, extract_amount t = Return q /\ float_leb float_zero q = true /\
    (forall pre s q', t = pre ++ s -> amount_at s q' ->
       (forall pre' s' q'', t = pre' ++ s' ->
          (length pre' < length pre)%nat -> ~ amount_at s' q'') ->
       q = q') /\
    ((forall pre s q', t = pre ++ s -> ~ amount_at s q') -> q = float_zero).
Proof.
  unfold extract_amount.
  destruct (re_search amount_pattern t) as [m|] eqn:E.
  - apply re_search_inv in E as (pre0 & s0 & Ht & Hm & Hmin).
    destruct (amount_match_sound s0 m Hm) as (q & Hat & Hq).
    fold (matched_amount m). exists q.
    split; [exact Hq|]. split.
    { unfold matched_amount, float_of_group in Hq.
      destruct (group_or _ _); [|discriminate]. exact (py_float_nonneg _ _ Hq). }
    split.
    + intros pre s q' Ht' Hat' Hleft.
      destruct (amount_match_complete s q' Hat') as (m' & Hm' & Hq').
      destruct (Nat.lt_trichotomy (length pre0) (length pre)) as [Hlt|[Heq|Hgt]].
      * exfalso. exact (Hleft pre0 s0 q Ht Hlt Hat).
      * rewrite Ht in Ht'. apply app_inj_1 in Ht' as [_ <-]; [|exact Heq].
        congruence.
      * rewrite (Hmin pre s Ht' Hgt) in Hm'. discriminate.
    + intros Hnone. exfalso. exact (Hnone pre0 s0 q Ht Hat).
  - exists float_zero. split; [reflexivity|]. split; [reflexivity|]. split.
    + intros pre s q' Ht Hat _.
      destruct (amount_match_complete s q' Hat) as (m' & Hm' & _).
      rewrite (re_search_None _ _ E pre s Ht) in Hm'. discriminate.
    + reflexivity.
Qed.

(** *** The quantity of a text *)

Lemma bt_plus {A : Type} (cs : charset) (s : str) (g : captures)
    (k : str -> captures -> option A) :
  bt (Plus cs) s g k =
    match s with
    | c :: s' => if in_set cs c then star cs s' (fun s'' => k s'' g) else None
    | [] => None
    end.
Proof. reflexivity. Qed.

Lemma quantity_match_digits (s : str) (m : captures) :
  re_match quantity_pattern s = Some m ->
  exists D, m !! 1%nat = Some D /\ digits D.
Proof.
  unfold re_match, quantity_pattern. rewrite bt_cat, bt_group, bt_plus.
  destruct s as [|c s0]; [discriminate|].
  destruct (in_set ClsDigit c) eqn:Ec; [|discriminate].
  intros H. apply star_inv in H as (run & rest & -> & Hrun & H & _).
  apply bt_group_free in H as [s' H]; [|reflexivity].
  injection H as <-.
  change (S (length (run ++ rest))) with (length ((c :: run) ++ rest)).
  rewrite take_app_rest, lookup_insert_eq.
  exists (c :: run). split; [reflexivity|].
  split; [discriminate|]. now constructor.
Qed.

(** The quantity conversion returns a natural number, or raises
    [ValueError] on a match of more than [max_str_digits] digits. *)
Lemma extract_quantity_result (t : str) :
  match extract_quantity t with
  | Return n => (0 <= n)%Z
  | Raise e =>
      e = ValueError /\
      exists m D,
        re_search quantity_pattern t = Some m /\ m !! 1%nat = Some D /\
        digits D /\ (max_str_digits < Z.of_nat (length D))%Z
  end.
Proof.
  unfold extract_quantity.
  destruct (re_search quantity_pattern t) as [m|] eqn:E; [|simpl; lia].
  pose proof E as E'.
  apply re_search_inv in E' as (pre & s & _ & Hm & _).
  destruct (quantity_match_digits s m Hm) as (D & HmD & HD).
  rewrite HmD. simpl int_of_group.
  destruct (py_int_digits D HD) as (n & _ & ->).
  destruct (Z.ltb_spec max_str_digits (Z.of_nat (length D))) as [Hlong|_]; [|lia].
  split; [reflexivity|]. exists m, D. auto.
Qed.

(** X26.  The amount of a parsed transaction is that of the currency-marked
    number at the leftmost position of the lower-cased text that has one: a
    currency token (rs, rs., rupee, rupees, ₹), white space and the number
    read there, or a number, white space and a currency token, where a
    number is digits with an optional fraction of exactly two digits and
    its amount is the float nearest to it; the amount is 0.0 when no
    position has one. *)
Theorem parse_amount_leftmost (text : str) (p : Parsed.t) :
  parse_transaction_text text = Return p ->
  (forall pre s x, str_lower text = pre ++ s -> amount_at s x ->
     (forall pre' s' x', str_lower text = pre' ++ s' ->
        (length pre' < length pre)%nat -> ~ amount_at s' x') ->
     Parsed.amount p = x) /\
  ((forall pre s x, str_lower text = pre ++ s -> ~ amount_at s x) ->
   Parsed.amount p = float_zero).
Proof.
  unfold parse_transaction_text.
  destruct (extract_amount_leftmost (str_lower text)) as (q & -> & _ & Hleft & Hnone).
  destruct (extract_quantity (str_lower text)) as [n|e]; [|discriminate].
  simpl. intros [= <-]. simpl. split; assumption.
Qed.

(** X21.  What of the invariant "amount >= 0 and quantity >= 1" holds for
    every text: when the extractor returns, neither the amount nor the
    quantity is negative; it returns unless the quantity pattern matches
    more than 4300 digits, which [int] refuses with a [ValueError]. *)
Theorem parse_nonnegative (text : str) :
  match parse_transaction_text text with
  | Return p =>
      float_leb float_zero (Parsed.amount p) = true /\ (0 <= Parsed.quantity p)%Z
  | Raise e =>
      e = ValueError /\
      exists m D,
        re_search quantity_pattern (str_lower text) = Some m /\
        m !! 1%nat = Some D /\ digits D /\
        (max_str_digits < Z.of_nat (length D))%Z
  end.
Proof.
  unfold parse_transaction_text.
  destruct (extract_amount_leftmost (str_lower text)) as (q & -> & Hq & _).
  pose proof (extract_quantity_result (str_lower text)) as Hn.
  destruct (extract_quantity (str_lower text)) as [n|e]; simpl.
  - split; assumption.
  - exact Hn.
Qed.
End AmountMatcher.

Lemma ascii_unicode_consistent : unicode_consistent ascii_unicode.
Proof.
  split.
  - intros c. simpl. unfold ascii_decimal, ascii_isspace.
    destruct (N.leb_spec 48 c), (N.leb_spec c 57); simpl; try congruence.
    intros _.
    destruct (N.leb_spec 9 c), (N.leb_spec c 13), (N.leb_spec 28 c),
      (N.leb_spec c 32); simpl; try reflexivity; lia.
  - intros c Hc. vm_compute in Hc.
    destruct Hc as [<-|[<-|[<-|[<-|[<-|[<-|[<-|[]]]]]]]]; split; reflexivity.
Qed.

(** * The properties on concrete requests and ledgers *)

Example parse_sold_rice :
  @parse_transaction_text ascii_unicode (py "sold 5 kg rice for rs 250") =
    Return {| Parsed.item := py "rice";
              Parsed.amount := flt "250";
              Parsed.type := sale;
              Parsed.quantity := 5;
              Parsed.payment_method := py "cash" |}.
Proof. vm_compute. reflexivity. Qed.

Example parse_bought_sugar :
  @parse_transaction_text ascii_unicode
    (py "bought 10 packets sugar rs500 from supplier") =
    Return {| Parsed.item := py "sugar";
              Parsed.amount := flt "500";
              Parsed.type := purchase;
              Parsed.quantity := 10;
              Parsed.payment_method := py "cash" |}.
Proof. vm_compute. reflexivity. Qed.

(** [float] rounds and overflows; [int] refuses more than 4300 digits. *)
Example py_float_rounds :
  @py_float ascii_unicode (py "9007199254740993") = Return (flt "9007199254740992") /\
  @py_float ascii_unicode (repeat 57%N 400) = Return (S754_infinity false) /\
  @py_float ascii_unicode (py "0.10") = Return (S754_finite false 7205759403792794 (-56)).
Proof. repeat split; vm_compute; reflexivity. Qed.

(** [sum] adds from left to right, numpy pairwise: ten times 0.1. *)
Example sum_of_ten_tenths :
  py_sum (repeat (flt "0.1") 10) = flt "0.9999999999999999" /\
  np_sum (repeat (flt "0.1") 10) = flt "1".
Proof. split; vm_compute; reflexivity. Qed.

Example py_int_limit :
  @py_int ascii_unicode (repeat 57%N 4300) = Return (10 ^ 4300 - 1)%Z /\
  @py_int ascii_unicode (repeat 48%N 4300 ++ py "5") = Raise ValueError.
Proof. split; vm_compute; reflexivity. Qed.

Lemma parse_bought_zero_kg :
  @parse_transaction_text ascii_unicode (py "bought 0 kg rice rs 100") =
    Return {| Parsed.item := py "rice";
              Parsed.amount := flt "100";
              Parsed.type := purchase;
              Parsed.quantity := 0;
              Parsed.payment_method := py "cash" |}.
Proof. vm_compute. reflexivity. Qed.

(** C1.  The invariant "amount >= 0 and quantity >= 1" does not hold of the
    code: on "bought 0 kg rice rs 100" the extractor returns, without
    raising, a transaction of amount 100.0 and quantity 0. *)
Theorem extractor_zero_quantity :
  exists p,
    @parse_transaction_text ascii_unicode (py "bought 0 kg rice rs 100") = Return p /\
    Parsed.amount p = flt "100" /\ Parsed.quantity p = 0%Z /\
    ~ (1 <= Parsed.quantity p)%Z.
Proof.
  eexists. split; [exact parse_bought_zero_kg|].
  cbn [Parsed.amount Parsed.quantity].
  split; [reflexivity|]. split; [reflexivity|lia].
Qed.

(** C10.  On "bought 0 kg rice rs 100" the extractor returns a purchase of
    quantity 0; the unit price amount / quantity of the purchase path then
    divides by zero, and the request is answered with the server error of
    that exception, whatever the ledger holds, which is left as it was. *)
Theorem zero_quantity_purchase_raises :
  (exists p,
     @parse_transaction_text ascii_unicode (py "bought 0 kg rice rs 100") = Return p /\
     Parsed.type p = purchase /\ Parsed.quantity p = 0%Z /\
     py_truediv (Parsed.amount p) (Parsed.quantity p) = Raise ZeroDivisionError) /\
  forall (now cutoff : str) (db : database),
    @process_input ascii_unicode (request (py "bought 0 kg rice rs 100"))
      now cutoff db = (ServerError ZeroDivisionError, db).
Proof.
  split.
  - eexists. split; [exact parse_bought_zero_kg|].
    cbn [Parsed.type Parsed.quantity Parsed.amount]. repeat split.
  - intros now cutoff db.
    apply (@process_input_store_raises ascii_unicode _ now cutoff db
             (py "bought 0 kg rice rs 100") _ _
             (lookup_singleton_eq _ _) ltac:(discriminate) parse_bought_zero_kg).
    apply store_purchase_zero; reflexivity.
Qed.

(** C2.  The claim fails on the code: the text "12.5 rs" is the decimal
    number 12.5, of float value 12.5, followed by a currency marker, and the
    extractor returns 5.0, the amount of "5 rs"; the same number written
    "12.50 rs" is returned as 12.5, and "rs 250.5" is returned as 250.0. *)
Theorem amount_not_the_written_number :
  py "12.5 rs" = py "12.5" ++ py " rs" /\
  @decimal_number ascii_unicode (py "12.5") /\
  @number_value ascii_unicode (py "12.5") (flt "12.5") /\
  (exists p, @parse_transaction_text ascii_unicode (py "12.5 rs") = Return p /\
             Parsed.amount p = flt "5") /\
  (exists p, @parse_transaction_text ascii_unicode (py "12.50 rs") = Return p /\
             Parsed.amount p = flt "12.5") /\
  (exists p, @parse_transaction_text ascii_unicode (py "rs 250.5") = Return p /\
             Parsed.amount p = flt "250") /\
  float_ltb (flt "5") (flt "12.5") = true.
Proof.
  split; [reflexivity|]. split.
  { apply (@decimal_point ascii_unicode (py "12") (py "5"));
      (split; [discriminate|repeat constructor]). }
  split.
  { assert (E : flt "12.5" = float_of_decimal 125 (length (py "5")))
      by (vm_compute; reflexivity).
    rewrite E. apply (@value_point ascii_unicode (py "12") (py "5") 125%N).
    reflexivity. }
  repeat split; try (eexists; split; [vm_compute; reflexivity|reflexivity]).
Qed.

(** C3 as it is worded fails on the code: the row of rice had reorder level
    20 and has reorder level 10 after "bought 5 kg rice rs 100". *)
Lemma purchase_resets_reorder_level :
  List.map (fun r => (Inv.item_name r, Inv.quantity r, Inv.reorder_level r))
    (inventory rice_ledger) = [(py "rice", SqlInt 5, 20%Z)] /\
  List.map (fun r => (Inv.item_name r, Inv.quantity r, Inv.reorder_level r))
    (inventory
       (@process_input ascii_unicode (request (py "bought 5 kg rice rs 100"))
          example_now example_cutoff rice_ledger).2)
    = [(py "rice", SqlInt 10, 10%Z)].
Proof. split; vm_compute; reflexivity. Qed.

(** The largest quantity SQLite takes, bought on top of 5 of rice: the sum
    has no 64 bits and the row holds the REAL 9223372036854775808.0. *)
Lemma purchase_replaces_inventory_row_witness :
  let text := py "bought 9223372036854775807 kg rice rs 70" in
  let p := {| Parsed.item := py "rice"; Parsed.amount := flt "70";
              Parsed.type := purchase; Parsed.quantity := 2 ^ 63 - 1;
              Parsed.payment_method := py "cash" |} in
  @parse_transaction_text ascii_unicode text = Return p /\
  exists row : Inv.row,
    inventory (@process_input ascii_unicode (request text) example_now
                 example_cutoff rice_ledger).2 = [row] /\
    Inv.reorder_level row = 10%Z /\ Inv.last_updated row = example_now /\
    Inv.quantity row = SqlReal (flt "9223372036854775808").
Proof.
  intros text p.
  assert (Hp : @parse_transaction_text ascii_unicode text = Return p)
    by (vm_compute; reflexivity).
  split; [exact Hp|].
  destruct (@purchase_replaces_inventory_row ascii_unicode (request text)
              example_now example_cutoff rice_ledger text p)
    as (row & Hinv & _ & Hlevel & _ & Hupd & _ & Hq & _).
  - apply lookup_singleton_eq.
  - discriminate.
  - exact Hp.
  - reflexivity.
  - discriminate.
  - split; [discriminate|reflexivity].
  - exists row. split; [exact Hinv|]. split; [exact Hlevel|]. split; [exact Hupd|].
    destruct (Hq rice_row) as [Hint _].
    + repeat constructor. apply not_elem_of_nil.
    + now left.
    + reflexivity.
    + destruct (Hint 5%Z eq_refl) as [_ Hreal]. rewrite Hreal.
      * vm_compute. reflexivity.
      * intros [_ H]. revert H. apply Z.le_ngt. discriminate.
Defined.

(** C6 as it is worded fails on the code.  With one sale of 1.0 in the
    window [daily_avg_flow] is 0.03, which is neither the float quotient
    (1.0 - 0) / 30 nor the number 1/30.  With a sale of 0.3 and purchases of
    0.1 and 0.2 a shortage is predicted and [daily_avg_flow] is -0.0, which
    is not below zero. *)
Lemma daily_avg_flow_is_rounded :
  last_30_days example_cutoff one_sale_ledger = [(flt "1", sale)] /\
  CashFlow.daily_avg_flow (cash_flow_forecast example_cutoff one_sale_ledger)
    = Some (flt "0.03") /\
  flt "0.03" <> float_div (float_sub (flt "1") float_zero) (float_of_Z 30) /\
  ~ (float_value (flt "0.03") == (1 - 0) / 30)%Q /\
  List.map snd (last_30_days example_cutoff even_ledger) = [sale; purchase; purchase] /\
  CashFlow.shortage_predicted (cash_flow_forecast example_cutoff even_ledger)
    = true /\
  CashFlow.daily_avg_flow (cash_flow_forecast example_cutoff even_ledger)
    = Some (float_opp float_zero) /\
  float_ltb (float_opp float_zero) float_zero = false.
Proof.
  split; [reflexivity|]. split; [vm_compute; reflexivity|].
  split; [vm_compute; discriminate|].
  split; [intros H; vm_compute in H; discriminate|].
  repeat split; vm_compute; reflexivity.
Qed.

(** One sale of 0.15: the float average is a little above 0.005 and is
    rounded up to 0.01.  A sale of 0.3 and purchases of 0.1 and 0.2: the
    purchases add up to 0.30000000000000004 and a shortage is predicted. *)
Lemma cash_flow_forecast_nonempty_window_witness :
  last_30_days example_cutoff small_sale_ledger <> [] /\
  CashFlow.daily_avg_flow (cash_flow_forecast example_cutoff small_sale_ledger)
    = Some (flt "0.01") /\
  CashFlow.shortage_predicted (cash_flow_forecast example_cutoff small_sale_ledger)
    = false /\
  last_30_days example_cutoff even_ledger <> [] /\
  CashFlow.daily_avg_flow (cash_flow_forecast example_cutoff even_ledger)
    = Some (float_opp float_zero) /\
  CashFlow.shortage_predicted (cash_flow_forecast example_cutoff even_ledger)
    = true.
Proof.
  assert (Hne : last_30_days example_cutoff small_sale_ledger <> [])
    by (vm_compute; discriminate).
  assert (Hne' : last_30_days example_cutoff even_ledger <> [])
    by (vm_compute; discriminate).
  split; [exact Hne|].
  destruct (cash_flow_forecast_nonempty_window example_cutoff small_sale_ledger Hne)
    as (Havg & Hiff & _).
  destruct (cash_flow_forecast_nonempty_window example_cutoff even_ledger Hne')
    as (Havg' & Hiff' & _).
  split; [rewrite Havg; vm_compute; reflexivity|].
  split.
  { destruct (CashFlow.shortage_predicted _); [|reflexivity].
    destruct Hiff as [Hiff _]. specialize (Hiff eq_refl).
    vm_compute in Hiff. discriminate Hiff. }
  split; [exact Hne'|].
  split; [rewrite Havg'; vm_compute; reflexivity|].
  apply Hiff'. vm_compute. reflexivity.
Defined.

Lemma cash_flow_forecast_empty_window_witness :
  last_30_days example_cutoff empty_db = [] /\
  cash_flow_forecast example_cutoff empty_db =
    {| CashFlow.shortage_predicted := false;
       CashFlow.daily_avg_flow := None;
       CashFlow.recommendation := py "Insufficient data" |}.
Proof.
  split; [reflexivity|].
  apply cash_flow_forecast_empty_window. reflexivity.
Defined.

Lemma fraud_detection_insufficient_data_witness :
  (length (sale_amounts one_sale_ledger) < 10)%nat /\
  fraud_detection one_sale_ledger (flt "1000000") =
    {| Fraud.fraud_suspected := PyBool false;
       Fraud.reason := plain (py "Insufficient data") |}.
Proof.
  split; [vm_compute; lia|].
  apply fraud_detection_insufficient_data. vm_compute. lia.
Defined.

Lemma process_input_no_text_witness :
  (∅ : gmap str pyval) !! py "text" = None /\
  @process_input ascii_unicode ∅ example_now example_cutoff rice_ledger =
    (BadRequest (py "No input provided"), rice_ledger).
Proof.
  split; [reflexivity|].
  apply process_input_no_text. left. reflexivity.
Defined.

(** C4 as it is worded fails on the code.  Ten sales of 100000000000000.05
    have that amount as arithmetic mean and 0 as population standard
    deviation, so that the amount 100000000000000.07 is strictly greater
    than mu + 3 sigma; the detector, whose float mean is a little below and
    whose float deviation is not 0, does not suspect it. *)
Lemma three_sigma_is_computed_in_floats :
  let history :=
    List.map (fun a => Q2R (float_value a)) (sale_amounts ten_large_sales_ledger) in
  let x := flt "100000000000000.07" in
  (10 <= length (sale_amounts ten_large_sales_ledger))%nat /\
  arithmetic_mean history = Q2R (float_value (flt "100000000000000.05")) /\
  population_std history = 0%R /\
  (Q2R (float_value x) > arithmetic_mean history + 3 * population_std history)%R /\
  truth (Fraud.fraud_suspected (fraud_detection ten_large_sales_ledger x)) = false.
Proof.
  intros history x.
  assert (Hgen : forall c : R,
            arithmetic_mean (repeat c 10) = c /\
            population_std (repeat c 10) = 0%R).
  { intros c.
    assert (Hm : arithmetic_mean (repeat c 10) = c)
      by (unfold arithmetic_mean, Rsum; simpl; lra).
    split; [exact Hm|]. unfold population_std. rewrite Hm.
    unfold Rsum, Rsqr. simpl.
    transitivity (sqrt 0); [f_equal; lra|apply sqrt_0]. }
  assert (Hh : history =
            repeat (Q2R (float_value (flt "100000000000000.05"))) 10)
    by reflexivity.
  destruct (Hgen (Q2R (float_value (flt "100000000000000.05")))) as [Hmean Hstd].
  rewrite <- Hh in Hmean, Hstd. clear Hgen Hh.
  split; [vm_compute; lia|]. split; [exact Hmean|]. split; [exact Hstd|].
  split.
  - rewrite Hmean, Hstd. rewrite Rmult_0_r, Rplus_0_r.
    apply Qlt_Rlt. vm_compute. reflexivity.
  - vm_compute. reflexivity.
Qed.

(** Mean 100, standard deviation 20 and current amount 200: fraud is
    suspected, with threshold 160.  Mean 1, deviation 0.2 and current amount
    1.6: the float threshold is 1.5999999999999999, fraud is suspected and
    the threshold is shown as 1.6. *)
Lemma fraud_detection_three_sigma_witness :
  (10 <= length (sale_amounts ten_sales_ledger))%nat /\
  truth (Fraud.fraud_suspected (fraud_detection ten_sales_ledger (flt "200"))) = true /\
  Fraud.reason (fraud_detection ten_sales_ledger (flt "200")) =
    [Chars (py "Transaction amount (₹"); Float (flt "200");
     Chars (py ") exceeds normal range (₹"); Float (flt "160"); Chars (py ")")] /\
  (10 <= length (sale_amounts ten_small_sales_ledger))%nat /\
  truth (Fraud.fraud_suspected
           (fraud_detection ten_small_sales_ledger (flt "1.6"))) = true /\
  Fraud.reason (fraud_detection ten_small_sales_ledger (flt "1.6")) =
    [Chars (py "Transaction amount (₹"); Float (flt "1.6");
     Chars (py ") exceeds normal range (₹"); Float (flt "1.6"); Chars (py ")")].
Proof.
  assert (Hlen : (10 <= length (sale_amounts ten_sales_ledger))%nat)
    by (vm_compute; lia).
  assert (Hlen' : (10 <= length (sale_amounts ten_small_sales_ledger))%nat)
    by (vm_compute; lia).
  split; [exact Hlen|].
  destruct (fraud_detection_three_sigma ten_sales_ledger (flt "200") Hlen)
    as (Hiff & Hreason & _).
  destruct (fraud_detection_three_sigma ten_small_sales_ledger (flt "1.6") Hlen')
    as (Hiff' & Hreason' & _).
  split; [apply Hiff; vm_compute; reflexivity|].
  split; [rewrite Hreason; vm_compute; reflexivity|].
  split; [exact Hlen'|].
  split; [apply Hiff'; vm_compute; reflexivity|].
  rewrite Hreason'; vm_compute; reflexivity.
Defined.

(** * Further properties of the code *)

(** ** The ledger writes of a request *)

Section StoreProperties.
Context {U : Unicode}.

(** What [store] returns when nothing raises. *)
Lemma store_inv (p : Parsed.t) (timestamp : str) (db db' : database) :
  store p timestamp db = Return db' ->
  (- 2 ^ 63 <= Parsed.quantity p < 2 ^ 63)%Z /\
  ((Parsed.type p = sale /\
    db' = update_inventory_sold (Parsed.quantity p) (Parsed.item p)
            (record_transaction p timestamp db)) \/
   (Parsed.type p = purchase /\ Parsed.quantity p <> 0%Z /\
    db' = replace_inventory (Parsed.item p) (Parsed.quantity p)
            (float_div (Parsed.amount p) (float_of_Z (Parsed.quantity p)))
            timestamp (record_transaction p timestamp db))).
Proof.
  unfold store, sqlite_int, py_truediv, record_transaction. intros H.
  destruct (Parsed.type p).
  - destruct (Z.leb_spec (- 2 ^ 63) (Parsed.quantity p));
      destruct (Z.ltb_spec (Parsed.quantity p) (2 ^ 63)); try discriminate.
    simpl in H. injection H as <-. split; [lia|]. left. split; reflexivity.
  - destruct (float_overflow (Parsed.quantity p)); [discriminate|].
    destruct (Z.eqb_spec (Parsed.quantity p) 0); [discriminate|].
    destruct (Z.leb_spec (- 2 ^ 63) (Parsed.quantity p));
      destruct (Z.ltb_spec (Parsed.quantity p) (2 ^ 63)); try discriminate.
    simpl in H. injection H as <-. split; [lia|]. right. repeat split. assumption.
Qed.

(** The ledger after a request is the one before it, or the one [store]
    returned for the parsed text. *)
Lemma process_input_ledger (data : gmap str pyval) (now cutoff : str)
    (db : database) :
  (process_input data now cutoff db).2 = db \/
  exists text p,
    data !! py "text" = Some (PStr text) /\
    parse_transaction_text text = Return p /\
    store p now db = Return (process_input data now cutoff db).2.
Proof.
  unfold process_input.
  destruct (negb (truthy (default (PStr []) (data !! py "text")))) eqn:Et;
    [now left|].
  destruct (data !! py "text") as [v|] eqn:Ev; [|discriminate].
  simpl default. destruct v as [| | | |text| |]; try (now left).
  simpl parse_input.
  destruct (parse_transaction_text text) as [p|e] eqn:Ep; [|now left].
  simpl. destruct (store p now db) as [db'|e] eqn:Es; [|now left].
  simpl. right. exists text, p. split; [reflexivity|]. split; [exact Ep|].
  match goal with |- context [jsonify ?a ?b ?c ?d ?e] =>
    destruct (jsonify a b c d e) end; simpl; exact Es.
Qed.
End StoreProperties.

Section RequestProperties.
Context {U : Unicode}.

Lemma parse_payment_method (text : str) (p : Parsed.t) :
  parse_transaction_text text = Return p -> Parsed.payment_method p = py "cash".
Proof.
  unfold parse_transaction_text.
  destruct (extract_amount (str_lower text)); [|discriminate].
  destruct (extract_quantity (str_lower text)); [|discriminate].
  simpl. intros [= <-]. reflexivity.
Qed.

Lemma store_transactions (p : Parsed.t) (timestamp : str) (db db' : database) :
  store p timestamp db = Return db' ->
  transactions db' =
    transactions db ++
    [Txn.mk (next_rowid (transactions_seq db) (List.map Txn.id (transactions db)))
       timestamp (Parsed.item p) (Parsed.amount p) (Parsed.type p)
       (Parsed.payment_method p) (py "Customer")].
Proof.
  intros H. apply store_inv in H as [_ [[_ ->]|(_ & _ & ->)]]; reflexivity.
Qed.

(** X1.  The transactions table is append-only: a request leaves it as it
    was or appends one row, which carries the item, amount and type parsed
    from the text, the payment method "cash", the customer "Customer", the
    time of the request, and a rowid above every rowid of the table. *)
Theorem request_appends_one_transaction (data : gmap str pyval)
    (now cutoff : str) (db : database) :
  let db' := (process_input data now cutoff db).2 in
  transactions db' = transactions db \/
  exists (text : str) (p : Parsed.t) (row : Txn.row),
    transactions db' = transactions db ++ [row] /\
    data !! py "text" = Some (PStr text) /\
    parse_transaction_text text = Return p /\
    Txn.item row = Parsed.item p /\ Txn.amount row = Parsed.amount p /\
    Txn.type row = Parsed.type p /\ Txn.payment_method row = py "cash" /\
    Txn.customer_name row = py "Customer" /\ Txn.timestamp row = now /\
    Forall (fun r => (Txn.id r < Txn.id row)%N) (transactions db).
Proof.
  intros db'. subst db'.
  destruct (process_input_ledger data now cutoff db) as [->|(text & p & Hd & Hp & Hs)];
    [now left|].
  right. exists text, p. eexists. split; [exact (store_transactions _ _ _ _ Hs)|].
  simpl. repeat split; try assumption.
  - exact (parse_payment_method text p Hp).
  - pose proof (next_rowid_above (transactions_seq db)
                  (List.map Txn.id (transactions db))) as Hids.
    rewrite List.Forall_map in Hids. exact Hids.
Qed.

(** X2.  A request answered with the client error, or with the server error
    of an exception other than the [TypeError] of serialisation, leaves the
    ledger as it was: nothing is committed before the exception. *)
Theorem failed_request_keeps_ledger (data : gmap str pyval) (now cutoff : str)
    (db : database) :
  (exists msg, (process_input data now cutoff db).1 = BadRequest msg) \/
  (exists e, (process_input data now cutoff db).1 = ServerError e /\ e <> TypeError) ->
  (process_input data now cutoff db).2 = db.
Proof.
  unfold process_input.
  destruct (negb (truthy (default (PStr []) (data !! py "text")))); [reflexivity|].
  destruct (bind _ _) as [[p db']|e]; [|reflexivity].
  unfold jsonify. destruct (Fraud.fraud_suspected _); simpl.
  - intros [[msg H]|(e & H & _)]; discriminate H.
  - intros [[msg H]|(e & H & He)]; [discriminate H|]. congruence.
Qed.

(** What [process_input] returns once the text is parsed and stored. *)
Lemma process_input_stored (data : gmap str pyval) (now cutoff : str)
    (db db' : database) (text : str) (p : Parsed.t) :
  data !! py "text" = Some (PStr text) ->
  text <> [] ->
  parse_transaction_text text = Return p ->
  store p now db = Return db' ->
  process_input data now cutoff db =
    (if (length (sale_amounts db') <? 10)%nat
     then Success p (cash_flow_forecast cutoff db') (inventory_alert db')
            (fraud_detection db' (Parsed.amount p))
            (generate_alerts (cash_flow_forecast cutoff db') (inventory_alert db')
               (fraud_detection db' (Parsed.amount p)))
     else ServerError TypeError, db').
Proof.
  intros Hd Ht Hp Hs. unfold process_input. rewrite Hd. simpl default.
  destruct text as [|c text]; [congruence|]. simpl truthy. simpl negb. cbv iota.
  simpl parse_input. rewrite Hp. simpl. rewrite Hs. simpl.
  unfold jsonify, fraud_detection.
  destruct (length (sale_amounts db') <? 10)%nat; reflexivity.
Qed.

(** X3.  Once the ledger holds ten sales or more, counting the one just
    stored, the detector's comparison is a numpy boolean, which [jsonify]
    cannot serialise: the request is answered with the server error of that
    [TypeError], although its transaction is committed.  With fewer sales the
    answer is the success response, built on the updated ledger. *)
Theorem response_after_commit (data : gmap str pyval) (now cutoff : str)
    (db db' : database) (text : str) (p : Parsed.t) :
  data !! py "text" = Some (PStr text) ->
  text <> [] ->
  parse_transaction_text text = Return p ->
  store p now db = Return db' ->
  ((10 <= length (sale_amounts db'))%nat ->
   process_input data now cutoff db = (ServerError TypeError, db')) /\
  ((length (sale_amounts db') < 10)%nat ->
   process_input data now cutoff db =
     (Success p (cash_flow_forecast cutoff db') (inventory_alert db')
        (fraud_detection db' (Parsed.amount p))
        (generate_alerts (cash_flow_forecast cutoff db') (inventory_alert db')
           (fraud_detection db' (Parsed.amount p))), db')).
Proof.
  intros Hd Ht Hp Hs.
  rewrite (process_input_stored data now cutoff db db' text p Hd Ht Hp Hs).
  split; intros Hlen.
  - destruct (Nat.ltb_spec (length (sale_amounts db')) 10); [lia|reflexivity].
  - destruct (Nat.ltb_spec (length (sale_amounts db')) 10); [reflexivity|lia].
Qed.

(** X4.  A success response never carries a fraud alert: its detector result
    is the "Insufficient data" one, and no alert of its list has type
    "fraud". *)
Theorem success_has_no_fraud_alert (data : gmap str pyval) (now cutoff : str)
    (db : database) (p : Parsed.t) (cf : CashFlow.result) (inv : Stock.result)
    (fr : Fraud.result) (alerts : list Alert.t) :
  (process_input data now cutoff db).1 = Success p cf inv fr alerts ->
  fr = {| Fraud.fraud_suspected := PyBool false;
          Fraud.reason := plain (py "Insufficient data") |} /\
  Forall (fun a => Alert.type a <> py "fraud") alerts.
Proof.
  unfold process_input.
  destruct (negb (truthy (default (PStr []) (data !! py "text")))); [discriminate|].
  destruct (bind _ _) as [[p' db']|e]; [|discriminate].
  unfold jsonify, fraud_detection.
  destruct (length (sale_amounts db') <? 10)%nat eqn:El; simpl; [|discriminate].
  intros [= <- <- <- <- <-]. split; [reflexivity|].
  rewrite generate_alerts_consistent by apply inventory_alert_stock_low.
  simpl. rewrite app_nil_r. apply Forall_app. split.
  - destruct (CashFlow.shortage_predicted _); repeat constructor. discriminate.
  - apply List.Forall_map, List.Forall_forall. intros e _. discriminate.
Qed.

(** X5.  A quantity that does not fit a 64-bit integer cannot be bound to
    the inventory statement: the request is answered with the server error
    of [OverflowError] and the ledger is left as it was.  (Up to 4300 digits,
    the limit of [int] on a string in recent interpreters.) *)
Theorem oversized_quantity_raises (data : gmap str pyval) (now cutoff : str)
    (db : database) (text : str) (p : Parsed.t) :
  data !! py "text" = Some (PStr text) ->
  text <> [] ->
  parse_transaction_text text = Return p ->
  (2 ^ 63 <= Parsed.quantity p < 10 ^ 4300)%Z ->
  process_input data now cutoff db = (ServerError OverflowError, db).
Proof.
  intros Hd Hne Hp [Hq _]. unfold process_input. rewrite Hd. simpl default.
  assert (Ht : truthy (PStr text) = true).
  { destruct text as [|c text]; [congruence|reflexivity]. }
  rewrite Ht. simpl negb. cbv iota. simpl parse_input. rewrite Hp. simpl.
  assert (Hs : store p now db = Raise OverflowError).
  { unfold store, py_truediv, sqlite_int.
    destruct (Z.eqb_spec (Parsed.quantity p) 0); [lia|].
    destruct (Z.leb_spec (- 2 ^ 63) (Parsed.quantity p)); [|lia].
    destruct (Z.ltb_spec (Parsed.quantity p) (2 ^ 63)); [lia|].
    destruct (Parsed.type p); [reflexivity|].
    destruct (float_overflow (Parsed.quantity p)); reflexivity. }
  rewrite Hs. reflexivity.
Qed.
End RequestProperties.

Section LedgerProperties.
Context {U : Unicode}.

(** X6.  A [text] value that Python counts as false (null, false, 0, 0.0,
    the empty string, list or object) is answered like a missing text, with
    the client error; any other value that is not a string has no [lower]
    and is answered with the server error of [AttributeError].  The ledger is
    left as it was in both cases. *)
Theorem non_string_text (data : gmap str pyval) (now cutoff : str)
    (db : database) (v : pyval) :
  data !! py "text" = Some v ->
  (truthy v = false ->
   process_input data now cutoff db = (BadRequest (py "No input provided"), db)) /\
  (truthy v = true -> (forall s, v <> PStr s) ->
   process_input data now cutoff db = (ServerError AttributeError, db)).
Proof.
  intros Hd. unfold process_input. rewrite Hd. simpl default. split.
  - intros ->. reflexivity.
  - intros -> Hv. simpl negb. cbv iota.
    destruct v as [| | | |s| |]; try reflexivity. now destruct (Hv s).
Qed.

(** X7.  A stored sale touches the inventory only in the quantity of the
    rows of its item: every row keeps its place, rowid, name, reorder level,
    unit price and date; the quantity of a row of the item goes down by the
    quantity sold, below zero when more is sold than is in stock, as long as
    the difference has 64 bits, and becomes the float difference, a REAL,
    when it has not; a sale of an item without a row changes nothing and
    creates no row. *)
Theorem sale_updates_quantity_only (p : Parsed.t) (timestamp : str)
    (db db' : database) :
  Parsed.type p = sale ->
  store p timestamp db = Return db' ->
  Forall2
    (fun r r' =>
       Inv.id r' = Inv.id r /\ Inv.item_name r' = Inv.item_name r /\
       Inv.reorder_level r' = Inv.reorder_level r /\
       Inv.unit_price r' = Inv.unit_price r /\
       Inv.last_updated r' = Inv.last_updated r /\
       (Inv.item_name r = Parsed.item p ->
        (forall o, Inv.quantity r = SqlInt o ->
           ((- 2 ^ 63 <= o - Parsed.quantity p < 2 ^ 63)%Z ->
            Inv.quantity r' = SqlInt (o - Parsed.quantity p)) /\
           (~ (- 2 ^ 63 <= o - Parsed.quantity p < 2 ^ 63)%Z ->
            Inv.quantity r' =
              integer_affinity
                (SqlReal (float_sub (float_of_Z o)
                            (float_of_Z (Parsed.quantity p)))))) /\
        (forall x, Inv.quantity r = SqlReal x ->
           Inv.quantity r' =
             integer_affinity
               (SqlReal (float_sub x (float_of_Z (Parsed.quantity p)))))) /\
       (Inv.item_name r <> Parsed.item p -> r' = r))
    (inventory db) (inventory db') /\
  ((forall r, In r (inventory db) -> Inv.item_name r <> Parsed.item p) ->
   inventory db' = inventory db).
Proof.
  intros Hty Hs.
  apply store_inv in Hs as [_ [[_ ->]|(Hp & _)]]; [|congruence].
  unfold update_inventory_sold. cbn [inventory].
  change (inventory (record_transaction p timestamp db)) with (inventory db).
  split.
  - induction (inventory db) as [|r l IH]; cbn [List.map]; constructor; [|exact IH].
    unfold text_eqb. case_bool_decide as E; cbn [Inv.id Inv.item_name
      Inv.reorder_level Inv.unit_price Inv.last_updated Inv.quantity].
    + do 5 (split; [reflexivity|]). split; [|intros Hne; contradiction].
      intros _. split.
      * intros o Ho. rewrite Ho. split; intros Hsum.
        -- apply sql_sub_int. now apply int64_range.
        -- unfold sql_sub.
           destruct (int64 (o - Parsed.quantity p)) eqn:E'; [|reflexivity].
           apply int64_range in E'. contradiction.
      * intros x Hx. rewrite Hx. reflexivity.
    + do 5 (split; [reflexivity|]). split; [intros He; contradiction|reflexivity].
  - intros Hno. induction (inventory db) as [|r l IH]; cbn [List.map]; [reflexivity|].
    unfold text_eqb at 1. case_bool_decide as E.
    + exfalso. apply (Hno r); [now left|exact E].
    + f_equal. apply IH. intros r' Hr'. apply Hno. now right.
Qed.

Lemma store_sale_inventory (p : Parsed.t) (timestamp : str)
    (db db' : database) :
  Parsed.type p = sale ->
  store p timestamp db = Return db' ->
  inventory db' = List.map (sold (Parsed.quantity p) (Parsed.item p)) (inventory db).
Proof.
  intros Hty Hs.
  apply store_inv in Hs as [_ [[_ ->]|(Hp & _)]]; [reflexivity|congruence].
Qed.

Lemma NoDup_map_inj {A B : Type} (f : A -> B) (l : list A) (x y : A) :
  NoDup (List.map f l) -> In x l -> In y l -> f x = f y -> x = y.
Proof.
  induction l as [|a l IH]; simpl; [intros _ []|].
  intros Hnd Hx Hy Hxy. apply NoDup_cons in Hnd as [Hna Hnd].
  rewrite list_elem_of_In in Hna.
  destruct Hx as [->|Hx], Hy as [->|Hy].
  - reflexivity.
  - exfalso. apply Hna. rewrite Hxy. now apply in_map.
  - exfalso. apply Hna. rewrite <- Hxy. now apply in_map.
  - now apply IH.
Qed.

Lemma sold_item (quantity : Z) (item : str) (r : Inv.row) :
  Inv.item_name (sold quantity item r) = Inv.item_name r /\
  Inv.reorder_level (sold quantity item r) = Inv.reorder_level r /\
  (Inv.item_name r = item ->
   Inv.quantity (sold quantity item r) =
     integer_affinity (sql_sub (Inv.quantity r) (SqlInt quantity))).
Proof.
  unfold sold, text_eqb. case_bool_decide as E; simpl; repeat split; congruence.
Qed.

Lemma sql_leb_le (a : sqlnum) (b : Z) : sql_leb a b = true <-> sql_le a b.
Proof.
  destruct a as [z|[s|s| |s m e]]; simpl.
  - apply Z.leb_le.
  - apply Qle_bool_iff.
  - reflexivity.
  - split; [discriminate|tauto].
  - apply Qle_bool_iff.
Qed.

(** X8.  The monitor that follows a stored sale reports the item sold, with
    its new quantity, exactly when the sale leaves it at or below its reorder
    level. *)
Theorem sale_reported_at_reorder_level (p : Parsed.t) (timestamp : str)
    (db db' : database) (r : Inv.row) :
  Parsed.type p = sale ->
  store p timestamp db = Return db' ->
  NoDup (List.map Inv.item_name (inventory db)) ->
  In r (inventory db) -> Inv.item_name r = Parsed.item p ->
  let quantity :=
    integer_affinity (sql_sub (Inv.quantity r) (SqlInt (Parsed.quantity p))) in
  (In (Stock.mk_entry (Parsed.item p) quantity (Inv.reorder_level r))
      (Stock.items_to_reorder (inventory_alert db')) <->
   sql_le quantity (Inv.reorder_level r)) /\
  (forall e, In e (Stock.items_to_reorder (inventory_alert db')) ->
             Stock.item e = Parsed.item p ->
             Stock.current e = quantity).
Proof.
  intros Hty Hs Hnd Hin Hname quantity.
  unfold inventory_alert. simpl.
  rewrite (store_sale_inventory p timestamp db db' Hty Hs).
  destruct (sold_item (Parsed.quantity p) (Parsed.item p) r) as (Hn & Hl & Hq).
  specialize (Hq Hname). fold quantity in Hq.
  assert (Hentry : forall e,
    In e (List.map (fun r0 => Stock.mk_entry (Inv.item_name r0) (Inv.quantity r0)
                                (Inv.reorder_level r0))
            (List.filter (fun r0 => sql_leb (Inv.quantity r0) (Inv.reorder_level r0))
               (List.map (sold (Parsed.quantity p) (Parsed.item p)) (inventory db)))) ->
    Stock.item e = Parsed.item p ->
    e = Stock.mk_entry (Parsed.item p) quantity (Inv.reorder_level r) /\
    sql_le quantity (Inv.reorder_level r)).
  { intros e He Hitem.
    apply in_map_iff in He as (r' & <- & Hr').
    apply filter_In in Hr' as [Hr' Hlow].
    apply in_map_iff in Hr' as (r0 & <- & Hr0). simpl in Hitem.
    destruct (sold_item (Parsed.quantity p) (Parsed.item p) r0) as (Hn0 & _ & _).
    assert (r0 = r) as ->.
    { apply (NoDup_map_inj Inv.item_name (inventory db)); auto. congruence. }
    apply sql_leb_le in Hlow. rewrite Hn, Hl, Hq in *.
    split; [congruence|exact Hlow]. }
  split; [split|].
  - intros He. apply Hentry in He; [tauto|reflexivity].
  - intros Hle. apply in_map_iff.
    exists (sold (Parsed.quantity p) (Parsed.item p) r). split.
    + rewrite Hn, Hl, Hq, Hname. reflexivity.
    + apply filter_In. split; [now apply in_map|].
      apply sql_leb_le. rewrite Hl, Hq. exact Hle.
  - intros e He Hitem. destruct (Hentry e He Hitem) as [-> _]. reflexivity.
Qed.

(** X9.  Buying a quantity of an item and then selling the same quantity of
    it leaves the stock of the item as it was (0 for an item that had no
    row), provided the stock is an INTEGER and the stock after the purchase
    has 64 bits. *)
Theorem purchase_then_sale (p1 p2 : Parsed.t) (ts1 ts2 : str)
    (db db1 db2 : database) (o : Z) :
  Parsed.type p1 = purchase -> Parsed.type p2 = sale ->
  Parsed.item p2 = Parsed.item p1 ->
  Parsed.quantity p2 = Parsed.quantity p1 ->
  store p1 ts1 db = Return db1 ->
  store p2 ts2 db1 = Return db2 ->
  stored_quantity (Parsed.item p1) db = SqlInt o ->
  (- 2 ^ 63 <= o < 2 ^ 63)%Z ->
  (- 2 ^ 63 <= o + Parsed.quantity p1 < 2 ^ 63)%Z ->
  stored_quantity (Parsed.item p1) db2 = SqlInt o.
Proof.
  intros Hty1 Hty2 Hitem Hq Hs1 Hs2 Ho Hrange Hsum.
  apply store_inv in Hs1 as [_ [[Hp _]|(_ & _ & ->)]]; [congruence|].
  apply store_inv in Hs2 as [_ [[_ ->]|(Hp & _)]]; [|congruence].
  rewrite Hitem, Hq. unfold stored_quantity. simpl.
  rewrite List.map_app. simpl.
  assert (Hfind : forall l : list Inv.row,
    Forall (fun r => text_eqb (Inv.item_name r) (Parsed.item p1) = false) l ->
    forall tl, List.find (fun r => text_eqb (Inv.item_name r) (Parsed.item p1))
                 (List.map (sold (Parsed.quantity p1) (Parsed.item p1)) l ++ tl)
               = List.find (fun r => text_eqb (Inv.item_name r) (Parsed.item p1)) tl).
  { induction 1 as [|r l Hr _ IH]; intros tl; simpl; [reflexivity|].
    unfold sold at 1. rewrite Hr, Hr. apply IH. }
  rewrite Hfind.
  - simpl. unfold sold, text_eqb.
    repeat (rewrite (bool_decide_eq_true_2 (Parsed.item p1 = Parsed.item p1) eq_refl);
            simpl).
    change (stored_quantity (Parsed.item p1) (record_transaction p1 ts1 db))
      with (stored_quantity (Parsed.item p1) db).
    rewrite Ho, sql_add_int by now apply int64_range.
    rewrite sql_sub_int; [f_equal; lia|].
    apply int64_range. lia.
  - apply List.Forall_forall. intros r Hr. apply filter_In in Hr as [_ Hr].
    now apply negb_true_iff in Hr.
Qed.

(** X10.  Every request keeps the keys of the ledger: one inventory row per
    item name and distinct rowids in both tables. *)
Theorem request_keeps_keys (data : gmap str pyval) (now cutoff : str)
    (db : database) :
  well_keyed db -> well_keyed (process_input data now cutoff db).2.
Proof.
  intros Hk.
  destruct (process_input_ledger data now cutoff db) as [->|(text & p & _ & _ & Hs)];
    [exact Hk|].
  destruct Hk as (Hnames & Hids & Htx).
  assert (Hfresh : forall seq ids, NoDup ids -> NoDup (ids ++ [next_rowid seq ids])).
  { intros seq ids Hnd. apply NoDup_app. split; [exact Hnd|]. split.
    - intros x Hx Hx'. apply list_elem_of_In in Hx.
      apply list_elem_of_singleton in Hx'. subst x.
      pose proof (next_rowid_above seq ids) as Habove.
      rewrite List.Forall_forall in Habove. specialize (Habove _ Hx). lia.
    - apply NoDup_singleton. }
  assert (Htx' : NoDup (List.map Txn.id (transactions (process_input data now cutoff db).2))).
  { rewrite (store_transactions _ _ _ _ Hs), List.map_app. simpl. now apply Hfresh. }
  apply store_inv in Hs as [_ [[_ Hdb]|(_ & _ & Hdb)]];
    rewrite Hdb in *; clear Hdb; (split; [|split; [|exact Htx']]); simpl.
  - rewrite List.map_map.
    erewrite map_ext; [exact Hnames|]. intros r. apply sold_item.
  - rewrite List.map_map.
    erewrite map_ext; [exact Hids|]. intros r. unfold sold.
    now destruct (text_eqb _ _).
  - rewrite List.map_app. simpl. apply NoDup_app. split; [|split].
    + clear -Hnames. induction (inventory db) as [|r l IH]; simpl; [constructor|].
      simpl in Hnames. apply NoDup_cons in Hnames as [Hr Hl].
      destruct (negb (text_eqb (Inv.item_name r) (Parsed.item p))); simpl; [|auto].
      apply NoDup_cons. split; [|auto].
      intros Hin. apply Hr. apply list_elem_of_In in Hin. apply list_elem_of_In.
      apply in_map_iff in Hin as (r' & Hr' & Hin). apply filter_In in Hin as [Hin _].
      apply in_map_iff. eauto.
    + intros x Hx Hx'. apply list_elem_of_singleton in Hx'. subst x.
      apply list_elem_of_In, in_map_iff in Hx as (r' & Hr' & Hin).
      apply filter_In in Hin as [_ Hne]. apply negb_true_iff in Hne.
      unfold text_eqb in Hne. apply bool_decide_eq_false in Hne. contradiction.
    + apply NoDup_singleton.
  - rewrite List.map_app. simpl.
    assert (Hsub : forall l : list Inv.row, NoDup (List.map Inv.id l) ->
              forall f, NoDup (List.map Inv.id (List.filter f l))).
    { clear. intros l Hl f. induction l as [|r l IH]; simpl; [constructor|].
      simpl in Hl. apply NoDup_cons in Hl as [Hr Hl].
      destruct (f r); simpl; [|auto]. apply NoDup_cons. split; [|auto].
      intros Hin. apply Hr. apply list_elem_of_In in Hin. apply list_elem_of_In.
      apply in_map_iff in Hin as (r' & Hr' & Hin). apply filter_In in Hin as [Hin _].
      apply in_map_iff. eauto. }
    apply NoDup_app. split; [now apply Hsub|]. split; [|apply NoDup_singleton].
    intros x Hx Hx'. apply list_elem_of_singleton in Hx'. subst x.
    apply list_elem_of_In, in_map_iff in Hx as (r' & Hr' & Hin).
    apply filter_In in Hin as [Hin _].
    pose proof (next_rowid_above (inventory_seq db) (List.map Inv.id (inventory db)))
      as Habove.
    rewrite List.Forall_forall in Habove.
    specialize (Habove (Inv.id r') (in_map _ _ _ Hin)). lia.
Qed.
End LedgerProperties.

(** ** The inventory monitor *)

Lemma sublist_map_filter {A B : Type} (f : A -> B) (g : A -> bool) (l : list A) :
  sublist (List.map f (List.filter g l)) (List.map f l).
Proof.
  induction l as [|a l IH]; simpl; [constructor|].
  destruct (g a); simpl; [now constructor|now apply sublist_cons].
Qed.

(** X11.  The monitor reports exactly the inventory rows whose quantity is
    at or below their reorder level, each with its name, quantity and level,
    in the order of the table; [stock_low] is true exactly when there is
    such a row. *)
Theorem inventory_alert_selection (db : database) :
  (forall e,
     In e (Stock.items_to_reorder (inventory_alert db)) <->
     exists r, In r (inventory db) /\
               sql_le (Inv.quantity r) (Inv.reorder_level r) /\
               e = Stock.mk_entry (Inv.item_name r) (Inv.quantity r)
                     (Inv.reorder_level r)) /\
  (Stock.stock_low (inventory_alert db) = true <->
   exists r, In r (inventory db) /\ sql_le (Inv.quantity r) (Inv.reorder_level r)) /\
  sublist (List.map Stock.item (Stock.items_to_reorder (inventory_alert db)))
    (List.map Inv.item_name (inventory db)).
Proof.
  unfold inventory_alert. simpl. split; [|split].
  - intros e. rewrite in_map_iff. split.
    + intros (r & <- & Hr). apply filter_In in Hr as [Hr Hlow].
      exists r. split; [exact Hr|]. split; [now apply sql_leb_le|reflexivity].
    + intros (r & Hr & Hlow & ->). exists r. split; [reflexivity|].
      apply filter_In. split; [exact Hr|now apply sql_leb_le].
  - split.
    + intros Hlow.
      destruct (List.filter _ (inventory db)) as [|r l] eqn:E; [discriminate|].
      assert (Hr : In r (List.filter
                (fun r => sql_leb (Inv.quantity r) (Inv.reorder_level r)) (inventory db)))
        by (rewrite E; now left).
      apply filter_In in Hr as [Hr Hq]. exists r. split; [exact Hr|now apply sql_leb_le].
    + intros (r & Hr & Hq).
      assert (Hin : In r (List.filter
                (fun r => sql_leb (Inv.quantity r) (Inv.reorder_level r)) (inventory db))).
      { apply filter_In. split; [exact Hr|now apply sql_leb_le]. }
      destruct (List.filter _ (inventory db)); [destruct Hin|reflexivity].
  - rewrite List.map_map. simpl. apply sublist_map_filter.
Qed.

(** ** The type, the item and the quantity of the extractor *)

Lemma startswith_spec (s p : str) :
  startswith s p = true <-> exists post, s = p ++ post.
Proof.
  revert s. induction p as [|a p IH]; intros s; simpl.
  - split; [eauto|now destruct s].
  - destruct s as [|b s]; simpl.
    + split; [discriminate|]. intros [post H]. discriminate H.
    + rewrite andb_true_iff, IH, N.eqb_eq. split.
      * intros [-> [post ->]]. eauto.
      * intros [post [= -> ->]]. eauto.
Qed.

Lemma contains_spec (s w : str) : contains s w = true <-> occurs_in w s.
Proof.
  unfold occurs_in. induction s as [|c s IH].
  - change (contains [] w) with (startswith [] w || false).
    rewrite orb_false_r, startswith_spec. split.
    + intros [post H]. exists [], post. exact H.
    + intros (pre & post & H). symmetry in H.
      apply app_eq_nil in H as [-> H]. exists post. now rewrite H.
  - change (contains (c :: s) w) with (startswith (c :: s) w || contains s w).
    rewrite orb_true_iff, startswith_spec, IH. split.
    + intros [[post H]|(pre & post & H)].
      * exists [], post. exact H.
      * exists (c :: pre), post. now rewrite H.
    + intros (pre & post & H). destruct pre as [|c' pre].
      * left. exists post. exact H.
      * right. injection H as _ H. eauto.
Qed.

Section FieldProperties.
Context {U : Unicode}.

Lemma parse_fields (text : str) (p : Parsed.t) :
  parse_transaction_text text = Return p ->
  Parsed.type p = extract_type (str_lower text) /\
  Parsed.item p = extract_item (str_lower text) /\
  extract_quantity (str_lower text) = Return (Parsed.quantity p).
Proof.
  unfold parse_transaction_text.
  destruct (extract_amount (str_lower text)); [|discriminate].
  destruct (extract_quantity (str_lower text)); [|discriminate].
  simpl. intros [= <-]. repeat split.
Qed.

(** X16.  The type of the parsed transaction is [purchase] exactly when one
    of the words buy, purchase, bought, supplier occurs in the lower-cased
    text, anywhere, also inside a longer word; it is [sale] otherwise. *)
Theorem type_is_purchase (text : str) (p : Parsed.t) :
  parse_transaction_text text = Return p ->
  (Parsed.type p = purchase <->
   exists w, In w purchase_words /\ occurs_in w (str_lower text)) /\
  (Parsed.type p = sale <->
   forall w, In w purchase_words -> ~ occurs_in w (str_lower text)).
Proof.
  intros Hp. destruct (parse_fields text p Hp) as (-> & _ & _).
  unfold extract_type.
  destruct (existsb _ purchase_words) eqn:E.
  - apply existsb_exists in E as (w & Hw & Hc). apply contains_spec in Hc.
    split; split; try discriminate; eauto.
    intros Hno. exfalso. exact (Hno w Hw Hc).
  - split; split; try discriminate; try reflexivity.
    + intros (w & Hw & Hc). apply contains_spec in Hc.
      assert (Ht : existsb (fun word => contains (str_lower text) word)
                     purchase_words = true)
        by (apply existsb_exists; eauto).
      congruence.
    + intros _ w Hw Hc. apply contains_spec in Hc.
      assert (Ht : existsb (fun word => contains (str_lower text) word)
                     purchase_words = true)
        by (apply existsb_exists; eauto).
      congruence.
Qed.

Lemma find_first {A : Type} (f : A -> bool) (before after : list A) (x : A) :
  Forall (fun y => f y = false) before -> f x = true ->
  List.find f (before ++ x :: after) = Some x.
Proof.
  induction 1 as [|y l Hy _ IH]; intros Hx; simpl.
  - now rewrite Hx.
  - rewrite Hy. now apply IH.
Qed.

(** X17.  The item of the parsed transaction is the first name of the
    catalog, in the order of the catalog, that occurs in the lower-cased
    text, wherever it stands in the text; it is "general" when none
    occurs. *)
Theorem item_is_first_of_catalog (text : str) (p : Parsed.t) :
  parse_transaction_text text = Return p ->
  (forall before i after,
     items = before ++ i :: after ->
     occurs_in i (str_lower text) ->
     (forall j, In j before -> ~ occurs_in j (str_lower text)) ->
     Parsed.item p = i) /\
  ((forall i, In i items -> ~ occurs_in i (str_lower text)) ->
   Parsed.item p = py "general").
Proof.
  intros Hp. destruct (parse_fields text p Hp) as (_ & -> & _).
  unfold extract_item. split.
  - intros before i after -> Hi Hbefore.
    rewrite (find_first _ before after i); [reflexivity| |now apply contains_spec].
    apply List.Forall_forall. intros j Hj.
    destruct (contains (str_lower text) j) eqn:E; [|reflexivity].
    apply contains_spec in E. now destruct (Hbefore j Hj).
  - intros Hnone.
    destruct (List.find _ items) as [i|] eqn:E; [|reflexivity].
    apply find_some in E as [Hi Hc]. apply contains_spec in Hc.
    now destruct (Hnone i Hi).
Qed.
End FieldProperties.

Section QuantityMatcher.
Context {U : Unicode}.
Hypothesis HQ : unicode_consistent_units U.

Local Arguments in_set : simpl never.
Local Arguments bt : simpl never.

Lemma quantity_pattern_eq :
  quantity_pattern =
    Cat (Group 1 (Plus ClsDigit)) (Cat (Star ClsSpace) units_pattern).
Proof. reflexivity. Qed.

Lemma units_pattern_eq :
  units_pattern =
    Alt (lit_text [107; 103]%N)
      (Alt (Cat (lit_text [107; 103]%N) (lit_text [46]%N))
         (Alt (Cat (lit_text [107; 105; 108; 111]%N) (Opt (lit_text [115]%N)))
            (Alt (Cat (lit_text [112; 97; 99; 107; 101; 116]%N) (Opt (lit_text [115]%N)))
               (Alt (Cat (lit_text [117; 110; 105; 116]%N) (Opt (lit_text [115]%N)))
                  (Cat (lit_text [112; 105; 101; 99; 101]%N) (Opt (lit_text [115]%N))))))).
Proof. reflexivity. Qed.

Lemma unit_words_eq :
  unit_words =
    [[107; 103]; [107; 105; 108; 111]; [112; 97; 99; 107; 101; 116];
     [117; 110; 105; 116]; [112; 105; 101; 99; 101]]%N.
Proof. reflexivity. Qed.

Lemma bt_units_inv {A : Type} (s : str) (g : captures)
    (k : str -> captures -> option A) (a : A) :
  bt units_pattern s g k = Some a ->
  exists u rest, s = u ++ rest /\ In u unit_words.
Proof.
  rewrite units_pattern_eq, unit_words_eq.
  rewrite !bt_alt, !bt_cat, !bt_lit_text.
  destruct (strip_prefix [107; 103]%N s) as [r|] eqn:E1.
  { intros _. apply strip_prefix_Some in E1. exists [107; 103]%N, r.
    split; [exact E1|]. simpl. tauto. }
  destruct (strip_prefix [107; 105; 108; 111]%N s) as [r|] eqn:E2.
  { intros _. apply strip_prefix_Some in E2. exists [107; 105; 108; 111]%N, r.
    split; [exact E2|]. simpl. tauto. }
  destruct (strip_prefix [112; 97; 99; 107; 101; 116]%N s) as [r|] eqn:E3.
  { intros _. apply strip_prefix_Some in E3.
    exists [112; 97; 99; 107; 101; 116]%N, r.
    split; [exact E3|]. simpl. tauto. }
  destruct (strip_prefix [117; 110; 105; 116]%N s) as [r|] eqn:E4.
  { intros _. apply strip_prefix_Some in E4. exists [117; 110; 105; 116]%N, r.
    split; [exact E4|]. simpl. tauto. }
  destruct (strip_prefix [112; 105; 101; 99; 101]%N s) as [r|] eqn:E5.
  { intros _. apply strip_prefix_Some in E5. exists [112; 105; 101; 99; 101]%N, r.
    split; [exact E5|]. simpl. tauto. }
  discriminate.
Qed.

Lemma bt_units_last {A : Type} (u rest : str) (g : captures)
    (k : str -> captures -> option A) (a : A) :
  In u unit_words ->
  (forall r, k r g = Some a) ->
  bt units_pattern (u ++ rest) g k = Some a.
Proof.
  rewrite units_pattern_eq, unit_words_eq. intros Hin Hk.
  rewrite !bt_alt, !bt_cat, !bt_lit_text.
  simpl in Hin.
  destruct Hin as [<-|[<-|[<-|[<-|[<-|[]]]]]];
    cbn [strip_prefix app N.eqb Pos.eqb];
    rewrite ?bt_opt, ?bt_lit_text; cbn [strip_prefix app N.eqb Pos.eqb];
    rewrite ?Hk; try reflexivity;
    (destruct rest as [|b r]; [reflexivity|]);
    destruct (b =? 115)%N; rewrite ?Hk; reflexivity.
Qed.

Lemma unit_head (u : str) :
  In u unit_words ->
  exists c u', u = c :: u' /\
    in_set ClsDigit c = false /\ in_set ClsSpace c = false.
Proof.
  rewrite unit_words_eq. destruct HQ as [_ H]. simpl.
  assert (Hc : forall c, In c [107; 112; 117]%N ->
            in_set ClsDigit c = false /\ in_set ClsSpace c = false).
  { intros c Hin. destruct (H c Hin) as [Hd Hs]. unfold in_set. rewrite Hd.
    split; [reflexivity|exact Hs]. }
  intros [<-|[<-|[<-|[<-|[<-|[]]]]]]; eexists _, _;
    (split; [reflexivity|]); apply Hc; simpl; tauto.
Qed.

Lemma quantity_match_sound (s : str) (m : captures) :
  re_match quantity_pattern s = Some m ->
  exists D n,
    m !! 1%nat = Some D /\ digits D /\ digits_value 0 D = Some n /\
    quantity_at s (Z.of_N n).
Proof.
  unfold re_match. rewrite quantity_pattern_eq, bt_cat, bt_group, bt_plus.
  destruct s as [|c s0]; [discriminate|].
  destruct (in_set ClsDigit c) eqn:Ec; [|discriminate].
  intros H. apply star_inv in H as (run & rest & -> & Hrun & H & _).
  rewrite bt_cat, bt_star in H.
  apply star_inv in H as (ws & rest2 & -> & Hws & H & _).
  pose proof (bt_units_inv _ _ _ _ H) as (u & rest3 & -> & Hu).
  apply bt_group_free in H as [s' H]; [|reflexivity].
  injection H as <-.
  assert (HD : digits (c :: run)) by (split; [discriminate|now constructor]).
  destruct (digits_value_digits (c :: run) 0 (proj2 HD)) as [n Hn].
  exists (c :: run), n. split; [|split; [exact HD|split; [exact Hn|]]].
  - change (S (length (run ++ ws ++ u ++ rest3)))
      with (length ((c :: run) ++ ws ++ u ++ rest3)).
    change (c :: run ++ ws ++ u ++ rest3) with ((c :: run) ++ ws ++ u ++ rest3).
    rewrite take_app_rest, lookup_insert_eq. reflexivity.
  - apply (quantity_before_unit (c :: run) ws u rest3 n); assumption.
Qed.

Lemma quantity_match_complete (s : str) (n : Z) :
  quantity_at s n ->
  exists m D v,
    re_match quantity_pattern s = Some m /\ m !! 1%nat = Some D /\
    digits_value 0 D = Some v /\ n = Z.of_N v.
Proof.
  intros [D ws u rest n' [Hne HD] Hws Hu Hn].
  exists (<[1%nat := D]> ∅), D, n'.
  split; [|split; [apply lookup_insert_eq|split; [exact Hn|reflexivity]]].
  unfold re_match. rewrite quantity_pattern_eq, bt_cat, bt_group, bt_plus.
  destruct HD as [|c D Hc HD]; [congruence|].
  change ((c :: D) ++ ws ++ u ++ rest) with (c :: D ++ ws ++ u ++ rest).
  cbv iota. unfold is_digit in Hc. rewrite Hc.
  destruct (unit_head u Hu) as (c0 & u' & Eu & Hud & Hus).
  apply star_app; [exact HD|]. rewrite star_stop.
  - rewrite bt_cat, bt_star. apply star_app; [exact Hws|]. rewrite star_stop.
    + apply bt_units_last; [exact Hu|]. intros r.
      change (c :: D ++ ws ++ u ++ rest) with ((c :: D) ++ ws ++ u ++ rest).
      rewrite take_app_rest. reflexivity.
    + intros c1 s1 E. rewrite Eu in E. injection E as <- _. exact Hus.
  - intros c1 s1 E. destruct Hws as [|w ws Hw _].
    + rewrite Eu in E. injection E as <- _. exact Hud.
    + injection E as <- _. destruct (in_set ClsDigit w) eqn:Ed; [|reflexivity].
      destruct HQ as [H _]. unfold is_space, in_set in Hw, Ed.
      rewrite H in Hw; [discriminate|]. destruct (decimal w); [discriminate|discriminate].
Qed.

Lemma py_int_value (D : str) (q : Z) (n : N) :
  py_int D = Return q -> digits_value 0 D = Some n -> q = Z.of_N n.
Proof.
  unfold py_int. destruct D as [|c D]; [discriminate|].
  intros H Hn. rewrite Hn in H.
  destruct (max_str_digits <? _)%Z; congruence.
Qed.

Lemma extract_quantity_leftmost (t : str) (q : Z) :
  extract_quantity t = Return q ->
  (forall pre s n, t = pre ++ s -> quantity_at s n ->
     (forall pre' s' n', t = pre' ++ s' ->
        (length pre' < length pre)%nat -> ~ quantity_at s' n') ->
     q = n) /\
  ((forall pre s n, t = pre ++ s -> ~ quantity_at s n) -> q = 1%Z).
Proof.
  unfold extract_quantity.
  destruct (re_search quantity_pattern t) as [m|] eqn:E.
  - apply re_search_inv in E as (pre0 & s0 & Ht & Hm & Hmin).
    destruct (quantity_match_sound s0 m Hm) as (D0 & n0 & HmD & _ & Hn0 & Hat).
    rewrite HmD. simpl int_of_group. intros Hq.
    pose proof (py_int_value D0 q n0 Hq Hn0) as ->. split.
    + intros pre s n Ht' Hat' Hleft.
      destruct (quantity_match_complete s n Hat') as (m' & D' & v & Hm' & HmD' & Hv & ->).
      destruct (Nat.lt_trichotomy (length pre0) (length pre)) as [Hlt|[Heq|Hgt]].
      * exfalso. exact (Hleft pre0 s0 _ Ht Hlt Hat).
      * rewrite Ht in Ht'. apply app_inj_1 in Ht' as [_ <-]; [|exact Heq].
        congruence.
      * rewrite (Hmin pre s Ht' Hgt) in Hm'. discriminate.
    + intros Hnone. exfalso. exact (Hnone pre0 s0 _ Ht Hat).
  - intros [= <-]. split; [|reflexivity].
    intros pre s n Ht Hat _.
    destruct (quantity_match_complete s n Hat) as (m' & D' & v & Hm' & _).
    rewrite (re_search_None _ _ E pre s Ht) in Hm'. discriminate.
Qed.

(** X18.  The quantity of the parsed transaction is the integer of the
    leftmost place of the lower-cased text where digits, white space and a
    unit word (kg, kilo, packet, unit, piece) follow one another, the digits
    being all the digits from that place on; it is 1 when the text has no
    such place. *)
Theorem parse_quantity_leftmost (text : str) (p : Parsed.t) :
  parse_transaction_text text = Return p ->
  (forall pre s n, str_lower text = pre ++ s -> quantity_at s n ->
     (forall pre' s' n', str_lower text = pre' ++ s' ->
        (length pre' < length pre)%nat -> ~ quantity_at s' n') ->
     Parsed.quantity p = n) /\
  ((forall pre s n, str_lower text = pre ++ s -> ~ quantity_at s n) ->
   Parsed.quantity p = 1%Z).
Proof.
  intros Hp. destruct (parse_fields text p Hp) as (_ & _ & Hq).
  exact (extract_quantity_leftmost _ _ Hq).
Qed.
End QuantityMatcher.

Lemma ascii_unicode_consistent_units : unicode_consistent_units ascii_unicode.
Proof.
  split.
  - apply ascii_unicode_consistent.
  - intros c Hc. vm_compute in Hc.
    destruct Hc as [<-|[<-|[<-|[]]]]; split; reflexivity.
Qed.

(** ** The dashboard *)

Lemma text_leb_total (a b : str) : text_leb a b = true \/ text_leb b a = true.
Proof.
  revert b. induction a as [|x a IH]; intros b; [now left|].
  destruct b as [|y b]; [now right|]. simpl.
  destruct (N.ltb_spec x y) as [Hxy|Hxy]; [now left|].
  destruct (N.ltb_spec y x) as [Hyx|Hyx]; [now right|].
  assert (x = y) as -> by lia. rewrite N.eqb_refl. simpl. apply IH.
Qed.

Lemma text_leb_trans (a b c : str) :
  text_leb a b = true -> text_leb b c = true -> text_leb a c = true.
Proof.
  revert b c. induction a as [|x a IH]; intros b c; [reflexivity|].
  destruct b as [|y b]; [discriminate|]. destruct c as [|z c]; [discriminate|].
  simpl. rewrite !orb_true_iff, !andb_true_iff, !N.ltb_lt, !N.eqb_eq.
  intros [Hxy|[-> Hab]] [Hyz|[-> Hbc]].
  - left. lia.
  - now left.
  - now left.
  - right. split; [reflexivity|]. exact (IH b c Hab Hbc).
Qed.

Global Instance newer_total : Total newer.
Proof. intros r1 r2. unfold newer. destruct (text_leb_total (Txn.timestamp r2) (Txn.timestamp r1)); auto. Qed.

Global Instance newer_trans : Transitive newer.
Proof. intros r1 r2 r3 H12 H23. unfold newer in *. exact (text_leb_trans _ _ _ H23 H12). Qed.

Lemma total_of_none (ty : txn_type) (rows : list Txn.row) :
  rows <> [] -> (forall r, In r rows -> Txn.type r <> ty) ->
  total_of ty rows = Some (SqlInt 0).
Proof.
  intros Hne Hall. unfold total_of, sql_sum.
  destruct rows as [|r0 rows]; [congruence|].
  set (l := r0 :: rows) in *. cbn [List.map]. fold l.
  change (match (if bool_decide (Txn.type r0 = ty) then Some (Txn.amount r0) else None)
                :: List.map _ rows with [] => None | _ :: _ => ?x end) with x.
  replace (forallb _ _) with true; [reflexivity|].
  symmetry. apply forallb_forall. intros v Hv.
  apply in_map_iff in Hv as (r & <- & Hr).
  case_bool_decide as E; [|reflexivity]. now destruct (Hall r Hr).
Qed.

Lemma total_of_some (ty : txn_type) (rows : list Txn.row) :
  (exists r, In r rows /\ Txn.type r = ty) ->
  total_of ty rows =
    Some (SqlReal
            (fold_left float_add
               (List.map
                  (fun r => if bool_decide (Txn.type r = ty)
                            then Txn.amount r else float_zero) rows)
               float_zero)).
Proof.
  intros (r & Hr & Hty). unfold total_of, sql_sum.
  rewrite List.map_map.
  destruct rows as [|r0 rows]; [destruct Hr|].
  set (l := r0 :: rows) in *. cbn [List.map]. fold l.
  replace (forallb _ _) with false.
  - do 2 f_equal. change (_ :: List.map _ rows) with (List.map
      (fun r => default float_zero
                  (if bool_decide (Txn.type r = ty) then Some (Txn.amount r) else None)) l).
    f_equal. apply map_ext. intros r'. now destruct (bool_decide _).
  - symmetry. apply not_true_is_false. intros Hall.
    rewrite forallb_forall in Hall.
    specialize (Hall (if bool_decide (Txn.type r = ty) then Some (Txn.amount r) else None)).
    rewrite bool_decide_eq_true_2 in Hall by exact Hty.
    discriminate Hall. apply in_map_iff. exists r. split; [|exact Hr].
    now rewrite bool_decide_eq_true_2 by exact Hty.
Qed.

Section DashboardProperties.
Variable sqlite_date : str -> option str.

(** X19.  The dashboard lists the ten most recent transactions, newest
    first: min(10, n) rows of the table, in descending order of timestamp,
    none of them older than a row left out. *)
Theorem dashboard_recent_transactions (today : str) (db : database) :
  let recent := Dashboard.transactions (dashboard sqlite_date today db) in
  length recent = Nat.min 10 (length (transactions db)) /\
  StronglySorted newer recent /\
  exists older,
    Permutation (recent ++ older) (transactions db) /\
    forall r o, In r recent -> In o older -> newer r o.
Proof.
  simpl. unfold recent_transactions.
  pose proof (StronglySorted_merge_sort newer (transactions db)) as Hs.
  pose proof (merge_sort_Permutation newer (transactions db)) as Hp.
  pose proof (Permutation_length Hp) as Hlen.
  rewrite <- (take_drop 10 (merge_sort newer (transactions db))) in Hs, Hp.
  split; [|split].
  - rewrite length_take, Hlen. reflexivity.
  - exact (StronglySorted_app_1_l _ _ _ Hs).
  - exists (drop 10 (merge_sort newer (transactions db))).
    split; [exact Hp|]. intros r o Hr Ho.
    apply (StronglySorted_app_1_elem_of _ _ _ _ _ Hs); now apply list_elem_of_In.
Qed.

(** X20.  The statistics of the dashboard count the transactions of the day.
    Without any, both totals are null.  With some, the total of a type the
    day has no transaction of is the INTEGER 0, and the total of a type it
    has one of is a REAL: the amounts of the type and 0.0 for every other
    row, added as floats in row order from 0.0. *)
Theorem dashboard_stats (today : str) (db : database) :
  let rows := rows_of_today sqlite_date today db in
  let stats := Dashboard.stats (dashboard sqlite_date today db) in
  let total ty :=
    match ty with
    | sale => Stats.total_sales stats
    | purchase => Stats.total_purchases stats
    end in
  Stats.transaction_count stats = length rows /\
  (rows = [] ->
   Stats.total_sales stats = None /\ Stats.total_purchases stats = None) /\
  forall ty,
    (rows <> [] -> (forall r, In r rows -> Txn.type r <> ty) ->
     total ty = Some (SqlInt 0)) /\
    ((exists r, In r rows /\ Txn.type r = ty) ->
     total ty =
       Some (SqlReal
               (fold_left float_add
                  (List.map
                     (fun r => if bool_decide (Txn.type r = ty)
                               then Txn.amount r else float_zero) rows)
                  float_zero))).
Proof.
  intros rows stats total.
  assert (Htotal : forall ty, total ty = total_of ty rows)
    by (intros []; reflexivity).
  split; [reflexivity|]. split.
  - unfold stats, dashboard. fold rows.
    cbn [Dashboard.stats Stats.total_sales Stats.total_purchases].
    intros ->. split; reflexivity.
  - intros ty. rewrite Htotal. split.
    + apply total_of_none.
    + apply total_of_some.
Qed.
End DashboardProperties.

(** X22.  Every request keeps a ledger in which all reorder levels are 10 in
    that state: the program writes no other level. *)
Theorem request_keeps_reorder_levels `{Unicode} (data : gmap str pyval)
    (now cutoff : str) (db : database) :
  Forall (fun r => Inv.reorder_level r = 10%Z) (inventory db) ->
  Forall (fun r => Inv.reorder_level r = 10%Z)
    (inventory (process_input data now cutoff db).2).
Proof.
  intros Hdb.
  destruct (process_input_ledger data now cutoff db) as [->|(text & p & _ & _ & Hs)];
    [exact Hdb|].
  exact (store_keeps_reorder_level p now db _ Hdb Hs).
Qed.

(** * The further properties on concrete requests and ledgers *)

Lemma failed_request_keeps_ledger_witness :
  (@process_input ascii_unicode ∅ example_now example_cutoff rice_ledger).1
    = BadRequest (py "No input provided") /\
  (@process_input ascii_unicode ∅ example_now example_cutoff rice_ledger).2
    = rice_ledger.
Proof.
  split; [reflexivity|].
  apply failed_request_keeps_ledger. left. eexists. reflexivity.
Defined.

Lemma parse_sold_rice_7 :
  @parse_transaction_text ascii_unicode (py "sold 7 kg rice for rs 70") =
    Return sale_of_rice.
Proof. vm_compute. reflexivity. Qed.

Lemma parse_bought_rice_7 :
  @parse_transaction_text ascii_unicode (py "bought 7 kg rice rs 70") =
    Return purchase_of_rice.
Proof. vm_compute. reflexivity. Qed.

(** The eleventh sale is committed and answered with the server error. *)
Lemma response_after_commit_witness :
  exists db',
    store sale_of_rice example_now ten_sales_ledger = Return db' /\
    length (transactions db') = 11%nat /\
    @process_input ascii_unicode (request (py "sold 7 kg rice for rs 70"))
      example_now example_cutoff ten_sales_ledger = (ServerError TypeError, db').
Proof.
  eexists. split; [vm_compute; reflexivity|]. split; [reflexivity|].
  apply (@response_after_commit ascii_unicode
           (request (py "sold 7 kg rice for rs 70")) example_now example_cutoff
           ten_sales_ledger _ (py "sold 7 kg rice for rs 70") sale_of_rice).
  - apply lookup_singleton_eq.
  - discriminate.
  - exact parse_sold_rice_7.
  - vm_compute. reflexivity.
  - vm_compute. lia.
Defined.

Lemma success_has_no_fraud_alert_witness :
  exists p cf inv fr alerts,
    (@process_input ascii_unicode (request (py "sold 7 kg rice for rs 70"))
       example_now example_cutoff rice_ledger).1 = Success p cf inv fr alerts /\
    Forall (fun a => Alert.type a <> py "fraud") alerts.
Proof.
  do 5 eexists.
  assert (H : forall p cf inv fr alerts,
            (@process_input ascii_unicode (request (py "sold 7 kg rice for rs 70"))
               example_now example_cutoff rice_ledger).1 = Success p cf inv fr alerts ->
            (@process_input ascii_unicode (request (py "sold 7 kg rice for rs 70"))
               example_now example_cutoff rice_ledger).1 = Success p cf inv fr alerts /\
            Forall (fun a => Alert.type a <> py "fraud") alerts).
  { intros p cf inv fr alerts E. split; [exact E|].
    exact (proj2 (@success_has_no_fraud_alert ascii_unicode _ _ _ _ _ _ _ _ _ E)). }
  apply H. vm_compute. reflexivity.
Defined.

Lemma oversized_quantity_raises_witness :
  (exists p,
     @parse_transaction_text ascii_unicode
       (py "sold 9223372036854775808 kg rice") = Return p /\
     Parsed.quantity p = (2 ^ 63)%Z) /\
  @process_input ascii_unicode (request (py "sold 9223372036854775808 kg rice"))
    example_now example_cutoff rice_ledger = (ServerError OverflowError, rice_ledger).
Proof.
  assert (Hp : @parse_transaction_text ascii_unicode
                 (py "sold 9223372036854775808 kg rice") =
               Return {| Parsed.item := py "rice"; Parsed.amount := float_zero;
                         Parsed.type := sale; Parsed.quantity := 2 ^ 63;
                         Parsed.payment_method := py "cash" |})
    by (vm_compute; reflexivity).
  split; [eexists; split; [exact Hp|reflexivity]|].
  eapply (@oversized_quantity_raises ascii_unicode).
  - apply lookup_singleton_eq.
  - discriminate.
  - exact Hp.
  - simpl Parsed.quantity. split; [lia|]. apply Z.ltb_lt. vm_compute. reflexivity.
Defined.

Lemma non_string_text_witness :
  @process_input ascii_unicode {[ py "text" := PInt 5 ]} example_now
    example_cutoff rice_ledger = (ServerError AttributeError, rice_ledger) /\
  @process_input ascii_unicode {[ py "text" := PInt 0 ]} example_now
    example_cutoff rice_ledger = (BadRequest (py "No input provided"), rice_ledger).
Proof.
  split.
  - apply (proj2 (@non_string_text ascii_unicode {[ py "text" := PInt 5 ]}
                    example_now example_cutoff rice_ledger (PInt 5)
                    (lookup_singleton_eq _ _))); [reflexivity|discriminate].
  - apply (proj1 (@non_string_text ascii_unicode {[ py "text" := PInt 0 ]}
                    example_now example_cutoff rice_ledger (PInt 0)
                    (lookup_singleton_eq _ _))). reflexivity.
Defined.

(** Seven of rice sold out of five: the stock is -2. *)
Lemma sale_updates_quantity_only_witness :
  exists db',
    store sale_of_rice example_now rice_ledger = Return db' /\
    List.map Inv.quantity (inventory db') = [SqlInt (-2)] /\
    Forall2 (fun r r' => Inv.reorder_level r' = Inv.reorder_level r)
      (inventory rice_ledger) (inventory db').
Proof.
  eexists. split; [vm_compute; reflexivity|]. split; [reflexivity|].
  eapply Forall2_impl.
  - apply (sale_updates_quantity_only sale_of_rice example_now
             rice_ledger); [reflexivity|vm_compute; reflexivity].
  - simpl. intros r r' H. apply H.
Defined.

(** The largest quantity SQLite takes, sold out of a stock of -5: the
    difference has no 64 bits and the stock is the REAL
    -9223372036854775808.0. *)
Example sale_beyond_64_bits :
  forall db',
    store {| Parsed.item := py "rice"; Parsed.amount := flt "70";
             Parsed.type := sale; Parsed.quantity := 2 ^ 63 - 1;
             Parsed.payment_method := py "cash" |} example_now
      (mkdb [] 0 [Inv.mk 1 (py "rice") (SqlInt (-5)) 20 (flt "1") example_now] 1)
      = Return db' ->
    List.map Inv.quantity (inventory db') =
      [SqlReal (float_opp (flt "9223372036854775808"))].
Proof. intros db' H. vm_compute in H. injection H as <-. vm_compute. reflexivity. Qed.

Lemma sale_reported_at_reorder_level_witness :
  exists db',
    store sale_of_rice example_now rice_ledger = Return db' /\
    In (Stock.mk_entry (py "rice") (SqlInt (-2)) 20)
      (Stock.items_to_reorder (inventory_alert db')).
Proof.
  eexists. split; [vm_compute; reflexivity|].
  apply (proj1 (sale_reported_at_reorder_level sale_of_rice
                  example_now rice_ledger _ rice_row
                  eq_refl eq_refl
                  ltac:(repeat constructor; apply not_elem_of_nil)
                  ltac:(left; reflexivity) eq_refl)).
  simpl. lia.
Defined.

(** Seven of rice bought and sold again: 5 as before.  Beyond 64 bits the
    stock is not restored: the largest quantity bought and sold again leaves
    0 of the 5. *)
Lemma purchase_then_sale_witness :
  (exists db1 db2,
     store purchase_of_rice example_now rice_ledger = Return db1 /\
     store sale_of_rice example_now db1 = Return db2 /\
     stored_quantity (py "rice") db1 = SqlInt 12 /\
     stored_quantity (py "rice") db2 = SqlInt 5) /\
  (exists db1 db2,
     let bought := {| Parsed.item := py "rice"; Parsed.amount := flt "70";
                      Parsed.type := purchase; Parsed.quantity := 2 ^ 63 - 1;
                      Parsed.payment_method := py "cash" |} in
     let sold := {| Parsed.item := py "rice"; Parsed.amount := flt "70";
                    Parsed.type := sale; Parsed.quantity := 2 ^ 63 - 1;
                    Parsed.payment_method := py "cash" |} in
     store bought example_now rice_ledger = Return db1 /\
     store sold example_now db1 = Return db2 /\
     stored_quantity (py "rice") db2 = SqlInt 0).
Proof.
  split.
  - do 2 eexists. split; [vm_compute; reflexivity|].
    split; [vm_compute; reflexivity|]. split; [reflexivity|].
    eapply (purchase_then_sale purchase_of_rice sale_of_rice
              example_now example_now rice_ledger _ _ 5);
      try reflexivity; try (vm_compute; reflexivity);
      (split; [discriminate|reflexivity]).
  - do 2 eexists. cbv zeta. split; [vm_compute; reflexivity|].
    split; vm_compute; reflexivity.
Defined.

Lemma request_keeps_keys_witness :
  well_keyed rice_ledger /\
  well_keyed
    (@process_input ascii_unicode (request (py "bought 7 kg rice rs 70"))
       example_now example_cutoff rice_ledger).2.
Proof.
  assert (Hk : well_keyed rice_ledger).
  { repeat split; simpl; repeat constructor; apply not_elem_of_nil. }
  split; [exact Hk|]. apply request_keeps_keys. exact Hk.
Defined.

Lemma request_keeps_reorder_levels_witness :
  Forall (fun r => Inv.reorder_level r = 10%Z) (inventory empty_db) /\
  Forall (fun r => Inv.reorder_level r = 10%Z)
    (inventory
       (@process_input ascii_unicode (request (py "bought 7 kg rice rs 70"))
          example_now example_cutoff empty_db).2).
Proof.
  split; [constructor|]. apply request_keeps_reorder_levels. constructor.
Defined.

(** "rebought" holds "bought". *)
Lemma type_is_purchase_witness :
  @parse_transaction_text ascii_unicode (py "rebought 7 kg rice rs 70") =
    Return purchase_of_rice /\
  exists w, In w purchase_words /\
            occurs_in w (@str_lower ascii_unicode (py "rebought 7 kg rice rs 70")).
Proof.
  assert (Hp : @parse_transaction_text ascii_unicode (py "rebought 7 kg rice rs 70") =
               Return purchase_of_rice) by (vm_compute; reflexivity).
  split; [exact Hp|].
  exact (proj1 (proj1 (@type_is_purchase ascii_unicode _ _ Hp)) eq_refl).
Defined.

(** "sugar" stands first in the text, "rice" first in the catalog. *)
Lemma item_is_first_of_catalog_witness :
  exists p,
    @parse_transaction_text ascii_unicode (py "sold sugar and rice") = Return p /\
    Parsed.item p = py "rice".
Proof.
  eexists. split; [vm_compute; reflexivity|].
  pose proof (@item_is_first_of_catalog ascii_unicode (py "sold sugar and rice") _
                ltac:(vm_compute; reflexivity)) as [Hfirst _].
  apply (Hfirst [] (py "rice")
           [py "wheat"; py "sugar"; py "oil"; py "dal"; py "tea"; py "salt";
            py "milk"; py "biscuit"]).
  - reflexivity.
  - exists (py "sold sugar and "), []. reflexivity.
  - intros j [].
Defined.

Lemma parse_quantity_leftmost_witness :
  unicode_consistent_units ascii_unicode /\
  exists p,
    @parse_transaction_text ascii_unicode (py "7 kg rice") = Return p /\
    Parsed.quantity p = 7%Z.
Proof.
  split; [exact ascii_unicode_consistent_units|].
  eexists. split; [vm_compute; reflexivity|].
  pose proof (@parse_quantity_leftmost ascii_unicode ascii_unicode_consistent_units
                (py "7 kg rice") _ ltac:(vm_compute; reflexivity)) as [Hleft _].
  apply (Hleft [] (py "7 kg rice") 7%Z).
  - reflexivity.
  - apply (@quantity_before_unit ascii_unicode (py "7") (py " ") (py "kg")
             (py " rice") 7%N).
    + split; [discriminate|repeat constructor].
    + repeat constructor.
    + left. reflexivity.
    + reflexivity.
  - intros pre' s' n' _ Hlt. simpl in Hlt. lia.
Defined.

(** A text that parses, and a quantity of 4301 digits, which does not. *)
Lemma parse_nonnegative_witness :
  unicode_consistent ascii_unicode /\
  (exists p,
     @parse_transaction_text ascii_unicode (py "sold 5 kg rice for rs 250") = Return p /\
     float_leb float_zero (Parsed.amount p) = true /\ (0 <= Parsed.quantity p)%Z) /\
  @parse_transaction_text ascii_unicode (py "rs 1 " ++ repeat 57%N 4301 ++ py " kg") =
    Raise ValueError.
Proof.
  split; [exact ascii_unicode_consistent|]. split.
  - pose proof (@parse_nonnegative ascii_unicode ascii_unicode_consistent
                  (py "sold 5 kg rice for rs 250")) as H.
    rewrite parse_sold_rice in H. eexists. split; [reflexivity|exact H].
  - vm_compute. reflexivity.
Defined.

(** The amount of "rs 250" by the leftmost-match property. *)
Lemma parse_amount_leftmost_witness :
  unicode_consistent ascii_unicode /\
  exists p, @parse_transaction_text ascii_unicode (py "rs 250") = Return p /\
            Parsed.amount p = flt "250".
Proof.
  split; [exact ascii_unicode_consistent|].
  eexists. split; [vm_compute; reflexivity|].
  pose proof (@parse_amount_leftmost ascii_unicode ascii_unicode_consistent
                (py "rs 250") _ ltac:(vm_compute; reflexivity)) as [Hleft _].
  apply (Hleft [] (py "rs 250") (flt "250")).
  - reflexivity.
  - apply (@amount_after ascii_unicode (py "rs") (py " ") (py "250") [] (flt "250")).
    + right. left. reflexivity.
    + repeat constructor.
    + apply read_whole.
      * split; [discriminate|repeat constructor].
      * intros (c & s' & E & _). discriminate E.
      * intros (x1 & x2 & s' & E & _). discriminate E.
    + assert (E : flt "250" = float_of_decimal 250 0) by (vm_compute; reflexivity).
      rewrite E. apply (@value_whole ascii_unicode (py "250") 250%N). reflexivity.
  - intros pre' s' q' _ Hlt. simpl in Hlt. lia.
Defined.

(** ** The request and its agents *)

(** X23.  The detector of a request reads the ledger after the write: a sale
    is checked against a history that already holds its own amount, as the
    last one; a purchase leaves the history as it was. *)
Theorem stored_sale_joins_history (p : Parsed.t) (timestamp : str)
    (db db' : database) :
  store p timestamp db = Return db' ->
  sale_amounts db' =
    match Parsed.type p with
    | sale => sale_amounts db ++ [Parsed.amount p]
    | purchase => sale_amounts db
    end.
Proof.
  intros Hs. unfold sale_amounts.
  rewrite (store_transactions p timestamp db db' Hs).
  rewrite List.filter_app, List.map_app. simpl.
  destruct (Parsed.type p); simpl; [reflexivity|apply app_nil_r].
Qed.

(** X24.  After a stored purchase the monitor reports the item bought, with
    its new quantity and the level 10, exactly when that quantity is at most
    10: a first purchase of ten units or fewer is answered with a low-stock
    alert for the item just bought. *)
Theorem purchase_reported_up_to_ten (p : Parsed.t) (timestamp : str)
    (db db' : database) :
  Parsed.type p = purchase ->
  store p timestamp db = Return db' ->
  let quantity :=
    integer_affinity
      (sql_add (stored_quantity (Parsed.item p) db) (SqlInt (Parsed.quantity p))) in
  (In (Stock.mk_entry (Parsed.item p) quantity 10)
      (Stock.items_to_reorder (inventory_alert db')) <->
   sql_le quantity 10) /\
  (forall o, stored_quantity (Parsed.item p) db = SqlInt o ->
     (- 2 ^ 63 <= o + Parsed.quantity p < 2 ^ 63)%Z ->
     (In (Stock.mk_entry (Parsed.item p) (SqlInt (o + Parsed.quantity p)) 10)
         (Stock.items_to_reorder (inventory_alert db')) <->
      (o + Parsed.quantity p <= 10)%Z)).
Proof.
  intros Hty Hs quantity.
  assert (Hgen : In (Stock.mk_entry (Parsed.item p) quantity 10)
                   (Stock.items_to_reorder (inventory_alert db')) <->
                 sql_le quantity 10).
  { apply store_inv in Hs as [_ [[Hp _]|(_ & _ & ->)]]; [congruence|].
    unfold inventory_alert, replace_inventory.
    cbn [Stock.items_to_reorder inventory].
    change (stored_quantity (Parsed.item p) (record_transaction p timestamp db))
      with (stored_quantity (Parsed.item p) db).
    fold quantity.
    rewrite List.filter_app, List.map_app, in_app_iff.
    cbn [List.filter Inv.quantity Inv.reorder_level].
    rewrite <- sql_leb_le.
    split.
    - intros [Hin|Hin].
      + exfalso. apply in_map_iff in Hin as (r & Hr & Hin).
        apply filter_In in Hin as [Hin _]. apply filter_In in Hin as [_ Hne].
        apply negb_true_iff in Hne. unfold text_eqb in Hne.
        apply bool_decide_eq_false in Hne. apply Hne.
        now injection Hr as -> _ _.
      + destruct (sql_leb quantity 10); [reflexivity|destruct Hin].
    - intros Hle. right. rewrite Hle. now left. }
  split; [exact Hgen|].
  intros o Ho Hsum. unfold quantity in Hgen.
  rewrite Ho, sql_add_int in Hgen by now apply int64_range.
  exact Hgen.
Qed.

Section DefaultProperties.
Context {U : Unicode}.
Hypothesis HU : unicode_consistent U.

Lemma amount_at_digit (s : str) (x : float) :
  amount_at s x -> exists c, In c s /\ is_digit c.
Proof.
  intros [tok ws num rest q' _ _ Hread _|num ws tok rest q' Hnum _ _ _].
  - destruct (number_head num (number_read_number _ _ Hread)) as (c & num' & -> & Hc).
    exists c. split; [|exact Hc]. rewrite !in_app_iff. right. right. left. now left.
  - destruct (number_head num Hnum) as (c & num' & -> & Hc).
    exists c. split; [now left|exact Hc].
Qed.

Lemma quantity_match_digit (s : str) (m : captures) :
  re_match quantity_pattern s = Some m -> exists c, In c s /\ is_digit c.
Proof.
  intros Hm. destruct (quantity_match_sound s m Hm) as (D0 & n & _ & _ & _ & Hat).
  destruct Hat as [D ws u rest n' [Hne HD] _ _ _].
  destruct HD as [|c D Hc _]; [congruence|].
  exists c. split; [now left|exact Hc].
Qed.

(** X25.  A text that, lower-cased, holds no digit, no purchase word and no
    name of the catalog is not refused: it parses to the cash sale of
    "general" with amount 0.0 and quantity 1. *)
Theorem unrecognised_text_is_a_default_sale (text : str) :
  (forall c, In c (str_lower text) -> ~ is_digit c) ->
  (forall w, In w purchase_words -> ~ occurs_in w (str_lower text)) ->
  (forall i, In i items -> ~ occurs_in i (str_lower text)) ->
  parse_transaction_text text =
    Return {| Parsed.item := py "general";
              Parsed.amount := float_zero;
              Parsed.type := sale;
              Parsed.quantity := 1;
              Parsed.payment_method := py "cash" |}.
Proof.
  intros Hdigit Hword Hitem. unfold parse_transaction_text.
  assert (Hsuffix : forall pre s c, str_lower text = pre ++ s -> In c s ->
                      ~ is_digit c).
  { intros pre s c E Hc. apply Hdigit. rewrite E. apply in_app_iff. now right. }
  destruct (extract_amount_leftmost HU (str_lower text)) as (q & -> & _ & _ & Hnone).
  rewrite Hnone.
  2:{ intros pre s q' E Hat. destruct (amount_at_digit s q' Hat) as (c & Hc & Hd).
      exact (Hsuffix pre s c E Hc Hd). }
  assert (Hq : extract_quantity (str_lower text) = Return 1%Z).
  { unfold extract_quantity.
    destruct (re_search quantity_pattern (str_lower text)) as [m|] eqn:E;
      [|reflexivity].
    apply re_search_inv in E as (pre & s & E & Hm & _).
    destruct (quantity_match_digit s m Hm) as (c & Hc & Hd).
    now destruct (Hsuffix pre s c E Hc Hd). }
  rewrite Hq. simpl. f_equal.
  assert (Hty : extract_type (str_lower text) = sale).
  { unfold extract_type.
    destruct (existsb _ purchase_words) eqn:E; [|reflexivity].
    apply existsb_exists in E as (w & Hw & Hc). apply contains_spec in Hc.
    now destruct (Hword w Hw). }
  assert (Hit : extract_item (str_lower text) = py "general").
  { unfold extract_item.
    destruct (List.find _ items) as [i|] eqn:E; [|reflexivity].
    apply find_some in E as [Hi Hc]. apply contains_spec in Hc.
    now destruct (Hitem i Hi). }
  rewrite Hty, Hit. reflexivity.
Qed.
End DefaultProperties.

Lemma stored_sale_joins_history_witness :
  exists db',
    store sale_of_rice example_now ten_sales_ledger = Return db' /\
    sale_amounts db' = sale_amounts ten_sales_ledger ++ [flt "70"].
Proof.
  eexists. split; [vm_compute; reflexivity|].
  apply (stored_sale_joins_history sale_of_rice example_now ten_sales_ledger).
  vm_compute. reflexivity.
Defined.

(** Seven of rice bought into an empty inventory: reported at once. *)
Lemma purchase_reported_up_to_ten_witness :
  exists db',
    store purchase_of_rice example_now empty_db = Return db' /\
    In (Stock.mk_entry (py "rice") (SqlInt 7) 10)
      (Stock.items_to_reorder (inventory_alert db')).
Proof.
  eexists. split; [vm_compute; reflexivity|].
  apply (proj2 (proj1 (purchase_reported_up_to_ten purchase_of_rice example_now
                         empty_db _ eq_refl eq_refl))).
  vm_compute. discriminate.
Defined.

Lemma unrecognised_text_is_a_default_sale_witness :
  unicode_consistent ascii_unicode /\
  @parse_transaction_text ascii_unicode (py "Hello there") =
    Return {| Parsed.item := py "general";
              Parsed.amount := float_zero;
              Parsed.type := sale;
              Parsed.quantity := 1;
              Parsed.payment_method := py "cash" |}.
Proof.
  split; [exact ascii_unicode_consistent|].
  apply (@unrecognised_text_is_a_default_sale ascii_unicode ascii_unicode_consistent).
  - intros c Hc. vm_compute in Hc.
    repeat (destruct Hc as [<-|Hc]; [discriminate|]). destruct Hc.
  - intros w Hw Hocc. apply contains_spec in Hocc.
    vm_compute in Hw.
    repeat (destruct Hw as [<-|Hw]; [vm_compute in Hocc; discriminate|]). destruct Hw.
  - intros i Hi Hocc. apply contains_spec in Hocc.
    vm_compute in Hi.
    repeat (destruct Hi as [<-|Hi]; [vm_compute in Hocc; discriminate|]). destruct Hi.
Defined.
